(** * Order placement, stock reservation and payment settlement

    A shallow embedding of the order / inventory / payment workflow of the
    e-commerce back end, in its three source variants:

    - the monolith, which keeps products, orders and payments in JSON files
      ([services/products.service.js], [services/orders.service.js],
      [services/payments.service.js]), with its notification service
      ([services/notifications.service.js]) and its order and payment routes
      ([routes/orders.routes.js], [routes/payments.routes.js]);
    - the orders service on SQLite ([orders/services/orders.service.js]),
      which still reserves stock through the JSON products service;
    - the payments service on SQLite ([payments/services/payments.service.js]),
      which reaches the orders service over HTTP.

    Conventions of the model.
    - A JSON file is the list of its records, in file order; [getX] parses the
      file and [saveX] writes it back, so a service function is a function
      from the file contents to a result and the new file contents.  Reading
      and writing files, and the statements sent to the database, are taken
      to succeed, so the [catch] branches of the services are reached only
      where the model says so.
    - Numbers.  In the three variants identifiers, quantities, stocks and
      amounts are integers [Z].  JavaScript holds them as binary64 values,
      which is the same thing as long as they are integers of magnitude at
      most [Number.MAX_SAFE_INTEGER]; statements whose truth depends on that
      bound carry it.  Module [Binary64] embeds the product and order
      functions of the monolith a second time with binary64 prices,
      quantities, stocks and totals, for what is said of sums of prices.
    - Servers.  Within a Node process a synchronous service function runs
      from start to end; module [SharedFile] follows two calls of
      [updateStock] file operation by file operation, as two processes on
      the same products file run them.
    - A result object [{ success, message, ... }] is a [Result]: [Success]
      carries the payload, [Failure] the message.
    - What the code draws from outside (the clock, [Math.random], the answer
      of a remote service) is an explicit argument. *)

From Stdlib Require Import PrimFloat FloatOps SpecFloat QArith.
From stdpp Require Import base decidable option list numbers strings pretty.

Local Open Scope string_scope.
Local Open Scope Z_scope.

(** ** Result objects *)

Inductive Result (A : Type) : Type :=
| Success (payload : A)
| Failure (message : string).
Arguments Success {A} payload.
Arguments Failure {A} message.

Definition success {A} (r : Result A) : bool :=
  match r with Success _ => true | Failure _ => false end.

(** ** config/config.js *)

Module config.

(** Modelled from the spec: the [config/config.js] of the monolith and of
    the orders service are not among the sources; the one of the payments
    service is, and the table below is that one.  Section 3 of the
    specification and the ENUM columns of the [Order] model list the same
    five fulfillment values and four payment values. *)
Definition PAYMENT_GATEWAYS : list string := ["paypal"; "stripe"].

Module ORDER_STATUSES.
Definition PENDING : string := "PENDING".
Definition PROCESSING : string := "PROCESSING".
Definition SHIPPED : string := "SHIPPED".
Definition DELIVERED : string := "DELIVERED".
Definition CANCELLED : string := "CANCELLED".
(** [Object.values(config.ORDER_STATUSES)] *)
Definition values : list string :=
  [PENDING; PROCESSING; SHIPPED; DELIVERED; CANCELLED].
End ORDER_STATUSES.

Module PAYMENT_STATUSES.
Definition PENDING : string := "PENDING".
Definition COMPLETED : string := "COMPLETED".
Definition FAILED : string := "FAILED".
Definition REFUNDED : string := "REFUNDED".
(** [Object.values(config.PAYMENT_STATUSES)] *)
Definition values : list string := [PENDING; COMPLETED; FAILED; REFUNDED].
End PAYMENT_STATUSES.

End config.

(** [Array.prototype.includes] on strings. *)
Definition includes (l : list string) (s : string) : bool := bool_decide (s ∈ l).

(** JavaScript truthiness of a value that is a string, a number, or missing
    ([undefined] or [null], here [None]): the empty string and 0 are falsy. *)
Definition truthy_string (s : option string) : bool :=
  match s with
  | Some s => negb (bool_decide (s = ""))
  | None => false
  end.

Definition truthy_number (n : option Z) : bool :=
  match n with
  | Some n => negb (bool_decide (n = 0))
  | None => false
  end.

(** ** Records of the data files *)

Module Product.
Record t : Type := mk {
  id : Z;
  nombre : string;
  descripcion : string;
  precio : Z;
  imagen_url : string;
  stock_disponible : Z;
  proveedor : string;
  costo : Z;
  activo : bool
}.

(** [product.stock_disponible = s] on an object read from the file. *)
Definition set_stock_disponible (s : Z) (p : t) : t :=
  mk (id p) (nombre p) (descripcion p) (precio p) (imagen_url p) s
     (proveedor p) (costo p) (activo p).

(** [product.activo = a] on an object read from the file. *)
Definition set_activo (a : bool) (p : t) : t :=
  mk (id p) (nombre p) (descripcion p) (precio p) (imagen_url p) (stock_disponible p)
     (proveedor p) (costo p) a.
End Product.

(** The body of a product update: any subset of the fields. *)
Module ProductData.
Record t : Type := mk {
  id : option Z;
  nombre : option string;
  descripcion : option string;
  precio : option Z;
  imagen_url : option string;
  stock_disponible : option Z;
  proveedor : option string;
  costo : option Z;
  activo : option bool
}.
End ProductData.

(** The body of a product creation: every field but [activo], which may be
    left out. *)
Module ProductInput.
Record t : Type := mk {
  nombre : string;
  descripcion : string;
  precio : Z;
  imagen_url : string;
  stock_disponible : Z;
  proveedor : string;
  costo : Z;
  activo : option bool
}.
End ProductInput.

(** [Math.max(...xs)] of a non-empty array, and the identifier the JSON
    services give a new record: [xs.length > 0 ? Math.max(...xs) + 1 : first]. *)
Definition Math_max (x : Z) (xs : list Z) : Z := foldl Z.max x xs.

Definition next_id (first : Z) (ids : list Z) : Z :=
  match ids with
  | [] => first
  | x :: xs => Math_max x xs + 1
  end.

(** ** services/products.service.js *)

Module productsService.

(** [products.findIndex(p => p.id === productId)], with the element. *)
Definition findIndex (products : list Product.t) (productId : Z)
  : option (nat * Product.t) :=
  list_find (λ p, Product.id p = productId) products.

Definition getProductById (products : list Product.t) (productId : Z)
  : Result Product.t :=
  match findIndex products productId with
  | None => Failure "Producto no encontrado"
  | Some (_, product) => Success product
  end.

(** [{ ...products[productIndex], ...productData }] *)
Definition spread (p : Product.t) (d : ProductData.t) : Product.t :=
  Product.mk
    (default (Product.id p) (ProductData.id d))
    (default (Product.nombre p) (ProductData.nombre d))
    (default (Product.descripcion p) (ProductData.descripcion d))
    (default (Product.precio p) (ProductData.precio d))
    (default (Product.imagen_url p) (ProductData.imagen_url d))
    (default (Product.stock_disponible p) (ProductData.stock_disponible d))
    (default (Product.proveedor p) (ProductData.proveedor d))
    (default (Product.costo p) (ProductData.costo d))
    (default (Product.activo p) (ProductData.activo d)).

Definition updateProduct (products : list Product.t) (productId : Z)
    (productData : ProductData.t) : Result Product.t * list Product.t :=
  match findIndex products productId with
  | None => (Failure "Producto no encontrado", products)
  | Some (productIndex, p) =>
      let p' := spread p productData in
      (Success p', <[productIndex := p']> products)
  end.

(** [updateStock(productId, quantity)]: a negative [quantity] reserves, a
    positive one releases.  On success the payload is [currentStock]. *)
Definition updateStock (products : list Product.t) (productId quantity : Z)
  : Result Z * list Product.t :=
  match findIndex products productId with
  | None => (Failure "Producto no encontrado", products)
  | Some (productIndex, p) =>
      if bool_decide (quantity < 0)
         && bool_decide (Product.stock_disponible p < Z.abs quantity)
      then (Failure "Stock insuficiente", products)
      else
        let p' :=
          Product.set_stock_disponible (Product.stock_disponible p + quantity) p in
        (Success (Product.stock_disponible p'), <[productIndex := p']> products)
  end.

(** [getAllProducts]: the active products only; [getAllProductsAdmin]
    returns the whole file. *)
Definition getAllProducts (products : list Product.t) : list Product.t :=
  filter (λ p, Product.activo p = true) products.

Definition getAllProductsAdmin (products : list Product.t) : list Product.t := products.


(** [deleteProduct]: the product is kept and marked inactive.  On success
    the payload is the message. *)
Definition deleteProduct (products : list Product.t) (productId : Z)
  : Result string * list Product.t :=
  match findIndex products productId with
  | None => (Failure "Producto no encontrado", products)
  | Some (productIndex, p) =>
      (Success "Producto eliminado correctamente",
       <[productIndex := Product.set_activo false p]> products)
  end.

End productsService.

(** The stock a reader of the products file sees for [productId]. *)
Definition stock_of (products : list Product.t) (productId : Z) : option Z :=
  match productsService.findIndex products productId with
  | None => None
  | Some (_, p) => Some (Product.stock_disponible p)
  end.

(** ** Request bodies, order lines and payments *)

(** A line item of a request body: [{ producto_id, cantidad }]. *)
Module Item.
Record t : Type := mk { producto_id : Z; cantidad : Z }.
End Item.

(** The object [{ producto_id, cantidad, precio_unitario }] that [createOrder]
    pushes for each item: a line of an order, with the price taken at order
    time. *)
Module Line.
Record t : Type := mk { producto_id : Z; cantidad : Z; precio_unitario : Z }.
End Line.

(** The body of an order-creation request. *)
Module OrderData.
Record t : Type := mk {
  cliente_id : Z;
  productos : list Item.t;
  metodoPago : string;
  direccion : string;
  telefono : string
}.
End OrderData.

(** A record of [payments.json], and a row of the payments table
    ([model/payment.js]). *)
Module Payment.
Record t : Type := mk {
  id : Z;
  pedido_id : Z;
  transaccion_id : option string;
  respuesta : string;
  estado : string;
  monto : Z;
  pasarela : string;
  fecha : string
}.

(** [payment.estado = e; payment.respuesta = r] *)
Definition set_estado_respuesta (e r : string) (p : t) : t :=
  mk (id p) (pedido_id p) (transaccion_id p) r e (monto p) (pasarela p) (fecha p).
End Payment.

(** ** The payment processors (simulated gateways)

    [approved] stands for the draw [Math.random() > 0.1] and [now_ms] for
    [Date.now()].  A successful charge returns the transaction id and the
    gateway's message.  A processor only logs two fields of the order it is
    given, so it is generic in the type [O] of order objects. *)

Record PaymentProcessor (O : Type) : Type := {
  processPayment : O → bool → Z → Result (string * string)
}.
Arguments processPayment {O} _ _ _ _.

Definition PayPalPaymentProcessor {O} : PaymentProcessor O := {|
  processPayment _ approved now_ms :=
    if approved
    then Success ("PP-" +:+ pretty now_ms,
                  "Pago procesado exitosamente a través de PayPal")
    else Failure "Error al procesar el pago con PayPal. Por favor, intente nuevamente."
|}.

Definition StripePaymentProcessor {O} : PaymentProcessor O := {|
  processPayment _ approved now_ms :=
    if approved
    then Success ("ST-" +:+ pretty now_ms,
                  "Pago procesado exitosamente a través de Stripe")
    else Failure "Error al procesar el pago con Stripe. Por favor, intente nuevamente."
|}.

(** The refund managers: [processRefund(transactionId, amount)] always
    succeeds, with a refund id made from [Date.now()] and a message. *)
Record RefundManager : Type := {
  processRefund : option string → Z → Z → Result (string * string)
}.

Definition PayPalRefundManager : RefundManager := {|
  processRefund _ _ now_ms :=
    Success ("PPR-" +:+ pretty now_ms, "Reembolso procesado exitosamente")
|}.

Definition StripeRefundManager : RefundManager := {|
  processRefund _ _ now_ms :=
    Success ("STR-" +:+ pretty now_ms, "Reembolso procesado exitosamente")
|}.

Module PaymentProcessorFactory.
(** [None] is the thrown [Error("Pasarela de pago no soportada: ...")]. *)
Definition createPaymentProcessor {O} (gateway : string)
  : option (PaymentProcessor O) :=
  if bool_decide (gateway = "paypal") then Some PayPalPaymentProcessor
  else if bool_decide (gateway = "stripe") then Some StripePaymentProcessor
  else None.

(** [None] is the same thrown error. *)
Definition createRefundManager (gateway : string) : option RefundManager :=
  if bool_decide (gateway = "paypal") then Some PayPalRefundManager
  else if bool_decide (gateway = "stripe") then Some StripeRefundManager
  else None.
End PaymentProcessorFactory.

(** The payload of a verified token, [req.user]. *)
Module User.
Record t : Type := mk { id : Z; role : string }.
End User.

(** ** The monolith: services over JSON files *)

Module Json.

(** A record of [orders.json]. *)
Module Order.
Record t : Type := mk {
  numeroPedido : Z;
  cliente_id : Z;
  productos : list Line.t;
  total : Z;
  estadoPedido : string;
  estadoPago : string;
  metodoPago : string;
  direccion : string;
  telefono : string;
  fecha : string
}.

Definition set_estadoPedido (s : string) (o : t) : t :=
  mk (numeroPedido o) (cliente_id o) (productos o) (total o) s (estadoPago o)
     (metodoPago o) (direccion o) (telefono o) (fecha o).

Definition set_estadoPago (s : string) (o : t) : t :=
  mk (numeroPedido o) (cliente_id o) (productos o) (total o) (estadoPedido o) s
     (metodoPago o) (direccion o) (telefono o) (fecha o).
End Order.

(** The data files. *)
Record Files : Type := mkFiles {
  products : list Product.t;
  orders : list Order.t;
  payments : list Payment.t
}.

Module ordersService.

(** [orders.findIndex(o => o.numeroPedido === orderId)], with the element. *)
Definition findIndex (orders : list Order.t) (orderId : Z)
  : option (nat * Order.t) :=
  list_find (λ o, Order.numeroPedido o = orderId) orders.

Definition getOrderById (orders : list Order.t) (orderId : Z) : Result Order.t :=
  match findIndex orders orderId with
  | None => Failure "Orden no encontrada"
  | Some (_, order) => Success order
  end.

(** The loop of [createOrder] over [orderData.productos]: look the product
    up, check its stock, reserve, record the line and add to the total.
    Every reservation is written to the products file at once; the first
    failure returns from [createOrder] with the file as it then is. *)
Fixpoint createOrder_items (products : list Product.t) (items : list Item.t)
    (productos : list Line.t) (total : Z)
  : Result (list Line.t * Z) * list Product.t :=
  match items with
  | [] => (Success (productos, total), products)
  | item :: rest =>
      match productsService.getProductById products (Item.producto_id item) with
      | Failure _ =>
          (Failure ("Producto " +:+ pretty (Item.producto_id item)
                    +:+ " no encontrado"), products)
      | Success producto =>
          if bool_decide (Product.stock_disponible producto < Item.cantidad item)
          then
            (Failure ("Stock insuficiente para el producto "
                      +:+ Product.nombre producto +:+ ". Disponible: "
                      +:+ pretty (Product.stock_disponible producto)), products)
          else
            match productsService.updateStock products (Product.id producto)
                    (- Item.cantidad item) with
            | (Failure message, products') => (Failure message, products')
            | (Success _, products') =>
                createOrder_items products' rest
                  (productos ++
                     [Line.mk (Product.id producto) (Item.cantidad item)
                        (Product.precio producto)])
                  (total + Product.precio producto * Item.cantidad item)
            end
      end
  end.

(** [now] is [new Date().toISOString()]. *)
Definition createOrder (fs : Files) (orderData : OrderData.t) (now : string)
  : Result Order.t * Files :=
  match createOrder_items (products fs) (OrderData.productos orderData) [] 0 with
  | (Failure message, products') =>
      (Failure message, mkFiles products' (orders fs) (payments fs))
  | (Success (productos, total), products') =>
      let newOrder :=
        Order.mk
          (next_id 1001 (Order.numeroPedido <$> orders fs))
          (OrderData.cliente_id orderData)
          productos
          total
          config.ORDER_STATUSES.PENDING
          config.PAYMENT_STATUSES.PENDING
          (OrderData.metodoPago orderData)
          (OrderData.direccion orderData)
          (OrderData.telefono orderData)
          now in
      (Success newOrder, mkFiles products' (orders fs ++ [newOrder]) (payments fs))
  end.

Definition updateOrderStatus (orders : list Order.t) (orderId : Z) (status : string)
  : Result Order.t * list Order.t :=
  match findIndex orders orderId with
  | None => (Failure "Orden no encontrada", orders)
  | Some (orderIndex, o) =>
      if negb (includes config.ORDER_STATUSES.values status)
      then (Failure "Estado no válido", orders)
      else
        let o' := Order.set_estadoPedido status o in
        (Success o', <[orderIndex := o']> orders)
  end.

Definition updatePaymentStatus (orders : list Order.t) (orderId : Z)
    (paymentStatus : string) : Result Order.t * list Order.t :=
  match findIndex orders orderId with
  | None => (Failure "Orden no encontrada", orders)
  | Some (orderIndex, o) =>
      if negb (includes config.PAYMENT_STATUSES.values paymentStatus)
      then (Failure "Estado de pago no válido", orders)
      else
        let o1 := Order.set_estadoPago paymentStatus o in
        let o2 :=
          if bool_decide (paymentStatus = config.PAYMENT_STATUSES.COMPLETED)
             && bool_decide (Order.estadoPedido o1 = config.ORDER_STATUSES.PENDING)
          then Order.set_estadoPedido config.ORDER_STATUSES.PROCESSING o1
          else o1 in
        (Success o2, <[orderIndex := o2]> orders)
  end.

(** The loop of [cancelOrder] over [order.productos]; the result of each
    [updateStock] is dropped. *)
Definition cancelOrder_items (products : list Product.t)
    (items : list Line.t) : list Product.t :=
  foldl
    (λ ps item,
       (productsService.updateStock ps (Line.producto_id item)
          (Line.cantidad item)).2)
    products items.

Definition cancelOrder (fs : Files) (orderId : Z) : Result Order.t * Files :=
  match findIndex (orders fs) orderId with
  | None => (Failure "Orden no encontrada", fs)
  | Some (orderIndex, order) =>
      if includes [config.ORDER_STATUSES.SHIPPED; config.ORDER_STATUSES.DELIVERED]
           (Order.estadoPedido order)
      then
        (Failure ("No se puede cancelar una orden en estado "
                  +:+ Order.estadoPedido order), fs)
      else
        let products' := cancelOrder_items (products fs) (Order.productos order) in
        let order' := Order.set_estadoPedido config.ORDER_STATUSES.CANCELLED order in
        (Success order',
         mkFiles products' (<[orderIndex := order']> (orders fs)) (payments fs))
  end.

End ordersService.

Module paymentsService.

(** [approved] and [now_ms] feed the gateway, [now] is the time stamp of
    the payment record. *)
Definition processPayment (fs : Files) (orderId : Z) (gateway : string)
    (approved : bool) (now_ms : Z) (now : string) : Result Payment.t * Files :=
  if negb (includes config.PAYMENT_GATEWAYS gateway)
  then (Failure "Pasarela de pago no válida", fs)
  else
    match ordersService.getOrderById (orders fs) orderId with
    | Failure message => (Failure message, fs)
    | Success order =>
        if bool_decide (Order.estadoPago order = config.PAYMENT_STATUSES.COMPLETED)
        then (Failure "La orden ya ha sido pagada", fs)
        else
          match PaymentProcessorFactory.createPaymentProcessor gateway with
          | None => (Failure "Error al procesar pago", fs)
          | Some paymentProcessor =>
              match processPayment paymentProcessor order approved now_ms with
              | Failure message => (Failure message, fs)
              | Success (transactionId, message) =>
                  let orders' :=
                    (ordersService.updatePaymentStatus (orders fs) orderId
                       config.PAYMENT_STATUSES.COMPLETED).2 in
                  let newPayment :=
                    Payment.mk
                      (next_id 2001 (Payment.id <$> payments fs))
                      orderId
                      (Some transactionId)
                      message
                      config.PAYMENT_STATUSES.COMPLETED
                      (Order.total order)
                      gateway
                      now in
                  (Success newPayment,
                   mkFiles (products fs) orders' (payments fs ++ [newPayment]))
              end
          end
    end.

(** [payments.filter(payment => payment.pedido_id === orderId)] *)
Definition getOrderPayments (payments : list Payment.t) (orderId : Z) : list Payment.t :=
  filter (λ p, Payment.pedido_id p = orderId) payments.

(** [payments.findIndex(p => p.id === paymentId)], with the element. *)
Definition findIndex (payments : list Payment.t) (paymentId : Z)
  : option (nat * Payment.t) :=
  list_find (λ p, Payment.id p = paymentId) payments.

Definition getPaymentById (payments : list Payment.t) (paymentId : Z) : Result Payment.t :=
  match findIndex payments paymentId with
  | None => Failure "Pago no encontrado"
  | Some (_, payment) => Success payment
  end.

(** [cancelPayment].  The processor's own [cancelPayment] only logs and its
    answer is dropped; building the processor throws for a gateway name that
    is not known, which the [catch] turns into a failure before anything is
    written.  The answer of [updatePaymentStatus] is dropped. *)
Definition cancelPayment (fs : Files) (paymentId : Z) : Result Payment.t * Files :=
  match findIndex (payments fs) paymentId with
  | None => (Failure "Pago no encontrado", fs)
  | Some (paymentIndex, payment) =>
      if negb (bool_decide (Payment.estado payment = config.PAYMENT_STATUSES.PENDING))
      then
        (Failure ("No se puede cancelar un pago en estado " +:+ Payment.estado payment), fs)
      else
        if truthy_string (Payment.transaccion_id payment)
           && negb (bool_decide
                      (is_Some
                         (PaymentProcessorFactory.createPaymentProcessor (O := Order.t)
                            (Payment.pasarela payment))))
        then (Failure "Error al cancelar pago", fs)
        else
          let payment' :=
            Payment.set_estado_respuesta "CANCELLED" "Pago cancelado por el usuario"
              payment in
          let orders' :=
            (ordersService.updatePaymentStatus (orders fs) (Payment.pedido_id payment)
               "CANCELLED").2 in
          (Success payment',
           mkFiles (products fs) orders' (<[paymentIndex := payment']> (payments fs)))
  end.

(** [amount || payment.monto] *)
Definition refundAmount (amount : option Z) (monto : Z) : Z :=
  if truthy_number amount then default monto amount else monto.

(** [processRefund(paymentId, amount)]; [amount] may be missing.  On success
    the payload is the refund id, the gateway's message and the payment. *)
Definition processRefund (fs : Files) (paymentId : Z) (amount : option Z) (now_ms : Z)
  : Result (string * string * Payment.t) * Files :=
  match findIndex (payments fs) paymentId with
  | None => (Failure "Pago no encontrado", fs)
  | Some (paymentIndex, payment) =>
      if negb (bool_decide (Payment.estado payment = config.PAYMENT_STATUSES.COMPLETED))
      then (Failure "Solo se pueden reembolsar pagos completados", fs)
      else
        if bool_decide (Payment.monto payment < refundAmount amount (Payment.monto payment))
        then (Failure "El monto a reembolsar no puede exceder el monto del pago", fs)
        else
          match PaymentProcessorFactory.createRefundManager (Payment.pasarela payment) with
          | None => (Failure "Error al procesar reembolso", fs)
          | Some refundManager =>
              match processRefund refundManager (Payment.transaccion_id payment)
                      (refundAmount amount (Payment.monto payment)) now_ms with
              | Failure message => (Failure message, fs)
              | Success (refundId, message) =>
                  let payment' :=
                    Payment.set_estado_respuesta config.PAYMENT_STATUSES.REFUNDED
                      ("Reembolso procesado: " +:+ message) payment in
                  let orders' :=
                    (ordersService.updatePaymentStatus (orders fs)
                       (Payment.pedido_id payment) config.PAYMENT_STATUSES.REFUNDED).2 in
                  (Success (refundId, message, payment'),
                   mkFiles (products fs) orders'
                     (<[paymentIndex := payment']> (payments fs)))
              end
          end
  end.

End paymentsService.


(** A record of [notifications.json]. *)
Module Notification.
Record t : Type := mk {
  id : Z;
  cliente_id : Z;
  mensaje : string;
  tipo : string;
  programada_para : string;
  enviada : bool;
  fecha_envio : option string
}.

(** [notification.enviada = true; notification.fecha_envio = now] *)
Definition set_sent (now : string) (n : t) : t :=
  mk (id n) (cliente_id n) (mensaje n) (tipo n) (programada_para n) true (Some now).
End Notification.

(** The argument of [createNotification]: [cliente_id] may be [null],
    [programada_para] and [enviada] may be left out. *)
Module NotificationData.
Record t : Type := mk {
  cliente_id : option Z;
  mensaje : string;
  tipo : string;
  programada_para : option string;
  enviada : option bool
}.
End NotificationData.

Module notificationsService.

Definition getClientNotifications (notifications : list Notification.t) (clientId : Z)
  : list Notification.t :=
  filter (λ n, Notification.cliente_id n = clientId) notifications.

Definition findIndex (notifications : list Notification.t) (notificationId : Z)
  : option (nat * Notification.t) :=
  list_find (λ n, Notification.id n = notificationId) notifications.

Definition getNotificationById (notifications : list Notification.t) (notificationId : Z)
  : Result Notification.t :=
  match findIndex notifications notificationId with
  | None => Failure "Notificación no encontrada"
  | Some (_, notification) => Success notification
  end.

(** [now] is [new Date().toISOString()]. *)
Definition createNotification (notifications : list Notification.t)
    (notificationData : NotificationData.t) (now : string)
  : Result Notification.t * list Notification.t :=
  if negb (truthy_number (NotificationData.cliente_id notificationData))
     || bool_decide (NotificationData.mensaje notificationData = "")
     || bool_decide (NotificationData.tipo notificationData = "")
  then
    (Failure "Datos incompletos. Se requiere cliente_id, mensaje y tipo", notifications)
  else
    let enviada := default false (NotificationData.enviada notificationData) in
    let newNotification :=
      Notification.mk
        (next_id 3001 (Notification.id <$> notifications))
        (default 0 (NotificationData.cliente_id notificationData))
        (NotificationData.mensaje notificationData)
        (NotificationData.tipo notificationData)
        (if truthy_string (NotificationData.programada_para notificationData)
         then default now (NotificationData.programada_para notificationData)
         else now)
        enviada
        (if enviada then Some now else None) in
    (Success newNotification, (notifications ++ [newNotification])%list).

Definition markAsSent (notifications : list Notification.t) (notificationId : Z)
    (now : string) : Result Notification.t * list Notification.t :=
  match findIndex notifications notificationId with
  | None => (Failure "Notificación no encontrada", notifications)
  | Some (notificationIndex, n) =>
      (Success (Notification.set_sent now n),
       <[notificationIndex := Notification.set_sent now n]> notifications)
  end.

(** The message of an order-status notification ([switch (status)]). *)
Definition orderStatusMessage (orderId : Z) (status : string) : string :=
  let pedido := "Tu pedido #" +:+ pretty orderId in
  if bool_decide (status = "PENDING")
  then pedido +:+ " ha sido recibido y está pendiente de pago."
  else if bool_decide (status = "PROCESSING")
  then pedido +:+ " está siendo procesado. Te notificaremos cuando sea enviado."
  else if bool_decide (status = "SHIPPED")
  then pedido +:+ " ha sido enviado y llegará en 3-5 días hábiles."
  else if bool_decide (status = "DELIVERED")
  then pedido +:+ " ha sido entregado. ¡Gracias por tu compra!"
  else if bool_decide (status = "CANCELLED")
  then pedido +:+ " ha sido cancelado. Para más información, contáctanos."
  else "Actualización de tu pedido #" +:+ pretty orderId +:+ ": estado " +:+ status +:+ ".".

(** The [this] of the three [send...] functions.  They are arrow functions
    of an object literal, so their [this] is the [this] of the module, which
    is the module's first [exports] object: an object without properties,
    also after [module.exports] is set to the service.  Reading
    [this.createNotification] gives [undefined], here [None]; calling it
    throws a [TypeError] inside the [try]. *)
Definition this_createNotification
  : option (list Notification.t → NotificationData.t → string →
            Result Notification.t * list Notification.t) := None.

Definition sendOrderStatusNotification (notifications : list Notification.t)
    (orderId : Z) (clientId : option Z) (status : string) (now : string)
  : Result Notification.t * list Notification.t :=
  let notificationData :=
    NotificationData.mk clientId (orderStatusMessage orderId status) "order_status"
      (Some now) (Some true) in
  match this_createNotification with
  | Some f => f notifications notificationData now
  | None =>
      (Failure "Error al enviar notificación de estado de pedido", notifications)
  end.

(** The message of a payment-status notification ([switch (status)]). *)
Definition paymentStatusMessage (orderId : Z) (status : string) : string :=
  let pedido := "tu pedido #" +:+ pretty orderId in
  if bool_decide (status = "PENDING")
  then "Tu pedido #" +:+ pretty orderId
       +:+ " está pendiente de pago. Por favor, completa el proceso de pago."
  else if bool_decide (status = "COMPLETED")
  then "Hemos recibido el pago de " +:+ pedido +:+ ". ¡Gracias!"
  else if bool_decide (status = "FAILED")
  then "El pago de " +:+ pedido +:+ " ha fallado. Por favor, intenta nuevamente."
  else if bool_decide (status = "REFUNDED")
  then "Hemos procesado el reembolso de " +:+ pedido
       +:+ ". El monto será acreditado en 3-5 días hábiles."
  else "Actualización del pago de " +:+ pedido +:+ ": estado " +:+ status +:+ ".".

Definition sendPaymentStatusNotification (notifications : list Notification.t)
    (orderId : Z) (clientId : option Z) (status : string) (now : string)
  : Result Notification.t * list Notification.t :=
  let notificationData :=
    NotificationData.mk clientId (paymentStatusMessage orderId status) "payment_status"
      (Some now) (Some true) in
  match this_createNotification with
  | Some f => f notifications notificationData now
  | None =>
      (Failure "Error al enviar notificación de estado de pago", notifications)
  end.

Definition sendPromotionNotification (notifications : list Notification.t)
    (clientId : option Z) (mensaje : string) (programadaPara : option string)
    (now : string) : Result Notification.t * list Notification.t :=
  if bool_decide (mensaje = "")
  then (Failure "El mensaje es obligatorio", notifications)
  else
    let notificationData :=
      NotificationData.mk clientId mensaje "promotion"
        (Some (if truthy_string programadaPara then default now programadaPara else now))
        (Some false) in
    match this_createNotification with
    | Some f => f notifications notificationData now
    | None => (Failure "Error al enviar notificación promocional", notifications)
    end.

End notificationsService.

(** ** The monolith's routes

    A handler is given the verified user of the request ([req.user], the
    payload of the token), the parsed parameters and body, and the files.
    It answers with an HTTP status and a JSON envelope: [Failure message] is
    [{ status: "error", message }], [Success payload] is
    [{ status: "success", ... }].  A parameter read with [parseInt] is
    [None] when it is [NaN], which is the number of no record. *)

Module ordersRoutes.

(** [GET /api/orders/:id] *)
Definition get_id (orders : list Order.t) (user : User.t) (orderId : option Z)
  : Z * Result Order.t :=
  match from_option (ordersService.getOrderById orders) (Failure "Orden no encontrada")
          orderId with
  | Failure message => (404, Failure message)
  | Success order =>
      if negb (bool_decide (User.role user = "admin"))
         && negb (bool_decide (Order.cliente_id order = User.id user))
      then (403, Failure "No tienes permiso para ver esta orden")
      else (200, Success order)
  end.

(** [POST /api/orders]: the body with [cliente_id] replaced by the user's. *)
Definition post (fs : Files) (user : User.t) (body : OrderData.t) (now : string)
  : Z * Result Order.t * Files :=
  let orderData :=
    OrderData.mk (User.id user) (OrderData.productos body) (OrderData.metodoPago body)
      (OrderData.direccion body) (OrderData.telefono body) in
  match ordersService.createOrder fs orderData now with
  | (Failure message, fs') => (400, Failure message, fs')
  | (Success order, fs') => (201, Success order, fs')
  end.

(** [DELETE /api/orders/:id] *)
Definition delete_id (fs : Files) (user : User.t) (orderId : option Z)
  : Z * Result Order.t * Files :=
  match orderId with
  | None => (404, Failure "Orden no encontrada", fs)
  | Some orderId =>
      match ordersService.getOrderById (orders fs) orderId with
      | Failure message => (404, Failure message, fs)
      | Success order =>
          if negb (bool_decide (User.role user = "admin"))
             && negb (bool_decide (Order.cliente_id order = User.id user))
          then (403, Failure "No tienes permiso para cancelar esta orden", fs)
          else
            match ordersService.cancelOrder fs orderId with
            | (Failure message, fs') => (400, Failure message, fs')
            | (Success order', fs') => (200, Success order', fs')
            end
      end
  end.

End ordersRoutes.

Module paymentsRoutes.

(** [POST /api/payments/process], body [{ orderId, gateway }] *)
Definition post_process (fs : Files) (user : User.t) (orderId : option Z)
    (gateway : option string) (approved : bool) (now_ms : Z) (now : string)
  : Z * Result Payment.t * Files :=
  match orderId, gateway with
  | Some orderId', Some gateway' =>
      if negb (truthy_number orderId) || negb (truthy_string gateway)
      then
        (400, Failure "El ID de la orden y la pasarela de pago son requeridos", fs)
      else
        match ordersService.getOrderById (orders fs) orderId' with
        | Failure message => (404, Failure message, fs)
        | Success order =>
            if negb (bool_decide (User.role user = "admin"))
               && negb (bool_decide (Order.cliente_id order = User.id user))
            then (403, Failure "No tienes permiso para pagar esta orden", fs)
            else
              match paymentsService.processPayment fs orderId' gateway' approved now_ms
                      now with
              | (Failure message, fs') => (400, Failure message, fs')
              | (Success payment, fs') => (200, Success payment, fs')
              end
        end
  | _, _ => (400, Failure "El ID de la orden y la pasarela de pago son requeridos", fs)
  end.

(** [DELETE /api/payments/:id].  For a user who is not an admin the handler
    reads [orderCheck.order.cliente_id]; when the order of the payment is
    not in the orders file [orderCheck.order] is [undefined], the read
    throws and the [catch] answers 500. *)
Definition delete_id (fs : Files) (user : User.t) (paymentId : option Z)
  : Z * Result Payment.t * Files :=
  match from_option (paymentsService.getPaymentById (payments fs))
          (Failure "Pago no encontrado") paymentId with
  | Failure message => (404, Failure message, fs)
  | Success payment =>
      let orderCheck :=
        ordersService.getOrderById (orders fs) (Payment.pedido_id payment) in
      let cancel :=
        match paymentsService.cancelPayment fs (Payment.id payment) with
        | (Failure message, fs') => (400, Failure message, fs')
        | (Success payment', fs') => (200, Success payment', fs')
        end in
      if bool_decide (User.role user = "admin") then cancel
      else
        match orderCheck with
        | Failure _ => (500, Failure "Error interno del servidor", fs)
        | Success order =>
            if negb (bool_decide (Order.cliente_id order = User.id user))
            then (403, Failure "No tienes permiso para cancelar este pago", fs)
            else cancel
        end
  end.

End paymentsRoutes.

End Json.

(** ** The services on SQLite

    A table is the list of its rows; [AUTOINCREMENT] keys come from a
    per-table counter.  A Sequelize transaction works on a copy of the
    database: [commit] installs the copy, [rollback] drops it.  The products
    are not in the database: the orders service requires the JSON
    [products.service], whose [updateStock] takes two arguments and never
    sees the transaction passed as a third. *)

Module Sqlite.

(** [model/order.js] *)
Module Order.
Record t : Type := mk {
  numeroPedido : Z;
  cliente_id : Z;
  total : Z;
  estadoPedido : string;
  estadoPago : string;
  metodoPago : string;
  direccion : string;
  telefono : string;
  fecha : string
}.

Definition set_estadoPedido (s : string) (o : t) : t :=
  mk (numeroPedido o) (cliente_id o) (total o) s (estadoPago o)
     (metodoPago o) (direccion o) (telefono o) (fecha o).

Definition set_estadoPago (s : string) (o : t) : t :=
  mk (numeroPedido o) (cliente_id o) (total o) (estadoPedido o) s
     (metodoPago o) (direccion o) (telefono o) (fecha o).
End Order.

(** [model/orderProduct.js] *)
Module OrderProduct.
Record t : Type := mk {
  id : Z;
  order_id : Z;
  producto_id : Z;
  cantidad : Z;
  precio_unitario : Z
}.
End OrderProduct.

(** An [Order] instance loaded with [include: productos]. *)
Record OrderWithProducts : Type := mkOrderWithProducts {
  order : Order.t;
  productos : list OrderProduct.t
}.

(** The database of the orders service: its two tables and their
    [AUTOINCREMENT] counters. *)
Record Database : Type := mkDatabase {
  orders : list Order.t;
  order_products : list OrderProduct.t;
  orders_seq : Z;
  order_products_seq : Z
}.

(** [Order.findByPk(pk)], with the position of the row; the lines of an
    order are the rows of [order_products] that point to it. *)
Definition Order_findByPk (db : Database) (pk : Z) : option (nat * Order.t) :=
  list_find (λ o, Order.numeroPedido o = pk) (orders db).

Definition productos_of (db : Database) (pk : Z) : list OrderProduct.t :=
  filter (λ r, OrderProduct.order_id r = pk) (order_products db).

Definition Order_findByPk_include (db : Database) (pk : Z)
  : option OrderWithProducts :=
  match Order_findByPk db pk with
  | None => None
  | Some (_, o) => Some (mkOrderWithProducts o (productos_of db pk))
  end.

(** [order.save()]: write the instance back to its row. *)
Definition Order_save (db : Database) (o : Order.t) : Database :=
  match Order_findByPk db (Order.numeroPedido o) with
  | None => db
  | Some (i, _) =>
      mkDatabase (<[i := o]> (orders db)) (order_products db)
        (orders_seq db) (order_products_seq db)
  end.

(** [Order.create] and [OrderProduct.create]: a new row under the next key;
    [now] is the default of the [fecha] column. *)
Definition Order_create (db : Database) (cliente_id total : Z)
    (estadoPedido estadoPago metodoPago direccion telefono now : string)
  : Order.t * Database :=
  let o :=
    Order.mk (orders_seq db + 1) cliente_id total estadoPedido estadoPago
      metodoPago direccion telefono now in
  (o, mkDatabase (orders db ++ [o]) (order_products db)
        (orders_seq db + 1) (order_products_seq db)).

Definition OrderProduct_create (db : Database)
    (order_id producto_id cantidad precio_unitario : Z)
  : OrderProduct.t * Database :=
  let r :=
    OrderProduct.mk (order_products_seq db + 1) order_id producto_id cantidad
      precio_unitario in
  (r, mkDatabase (orders db) (order_products db ++ [r])
        (orders_seq db) (order_products_seq db + 1)).

(** What the orders service works on: its database and the products file. *)
Record World : Type := mkWorld {
  db : Database;
  products : list Product.t
}.

Module ordersService.

Definition getOrderById (db : Database) (orderId : Z) : Result OrderWithProducts :=
  match Order_findByPk_include db orderId with
  | None => Failure "Orden no encontrada"
  | Some order => Success order
  end.

(** First loop of [createOrder]: look up and check every item against
    the products file, which it only reads. *)
Fixpoint createOrder_validate (products : list Product.t) (items : list Item.t)
    (productos : list Line.t) (total : Z)
  : Result (list Line.t * Z) :=
  match items with
  | [] => Success (productos, total)
  | item :: rest =>
      match productsService.getProductById products (Item.producto_id item) with
      | Failure _ =>
          Failure ("Producto " +:+ pretty (Item.producto_id item)
                   +:+ " no encontrado")
      | Success producto =>
          if bool_decide (Product.stock_disponible producto < Item.cantidad item)
          then
            Failure ("Stock insuficiente para el producto "
                     +:+ Product.nombre producto +:+ ". Disponible: "
                     +:+ pretty (Product.stock_disponible producto))
          else
            createOrder_validate products rest
              (productos ++
                 [Line.mk (Product.id producto) (Item.cantidad item)
                    (Product.precio producto)])
              (total + Product.precio producto * Item.cantidad item)
      end
  end.

(** Second loop of [createOrder]: insert each line in the transaction
    [tx] and reserve its stock in the products file. *)
Fixpoint createOrder_lines (tx : Database) (products : list Product.t)
    (order_id : Z) (productos : list Line.t)
  : Result unit * Database * list Product.t :=
  match productos with
  | [] => (Success (), tx, products)
  | item :: rest =>
      let '(_, tx') :=
        OrderProduct_create tx order_id (Line.producto_id item)
          (Line.cantidad item) (Line.precio_unitario item) in
      match productsService.updateStock products (Line.producto_id item)
              (- Line.cantidad item) with
      | (Failure message, products') => (Failure message, tx', products')
      | (Success _, products') => createOrder_lines tx' products' order_id rest
      end
  end.

Definition createOrder (w : World) (orderData : OrderData.t) (now : string)
  : Result (option OrderWithProducts) * World :=
  let transaction := db w in
  match createOrder_validate (products w) (OrderData.productos orderData) [] 0 with
  | Failure message => (Failure message, w)
  | Success (productos, total) =>
      let '(newOrder, transaction) :=
        Order_create transaction (OrderData.cliente_id orderData) total
          config.ORDER_STATUSES.PENDING config.PAYMENT_STATUSES.PENDING
          (OrderData.metodoPago orderData) (OrderData.direccion orderData)
          (OrderData.telefono orderData) now in
      match createOrder_lines transaction (products w)
              (Order.numeroPedido newOrder) productos with
      | (Failure message, _, products') =>
          (Failure message, mkWorld (db w) products')
      | (Success _, transaction, products') =>
          (Success (Order_findByPk_include transaction (Order.numeroPedido newOrder)),
           mkWorld transaction products')
      end
  end.

Definition updateOrderStatus (db : Database) (orderId : Z) (status : string)
  : Result Order.t * Database :=
  match Order_findByPk db orderId with
  | None => (Failure "Orden no encontrada", db)
  | Some (_, o) =>
      if negb (includes config.ORDER_STATUSES.values status)
      then (Failure "Estado no válido", db)
      else
        let o' := Order.set_estadoPedido status o in
        (Success o', Order_save db o')
  end.

Definition updatePaymentStatus (db : Database) (orderId : Z)
    (paymentStatus : string) : Result Order.t * Database :=
  match Order_findByPk db orderId with
  | None => (Failure "Orden no encontrada", db)
  | Some (_, o) =>
      if negb (includes config.PAYMENT_STATUSES.values paymentStatus)
      then (Failure "Estado de pago no válido", db)
      else
        let o1 := Order.set_estadoPago paymentStatus o in
        let o2 :=
          if bool_decide (paymentStatus = config.PAYMENT_STATUSES.COMPLETED)
             && bool_decide (Order.estadoPedido o1 = config.ORDER_STATUSES.PENDING)
          then Order.set_estadoPedido config.ORDER_STATUSES.PROCESSING o1
          else o1 in
        (Success o2, Order_save db o2)
  end.

(** The loop of [cancelOrder] over [order.productos]: the first failed
    [updateStock] stops it. *)
Fixpoint cancelOrder_items (products : list Product.t)
    (items : list OrderProduct.t) : Result unit * list Product.t :=
  match items with
  | [] => (Success (), products)
  | item :: rest =>
      match productsService.updateStock products (OrderProduct.producto_id item)
              (OrderProduct.cantidad item) with
      | (Failure message, products') => (Failure message, products')
      | (Success _, products') => cancelOrder_items products' rest
      end
  end.

Definition cancelOrder (w : World) (orderId : Z)
  : Result OrderWithProducts * World :=
  let transaction := db w in
  match Order_findByPk_include transaction orderId with
  | None => (Failure "Orden no encontrada", w)
  | Some loaded =>
      if includes [config.ORDER_STATUSES.SHIPPED; config.ORDER_STATUSES.DELIVERED]
           (Order.estadoPedido (order loaded))
      then
        (Failure ("No se puede cancelar una orden en estado "
                  +:+ Order.estadoPedido (order loaded)), w)
      else
        match cancelOrder_items (products w) (productos loaded) with
        | (Failure message, products') =>
            (Failure message, mkWorld (db w) products')
        | (Success _, products') =>
            let order' :=
              Order.set_estadoPedido config.ORDER_STATUSES.CANCELLED (order loaded) in
            let transaction := Order_save transaction order' in
            (Success (mkOrderWithProducts order' (productos loaded)),
             mkWorld transaction products')
        end
  end.

End ordersService.

(** The database of the payments service: the payments table, whose rows
    are [Payment.t], and its counter. *)
Record PaymentsDatabase : Type := mkPaymentsDatabase {
  payments : list Payment.t;
  payments_seq : Z
}.

(** [Payment.findOne({ where: { pedido_id, estado } })] *)
Definition Payment_findOne (pdb : PaymentsDatabase) (pedido_id : Z) (estado : string)
  : option Payment.t :=
  snd <$> list_find
            (λ p, Payment.pedido_id p = pedido_id ∧ Payment.estado p = estado)
            (payments pdb).

Definition Payment_create (pdb : PaymentsDatabase) (pedido_id : Z)
    (transaccion_id : option string) (respuesta estado : string) (monto : Z)
    (pasarela now : string) : Payment.t * PaymentsDatabase :=
  let p :=
    Payment.mk (payments_seq pdb + 1) pedido_id transaccion_id respuesta estado
      monto pasarela now in
  (p, mkPaymentsDatabase (payments pdb ++ [p]) (payments_seq pdb + 1)).

(** A [PATCH /api/orders/:id/payment-status] sent by [ordersClient]. *)
Record PaymentStatusPatch : Type := mkPatch {
  patch_orderId : Z;
  patch_paymentStatus : string
}.

(** [Payment.findByPk(paymentId)], with the position of the row, and
    [payment.save()]. *)
Definition Payment_findByPk (pdb : PaymentsDatabase) (pk : Z) : option (nat * Payment.t) :=
  list_find (λ p, Payment.id p = pk) (payments pdb).

Definition Payment_save (pdb : PaymentsDatabase) (p : Payment.t) : PaymentsDatabase :=
  match Payment_findByPk pdb (Payment.id p) with
  | None => pdb
  | Some (i, _) => mkPaymentsDatabase (<[i := p]> (payments pdb)) (payments_seq pdb)
  end.

Module paymentsService.

(** [orderResult] is what [ordersClient.getOrderById] resolved to (the
    client catches every error, so it always resolves): on [Success] the
    order in the response, on [Failure] an object without [order].  The
    answer of [ordersClient.updatePaymentStatus] is not looked at; the
    requests sent are returned next to the database. *)
Definition processPayment (pdb : PaymentsDatabase) (orderId : Z) (gateway : string)
    (orderResult : Result OrderWithProducts)
    (approved : bool) (now_ms : Z) (now : string)
  : Result Payment.t * PaymentsDatabase * list PaymentStatusPatch :=
  let transaction := pdb in
  if negb (includes config.PAYMENT_GATEWAYS gateway)
  then (Failure "Pasarela de pago no válida", pdb, [])
  else
    match Payment_findOne transaction orderId config.PAYMENT_STATUSES.COMPLETED with
    | Some _ => (Failure "La orden ya ha sido pagada", pdb, [])
    | None =>
        match PaymentProcessorFactory.createPaymentProcessor gateway with
        | None => (Failure "Error al procesar pago", pdb, [])
        | Some paymentProcessor =>
            match orderResult with
            | Failure _ =>
                (* [order] is undefined: reading [order.numeroPedido] throws *)
                (Failure "Error al procesar pago", pdb, [])
            | Success loaded =>
                match processPayment paymentProcessor loaded approved now_ms with
                | Failure message => (Failure message, pdb, [])
                | Success (transactionId, message) =>
                    let '(newPayment, transaction) :=
                      Payment_create transaction orderId (Some transactionId) message
                        config.PAYMENT_STATUSES.COMPLETED (Order.total (order loaded))
                        gateway now in
                    (Success newPayment, transaction,
                     [mkPatch orderId config.PAYMENT_STATUSES.COMPLETED])
                end
            end
        end
    end.

(** [cancelPayment]: as in the monolith, with the status update of the
    order sent to the orders service. *)
Definition cancelPayment (pdb : PaymentsDatabase) (paymentId : Z)
  : Result Payment.t * PaymentsDatabase * list PaymentStatusPatch :=
  let transaction := pdb in
  match Payment_findByPk transaction paymentId with
  | None => (Failure "Pago no encontrado", pdb, [])
  | Some (_, payment) =>
      if negb (bool_decide (Payment.estado payment = config.PAYMENT_STATUSES.PENDING))
      then
        (Failure ("No se puede cancelar un pago en estado " +:+ Payment.estado payment),
         pdb, [])
      else
        if truthy_string (Payment.transaccion_id payment)
           && negb (bool_decide
                      (is_Some
                         (PaymentProcessorFactory.createPaymentProcessor
                            (O := OrderWithProducts) (Payment.pasarela payment))))
        then (Failure "Error al cancelar pago", pdb, [])
        else
          let payment' :=
            Payment.set_estado_respuesta "CANCELLED" "Pago cancelado por el usuario"
              payment in
          let transaction := Payment_save transaction payment' in
          (Success payment', transaction, [mkPatch (Payment.pedido_id payment) "CANCELLED"])
  end.

Definition processRefund (pdb : PaymentsDatabase) (paymentId : Z) (amount : option Z)
    (now_ms : Z)
  : Result (string * string * Payment.t) * PaymentsDatabase * list PaymentStatusPatch :=
  let transaction := pdb in
  match Payment_findByPk transaction paymentId with
  | None => (Failure "Pago no encontrado", pdb, [])
  | Some (_, payment) =>
      if negb (bool_decide (Payment.estado payment = config.PAYMENT_STATUSES.COMPLETED))
      then (Failure "Solo se pueden reembolsar pagos completados", pdb, [])
      else
        let refundAmount :=
          if truthy_number amount then default (Payment.monto payment) amount
          else Payment.monto payment in
        if bool_decide (Payment.monto payment < refundAmount)
        then (Failure "El monto a reembolsar no puede exceder el monto del pago", pdb, [])
        else
          match PaymentProcessorFactory.createRefundManager (Payment.pasarela payment) with
          | None => (Failure "Error al procesar reembolso", pdb, [])
          | Some refundManager =>
              match processRefund refundManager (Payment.transaccion_id payment)
                      refundAmount now_ms with
              | Failure message => (Failure message, pdb, [])
              | Success (refundId, message) =>
                  let payment' :=
                    Payment.set_estado_respuesta config.PAYMENT_STATUSES.REFUNDED
                      ("Reembolso procesado: " +:+ message) payment in
                  let transaction := Payment_save transaction payment' in
                  (Success (refundId, message, payment'), transaction,
                   [mkPatch (Payment.pedido_id payment) config.PAYMENT_STATUSES.REFUNDED])
              end
          end
  end.

End paymentsService.

End Sqlite.


(** ** Requests in flight on the products file

    [updateStock] reads the products file ([getProducts]), works on the
    parsed copy and, unless it has returned a failure before, writes the
    whole copy back ([saveProducts]).  It is synchronous and awaits nothing,
    so within one Node process a call runs from its read to its write before
    another request is served.  Nothing locks the file: for two server
    processes that share it (the monolith and the orders service both load
    [services/products.service.js], which opens [../data/products.json]) the
    reads and writes of two calls can alternate. *)

Module SharedFile.

(** A call [updateStock(productId, quantity)]. *)
Record Call : Type := mkCall { productId : Z; quantity : Z }.

(** Where a call stands: not started, holding the copy that [getProducts]
    returned, or returned. *)
Inductive Request : Type :=
| Waiting (c : Call)
| Loaded (c : Call) (products : list Product.t)
| Returned (r : Result Z).

(** One file operation of a request.  The first is the read.  The second
    is the rest of the body, run on the copy: a failure returns before
    [saveProducts], a success writes the copy over the file, whatever the
    file holds by then. *)
Definition step (file : list Product.t) (req : Request) : list Product.t * Request :=
  match req with
  | Waiting c => (file, Loaded c file)
  | Loaded c products =>
      match productsService.updateStock products (productId c) (quantity c) with
      | (Success currentStock, products') => (products', Returned (Success currentStock))
      | (Failure message, _) => (file, Returned (Failure message))
      end
  | Returned r => (file, Returned r)
  end.

(** Two requests and a schedule that names, file operation by file
    operation, which of them moves: [false] the first, [true] the second. *)
Fixpoint run (schedule : list bool) (file : list Product.t) (first second : Request)
  : list Product.t * Request * Request :=
  match schedule with
  | [] => (file, first, second)
  | false :: rest =>
      let '(file', first') := step file first in run rest file' first' second
  | true :: rest =>
      let '(file', second') := step file second in run rest file' first second'
  end.

(** The schedules of two calls served by one process: one call from its
    read to its write, then the other. *)
Definition serial : list (list bool) :=
  [[false; false; true; true]; [true; true; false; false]].

(** The other schedules, which two processes can produce: the second read
    comes before the first write. *)
Definition overlapping : list (list bool) :=
  [[false; true; false; true]; [false; true; true; false];
   [true; false; true; false]; [true; false; false; true]].

End SharedFile.

(** ** The monolith's products and orders with JavaScript numbers

    Above, the numbers of the data files are integers.  That is exact for
    identifiers, and for quantities and stocks as long as they are integers
    of magnitude at most [2^53]; it says nothing of prices with decimals.
    Here the same functions of [services/products.service.js] and
    [services/orders.service.js] are embedded with every price, quantity,
    stock and total a binary64 value, the only kind of number JavaScript
    has: [+], [*], unary [-], [<] and [Math.abs] are the IEEE 754
    operations, each result rounded to the nearest value, and a decimal
    such as 0.1 in a file or a request is the binary64 value nearest to it.
    Identifiers stay integers; they are only compared. *)

Module Binary64.

Module Product.
Record t : Type := mk {
  id : Z;
  nombre : string;
  descripcion : string;
  precio : float;
  imagen_url : string;
  stock_disponible : float;
  proveedor : string;
  costo : float;
  activo : bool
}.

Definition set_stock_disponible (s : float) (p : t) : t :=
  mk (id p) (nombre p) (descripcion p) (precio p) (imagen_url p) s
     (proveedor p) (costo p) (activo p).
End Product.

Module ProductData.
Record t : Type := mk {
  id : option Z;
  nombre : option string;
  descripcion : option string;
  precio : option float;
  imagen_url : option string;
  stock_disponible : option float;
  proveedor : option string;
  costo : option float;
  activo : option bool
}.
End ProductData.

Module Item.
Record t : Type := mk { producto_id : Z; cantidad : float }.
End Item.

Module Line.
Record t : Type := mk { producto_id : Z; cantidad : float; precio_unitario : float }.
End Line.

Module OrderData.
Record t : Type := mk {
  cliente_id : Z;
  productos : list Item.t;
  metodoPago : string;
  direccion : string;
  telefono : string
}.
End OrderData.

Module Order.
Record t : Type := mk {
  numeroPedido : Z;
  cliente_id : Z;
  productos : list Line.t;
  total : float;
  estadoPedido : string;
  estadoPago : string;
  metodoPago : string;
  direccion : string;
  telefono : string;
  fecha : string
}.
End Order.

Record Files : Type := mkFiles {
  products : list Product.t;
  orders : list Order.t
}.

Module productsService.

Definition findIndex (products : list Product.t) (productId : Z)
  : option (nat * Product.t) :=
  list_find (λ p, Product.id p = productId) products.

Definition getProductById (products : list Product.t) (productId : Z)
  : Result Product.t :=
  match findIndex products productId with
  | None => Failure "Producto no encontrado"
  | Some (_, product) => Success product
  end.

(** [{ ...products[productIndex], ...productData }] *)
Definition spread (p : Product.t) (d : ProductData.t) : Product.t :=
  Product.mk
    (default (Product.id p) (ProductData.id d))
    (default (Product.nombre p) (ProductData.nombre d))
    (default (Product.descripcion p) (ProductData.descripcion d))
    (default (Product.precio p) (ProductData.precio d))
    (default (Product.imagen_url p) (ProductData.imagen_url d))
    (default (Product.stock_disponible p) (ProductData.stock_disponible d))
    (default (Product.proveedor p) (ProductData.proveedor d))
    (default (Product.costo p) (ProductData.costo d))
    (default (Product.activo p) (ProductData.activo d)).

Definition updateProduct (products : list Product.t) (productId : Z)
    (productData : ProductData.t) : Result Product.t * list Product.t :=
  match findIndex products productId with
  | None => (Failure "Producto no encontrado", products)
  | Some (productIndex, p) =>
      let p' := spread p productData in
      (Success p', <[productIndex := p']> products)
  end.

Definition updateStock (products : list Product.t) (productId : Z) (quantity : float)
  : Result float * list Product.t :=
  match findIndex products productId with
  | None => (Failure "Producto no encontrado", products)
  | Some (productIndex, p) =>
      if PrimFloat.ltb quantity 0
         && PrimFloat.ltb (Product.stock_disponible p) (PrimFloat.abs quantity)
      then (Failure "Stock insuficiente", products)
      else
        let p' :=
          Product.set_stock_disponible
            (PrimFloat.add (Product.stock_disponible p) quantity) p in
        (Success (Product.stock_disponible p'), <[productIndex := p']> products)
  end.

End productsService.

Module ordersService.

(** The loop of [createOrder].  [Number_toString] is JavaScript's conversion
    of a number to a string, which the template of the stock message
    applies; the model leaves it open. *)
Fixpoint createOrder_items (Number_toString : float → string)
    (products : list Product.t) (items : list Item.t)
    (productos : list Line.t) (total : float)
  : Result (list Line.t * float) * list Product.t :=
  match items with
  | [] => (Success (productos, total), products)
  | item :: rest =>
      match productsService.getProductById products (Item.producto_id item) with
      | Failure _ =>
          (Failure ("Producto " +:+ pretty (Item.producto_id item)
                    +:+ " no encontrado"), products)
      | Success producto =>
          if PrimFloat.ltb (Product.stock_disponible producto) (Item.cantidad item)
          then
            (Failure ("Stock insuficiente para el producto "
                      +:+ Product.nombre producto +:+ ". Disponible: "
                      +:+ Number_toString (Product.stock_disponible producto)), products)
          else
            match productsService.updateStock products (Product.id producto)
                    (PrimFloat.opp (Item.cantidad item)) with
            | (Failure message, products') => (Failure message, products')
            | (Success _, products') =>
                createOrder_items Number_toString products' rest
                  (productos ++
                     [Line.mk (Product.id producto) (Item.cantidad item)
                        (Product.precio producto)])
                  (PrimFloat.add total
                     (PrimFloat.mul (Product.precio producto) (Item.cantidad item)))
            end
      end
  end.

Definition createOrder (Number_toString : float → string) (fs : Files)
    (orderData : OrderData.t) (now : string) : Result Order.t * Files :=
  match createOrder_items Number_toString (products fs) (OrderData.productos orderData)
          [] 0%float with
  | (Failure message, products') => (Failure message, mkFiles products' (orders fs))
  | (Success (productos, total), products') =>
      let newOrder :=
        Order.mk
          (next_id 1001 (Order.numeroPedido <$> orders fs))
          (OrderData.cliente_id orderData)
          productos
          total
          config.ORDER_STATUSES.PENDING
          config.PAYMENT_STATUSES.PENDING
          (OrderData.metodoPago orderData)
          (OrderData.direccion orderData)
          (OrderData.telefono orderData)
          now in
      (Success newOrder, mkFiles products' (orders fs ++ [newOrder]))
  end.

End ordersService.

End Binary64.

(** ** Vocabulary of the properties *)



Definition Line_pair (l : Line.t) : Z * Z := (Line.producto_id l, Line.cantidad l).

Definition OrderProduct_pair (r : Sqlite.OrderProduct.t) : Z * Z :=
  (Sqlite.OrderProduct.producto_id r, Sqlite.OrderProduct.cantidad r).

(** Total quantity that a list of (product, quantity) pairs holds of
    [productId]. *)
Definition quantity_for (productId : Z) (lines : list (Z * Z)) : Z :=
  foldr (λ l acc, if bool_decide (l.1 = productId) then l.2 + acc else acc) 0 lines.

(** The unit price a reader of the products file sees for [productId]. *)
Definition precio_of (products : list Product.t) (productId : Z) : option Z :=
  match productsService.findIndex products productId with
  | None => None
  | Some (_, p) => Some (Product.precio p)
  end.

(** The lines that [cancelOrder] can release without a miss: the product is
    in the products file and the quantity is not negative. *)
Definition releasable (products : list Product.t) (l : Z * Z) : Prop :=
  0 ≤ l.2 ∧ is_Some (stock_of products l.1).

(** The files after [n] calls of the monolith's [cancelOrder] for the same
    order, and the world after [n] such calls of the SQLite one. *)
Definition Json_cancel_repeatedly (n : nat) (fs : Json.Files) (orderId : Z) : Json.Files :=
  Nat.iter n (λ fs, (Json.ordersService.cancelOrder fs orderId).2) fs.

Definition Sqlite_cancel_repeatedly (n : nat) (w : Sqlite.World) (orderId : Z)
  : Sqlite.World :=
  Nat.iter n (λ w, (Sqlite.ordersService.cancelOrder w orderId).2) w.

(** The transitions of the fulfillment status that the specification
    allows: forward along PENDING, PROCESSING, SHIPPED, DELIVERED, or to
    CANCELLED from a status other than SHIPPED and DELIVERED.  Staying in
    place is no transition. *)
Definition stage (status : string) : option nat :=
  if bool_decide (status = config.ORDER_STATUSES.PENDING) then Some 0%nat
  else if bool_decide (status = config.ORDER_STATUSES.PROCESSING) then Some 1%nat
  else if bool_decide (status = config.ORDER_STATUSES.SHIPPED) then Some 2%nat
  else if bool_decide (status = config.ORDER_STATUSES.DELIVERED) then Some 3%nat
  else None.

Definition spec_allowed_transition (old new : string) : bool :=
  bool_decide (old = new)
  || match stage old, stage new with
     | Some a, Some b => bool_decide (a < b)%nat
     | _, _ => false
     end
  || (bool_decide (new = config.ORDER_STATUSES.CANCELLED)
      && negb (includes [config.ORDER_STATUSES.SHIPPED; config.ORDER_STATUSES.DELIVERED]
                 old)).

(** Every order of [before] is still there in [after], with a fulfillment
    status that is the old one or one the specification allows after it. *)
Definition Json_statuses_move_as_allowed (before after : list Json.Order.t) : Prop :=
  ∀ (orderId : Z) (o : Json.Order.t),
    Json.ordersService.getOrderById before orderId = Success o →
    ∃ o' : Json.Order.t,
      Json.ordersService.getOrderById after orderId = Success o'
      ∧ spec_allowed_transition (Json.Order.estadoPedido o) (Json.Order.estadoPedido o')
        = true.

Definition Sqlite_statuses_move_as_allowed (before after : Sqlite.Database) : Prop :=
  ∀ (orderId : Z) (loaded : Sqlite.OrderWithProducts),
    Sqlite.ordersService.getOrderById before orderId = Success loaded →
    ∃ loaded' : Sqlite.OrderWithProducts,
      Sqlite.ordersService.getOrderById after orderId = Success loaded'
      ∧ spec_allowed_transition
          (Sqlite.Order.estadoPedido (Sqlite.order loaded))
          (Sqlite.Order.estadoPedido (Sqlite.order loaded')) = true.


(** The monolith's files with another products file. *)
Definition with_products (fs : Json.Files) (products : list Product.t) : Json.Files :=
  Json.mkFiles products (Json.orders fs) (Json.payments fs).

(** No two records of a file carry the same identifier. *)
Definition unique_ids {A} (key : A → Z) (l : list A) : Prop := NoDup (key <$> l).




(** The COMPLETED payments of an order in the payments table. *)
Definition Sqlite_completed_payments (pdb : Sqlite.PaymentsDatabase) (orderId : Z)
  : list Payment.t :=
  filter
    (λ p, Payment.pedido_id p = orderId
          ∧ Payment.estado p = config.PAYMENT_STATUSES.COMPLETED)
    (Sqlite.payments pdb).

(** A payments table as the payments service keeps it: no payment is
    PENDING, no order has two COMPLETED payments, and the keys are distinct
    and not beyond the counter. *)
Definition Sqlite_payments_ok (pdb : Sqlite.PaymentsDatabase) : Prop :=
  Forall (λ p, Payment.estado p ≠ config.PAYMENT_STATUSES.PENDING) (Sqlite.payments pdb)
  ∧ (∀ orderId, (length (Sqlite_completed_payments pdb orderId) ≤ 1)%nat)
  ∧ Forall (λ p, Payment.id p ≤ Sqlite.payments_seq pdb) (Sqlite.payments pdb)
  ∧ unique_ids Payment.id (Sqlite.payments pdb).

(** Two products files that differ at most in the [activo] flags. *)
Definition same_but_activo (products products' : list Product.t) : Prop :=
  Forall2 (λ p p', p' = Product.set_activo (Product.activo p') p) products products'.

(** An order of the monolith once its payment is recorded: payment status
    COMPLETED, and fulfillment status PROCESSING if it was PENDING. *)
Definition Json_paid (o : Json.Order.t) : Json.Order.t :=
  let o1 := Json.Order.set_estadoPago config.PAYMENT_STATUSES.COMPLETED o in
  if bool_decide (Json.Order.estadoPedido o = config.ORDER_STATUSES.PENDING)
  then Json.Order.set_estadoPedido config.ORDER_STATUSES.PROCESSING o1
  else o1.

(** The message of a simulated gateway that declines a charge. *)
Definition declined_message (gateway : string) : string :=
  if bool_decide (gateway = "paypal")
  then "Error al procesar el pago con PayPal. Por favor, intente nuevamente."
  else "Error al procesar el pago con Stripe. Por favor, intente nuevamente.".

(** The total of a list of lines as [createOrder] takes it: from 0, line
    after line, [total += precio_unitario * cantidad], each product and each
    partial sum rounded to binary64. *)
Definition Binary64_add_line (total : float) (l : Binary64.Line.t) : float :=
  PrimFloat.add total
    (PrimFloat.mul (Binary64.Line.precio_unitario l) (Binary64.Line.cantidad l)).

Definition Binary64_total (lines : list Binary64.Line.t) : float :=
  foldl Binary64_add_line 0%float lines.

Definition Binary64_Item_pair (item : Binary64.Item.t) : Z * float :=
  (Binary64.Item.producto_id item, Binary64.Item.cantidad item).

Definition Binary64_Line_pair (l : Binary64.Line.t) : Z * float :=
  (Binary64.Line.producto_id l, Binary64.Line.cantidad l).

Definition Binary64_precio_of (products : list Binary64.Product.t) (productId : Z)
  : option float :=
  match Binary64.productsService.findIndex products productId with
  | None => None
  | Some (_, p) => Some (Binary64.Product.precio p)
  end.

(** A product update as a step on the files: it reads and writes
    [products.json] only.  [Binary64_updateProducts] runs a sequence of
    updates, each given as (product id, body). *)
Definition Binary64_updateProduct (fs : Binary64.Files) (productId : Z)
    (productData : Binary64.ProductData.t)
  : Result Binary64.Product.t * Binary64.Files :=
  let '(r, products') :=
    Binary64.productsService.updateProduct (Binary64.products fs) productId productData in
  (r, Binary64.mkFiles products' (Binary64.orders fs)).

Definition Binary64_updateProducts (fs : Binary64.Files)
    (updates : list (Z * Binary64.ProductData.t)) : Binary64.Files :=
  foldl (λ fs u, (Binary64_updateProduct fs u.1 u.2).2) fs updates.

(** The rational number that a finite binary64 value is: mantissa times a
    power of two. *)
Definition Binary64_exact (x : float) : option Q :=
  match Prim2SF x with
  | S754_zero _ => Some 0%Q
  | S754_finite s m e =>
      let n := if s then Z.neg m else Z.pos m in
      Some (if bool_decide (0 ≤ e) then inject_Z (n * 2 ^ e)
            else (n # Pos.pow 2 (Z.to_pos (- e)))%Q)
  | _ => None
  end.

(** [Number.MAX_SAFE_INTEGER]: up to it, binary64 holds every integer and
    adds integers without rounding. *)
Definition Number_MAX_SAFE_INTEGER : Z := 2 ^ 53 - 1.

(** Every stock of the file is a natural number, and still within the safe
    integers after [n] releases of the quantities of [lines]. *)
Definition within_safe_integers (products : list Product.t) (lines : list (Z * Z))
    (n : nat) : Prop :=
  Forall
    (λ p, 0 ≤ Product.stock_disponible p
          ∧ Product.stock_disponible p + Z.of_nat n * quantity_for (Product.id p) lines
            ≤ Number_MAX_SAFE_INTEGER)
    products.

(** ** Sample data

    Two products, A (10 in stock, price 500) and B (5 in stock, price 250);
    the order 1001 of three units of A, in several states, in the monolith's
    files and in the database of the orders service. *)

Definition ex_A : Product.t := Product.mk 1 "A" "" 500 "" 10 "" 300 true.
Definition ex_B : Product.t := Product.mk 2 "B" "" 250 "" 5 "" 100 true.
Definition ex_products : list Product.t := [ex_A; ex_B].

(** The products once three units of A are reserved. *)
Definition ex_products_reserved : list Product.t :=
  [Product.mk 1 "A" "" 500 "" 7 "" 300 true; ex_B].

Definition ex_now : string := "2025-01-01T00:00:00.000Z".
Definition ex_later : string := "2025-01-02T00:00:00.000Z".
Definition ex_now_ms : Z := 1735689600000.

Definition ex_orderData (items : list Item.t) : OrderData.t :=
  OrderData.mk 7 items "paypal" "Calle 1" "555".

Definition ex_files : Json.Files := Json.mkFiles ex_products [] [].

Definition ex_world : Sqlite.World :=
  Sqlite.mkWorld (Sqlite.mkDatabase [] [] 1000 0) ex_products.

Definition ex_order : Json.Order.t :=
  Json.Order.mk 1001 7 [Line.mk 1 3 500] 1500 "PENDING" "PENDING" "paypal" "Calle 1" "555"
    ex_now.

Definition ex_completed_of (estadoPedido : string) : Json.Order.t :=
  Json.Order.mk 1001 7 [Line.mk 1 3 500] 1500 estadoPedido "COMPLETED" "paypal" "Calle 1"
    "555" ex_now.

Definition ex_payment : Payment.t :=
  Payment.mk 2001 1001 (Some "PP-1735689600000")
    "Pago procesado exitosamente a través de PayPal" "COMPLETED" 1500 "paypal" ex_now.

Definition ex_files_ordered : Json.Files :=
  Json.mkFiles ex_products_reserved [ex_order] [].

Definition ex_files_shipped : Json.Files :=
  Json.mkFiles ex_products_reserved [Json.Order.set_estadoPedido "SHIPPED" ex_order] [].

Definition ex_files_cancelled : Json.Files :=
  Json.mkFiles ex_products_reserved [Json.Order.set_estadoPedido "CANCELLED" ex_order] [].

Definition ex_files_paid : Json.Files :=
  Json.mkFiles ex_products_reserved [ex_completed_of "PROCESSING"] [ex_payment].

Definition ex_order_row : Sqlite.Order.t :=
  Sqlite.Order.mk 1001 7 1500 "PENDING" "PENDING" "paypal" "Calle 1" "555" ex_now.

Definition ex_order_lines : list Sqlite.OrderProduct.t :=
  [Sqlite.OrderProduct.mk 1 1001 1 3 500].

Definition ex_world_with (estadoPedido : string) : Sqlite.World :=
  Sqlite.mkWorld
    (Sqlite.mkDatabase [Sqlite.Order.set_estadoPedido estadoPedido ex_order_row]
       ex_order_lines 1001 1)
    ex_products_reserved.

Definition ex_loaded_completed : Sqlite.OrderWithProducts :=
  Sqlite.mkOrderWithProducts
    (Sqlite.Order.mk 1001 7 1500 "PROCESSING" "COMPLETED" "paypal" "Calle 1" "555" ex_now)
    ex_order_lines.

(** Three products priced 0.1, 0.2 and 0.3, that is, at the binary64 values
    nearest to these decimals, each with 10 units in stock; an order request
    for a list of (product, quantity). *)
Definition ex_decimal (id : Z) (precio : float) : Binary64.Product.t :=
  Binary64.Product.mk id "P" "" precio "" 10%float "" 0%float true.

Definition ex_decimal_files : Binary64.Files :=
  Binary64.mkFiles
    [ex_decimal 1 0x1.999999999999ap-4%float;
     ex_decimal 2 0x1.999999999999ap-3%float;
     ex_decimal 3 0x1.3333333333333p-2%float]
    [].

Definition ex_decimal_orderData (items : list (Z * float)) : Binary64.OrderData.t :=
  Binary64.OrderData.mk 7 ((λ i, Binary64.Item.mk i.1 i.2) <$> items) "paypal" "Calle 1" "555".

(** A stand-in for [Number_toString] in the examples; none of them reaches
    the message that applies it. *)
Definition ex_Number_toString (x : float) : string := "".



(** The products file after the order of three units of A and an admin's
    [PUT /api/products/1] with the body [{ id: 99 }]. *)
Definition ex_products_rekeyed : list Product.t :=
  (productsService.updateProduct ex_products_reserved 1
     (ProductData.mk (Some 99) None None None None None None None None)).2.

(** * Properties *)

(** ** Finding and replacing records by key *)

Section list_find_insert.
Context {A : Type} (P : A → Prop) `{!∀ x, Decision (P x)}.

(** Replacing the element at [i] by one that satisfies [P] exactly when the
    old one does leaves every search by [P] at the same index. *)
Lemma list_find_insert_same (l : list A) (i : nat) (x y : A) :
  l !! i = Some x →
  (P x ↔ P y) →
  list_find P (<[i := y]> l)
  = (λ jz : nat * A, (jz.1, if decide (jz.1 = i) then y else jz.2)) <$> list_find P l.
Proof.
  revert i. induction l as [|a l IH]; intros i Hi HP; [done|].
  destruct i as [|i]; simpl in *.
  - injection Hi as ->.
    destruct (decide (P x)), (decide (P y)); try tauto; simpl.
    by destruct (list_find P l) as [[j z]|].
  - destruct (decide (P a)); simpl; [done|].
    rewrite (IH i Hi HP).
    destruct (list_find P l) as [[j z]|]; [|done].
    cbn [fmap option_fmap option_map prod_map fst snd id].
    destruct (decide (j = i)), (decide (S j = S i)); try lia; done.
Qed.

Lemma list_find_lookup (l : list A) (i : nat) (x : A) :
  list_find P l = Some (i, x) → l !! i = Some x.
Proof. intros Hf. by apply list_find_Some in Hf as (? & _). Qed.

Lemma list_find_holds (l : list A) (i : nat) (x : A) :
  list_find P l = Some (i, x) → P x.
Proof. intros Hf. by apply list_find_Some in Hf as (_ & ? & _). Qed.

End list_find_insert.

(** ** The products file under [updateStock] *)

Section products.
Implicit Types (products : list Product.t) (p : Product.t).

Lemma findIndex_insert products productId i p p' other :
  productsService.findIndex products productId = Some (i, p) →
  Product.id p' = Product.id p →
  productsService.findIndex (<[i := p']> products) other
  = (λ jz : nat * Product.t, (jz.1, if decide (jz.1 = i) then p' else jz.2))
      <$> productsService.findIndex products other.
Proof.
  intros Hf Hid. unfold productsService.findIndex.
  apply list_find_insert_same with (x := p).
  - by apply list_find_lookup in Hf.
  - by rewrite Hid.
Qed.

Lemma stock_of_insert products productId i p s other :
  productsService.findIndex products productId = Some (i, p) →
  stock_of (<[i := Product.set_stock_disponible s p]> products) other
  = if decide (other = productId) then Some s else stock_of products other.
Proof.
  intros Hf. unfold stock_of.
  rewrite (findIndex_insert _ _ _ _ _ _ Hf) by done.
  pose proof (list_find_lookup _ _ _ _ Hf) as Hi.
  pose proof (list_find_holds _ _ _ _ Hf) as Hp. simpl in Hp.
  destruct (productsService.findIndex products other) as [[j z]|] eqn:Ho; simpl.
  - pose proof (list_find_lookup _ _ _ _ Ho) as Hj.
    pose proof (list_find_holds _ _ _ _ Ho) as Hz. simpl in Hz.
    destruct (decide (j = i)) as [->|Hji], (decide (other = productId)) as [->|Hne];
      simpl; try done.
    + congruence.
    + unfold productsService.findIndex in *. congruence.
  - destruct (decide (other = productId)) as [->|]; [congruence|done].
Qed.

Lemma precio_of_insert products productId i p s other :
  productsService.findIndex products productId = Some (i, p) →
  precio_of (<[i := Product.set_stock_disponible s p]> products) other
  = precio_of products other.
Proof.
  intros Hf. unfold precio_of.
  rewrite (findIndex_insert _ _ _ _ _ _ Hf) by done.
  pose proof (list_find_lookup _ _ _ _ Hf) as Hi.
  destruct (productsService.findIndex products other) as [[j z]|] eqn:Ho; simpl; [|done].
  pose proof (list_find_lookup _ _ _ _ Ho) as Hj.
  destruct (decide (j = i)) as [->|]; [|done].
  simpl. congruence.
Qed.

(** [updateStock] on a product that is there: the two outcomes. *)
Lemma updateStock_found products productId quantity i p :
  productsService.findIndex products productId = Some (i, p) →
  productsService.updateStock products productId quantity
  = if bool_decide (quantity < 0)
       && bool_decide (Product.stock_disponible p < Z.abs quantity)
    then (Failure "Stock insuficiente", products)
    else (Success (Product.stock_disponible p + quantity),
          <[i := Product.set_stock_disponible (Product.stock_disponible p + quantity) p]>
            products).
Proof. intros Hf. unfold productsService.updateStock. by rewrite Hf. Qed.

Lemma stock_of_Some products productId s :
  stock_of products productId = Some s →
  ∃ i p, productsService.findIndex products productId = Some (i, p)
         ∧ Product.stock_disponible p = s.
Proof.
  unfold stock_of.
  destruct (productsService.findIndex products productId) as [[i p]|]; [|done].
  intros [= <-]. eauto.
Qed.

(** A release, or a reservation within the stock, succeeds and moves the
    stock of that product only. *)
Lemma updateStock_ok products productId quantity s :
  stock_of products productId = Some s →
  0 ≤ quantity ∨ - quantity ≤ s →
  ∃ products',
    productsService.updateStock products productId quantity
    = (Success (s + quantity), products')
    ∧ (∀ other, stock_of products' other
                = if decide (other = productId) then Some (s + quantity)
                  else stock_of products other)
    ∧ (∀ other, precio_of products' other = precio_of products other).
Proof.
  intros (i & p & Hf & <-)%stock_of_Some Hq.
  rewrite (updateStock_found _ _ _ _ _ Hf).
  assert (bool_decide (quantity < 0)
          && bool_decide (Product.stock_disponible p < Z.abs quantity) = false) as ->.
  { apply andb_false_iff. rewrite !bool_decide_eq_false. lia. }
  eexists. split; [done|]. split; intros other.
  - by apply stock_of_insert.
  - by eapply precio_of_insert.
Qed.

(** A reservation beyond the stock is refused and writes nothing. *)
Lemma updateStock_insufficient products productId quantity s :
  stock_of products productId = Some s →
  quantity < 0 → s < - quantity →
  productsService.updateStock products productId quantity
  = (Failure "Stock insuficiente", products).
Proof.
  intros (i & p & Hf & <-)%stock_of_Some Hneg Hlt.
  rewrite (updateStock_found _ _ _ _ _ Hf).
  rewrite !bool_decide_eq_true_2 by lia. done.
Qed.

End products.

(** ** Reserving stock *)



(** C2, counterexample.  Product B has stock 5 and two servers reserve 5
    units each.  When both read the products file before either writes it,
    both pass the stock check on their copy, both succeed and both report a
    remaining stock of 0: ten units are promised out of five. *)
Lemma concurrent_reservations_both_succeed :
  stock_of ex_products 2 = Some 5
  ∧ SharedFile.run [false; true; false; true] ex_products
      (SharedFile.Waiting (SharedFile.mkCall 2 (- 5)))
      (SharedFile.Waiting (SharedFile.mkCall 2 (- 5)))
    = ([ex_A; Product.set_stock_disponible 0 ex_B],
       SharedFile.Returned (Success 0), SharedFile.Returned (Success 0)).
Proof. split; reflexivity. Qed.

(** C2, as the code has it.  Two calls reserve [Q] units each of a product
    whose stock is exactly [Q], with [Q ≥ 1].  When one call runs from its
    read to its write before the other starts, as the calls of one Node
    process do, the first succeeds and the second fails with "Stock
    insuficiente".  When the second read comes before the first write, as
    it can between two processes that share the file, both calls succeed.
    In every schedule the stock ends at 0 and at least one call succeeds. *)
Theorem concurrent_reservations_one_wins
    (products : list Product.t) (productId Q : Z) :
  stock_of products productId = Some Q →
  0 < Q →
  let reserve := SharedFile.Waiting (SharedFile.mkCall productId (- Q)) in
  (∀ schedule, schedule ∈ SharedFile.serial →
     ∃ products' : list Product.t,
       stock_of products' productId = Some 0
       ∧ (SharedFile.run schedule products reserve reserve
          = (products', SharedFile.Returned (Success 0),
             SharedFile.Returned (Failure "Stock insuficiente"))
          ∨ SharedFile.run schedule products reserve reserve
            = (products', SharedFile.Returned (Failure "Stock insuficiente"),
               SharedFile.Returned (Success 0))))
  ∧ (∀ schedule, schedule ∈ SharedFile.overlapping →
       ∃ products' : list Product.t,
         stock_of products' productId = Some 0
         ∧ SharedFile.run schedule products reserve reserve
           = (products', SharedFile.Returned (Success 0),
              SharedFile.Returned (Success 0))).
Proof.
  intros Hs HQ reserve.
  destruct (updateStock_ok products productId (- Q) Q Hs) as (products' & Hu & Hst & _);
    [lia|].
  replace (Q + - Q) with 0 in * by lia.
  assert (stock_of products' productId = Some 0) as Hs'.
  { rewrite Hst. by rewrite decide_True. }
  pose proof (updateStock_insufficient products' productId (- Q) 0 Hs') as Hu'.
  split.
  - intros schedule Hin. exists products'. split; [done|].
    unfold SharedFile.serial in Hin.
    apply elem_of_cons in Hin as [->|Hin];
      [|apply list_elem_of_singleton in Hin as ->].
    + left. cbn [SharedFile.run SharedFile.step reserve SharedFile.productId
                 SharedFile.quantity]. rewrite Hu.
      cbn [SharedFile.run SharedFile.step SharedFile.productId SharedFile.quantity].
      by rewrite Hu' by lia.
    + right. cbn [SharedFile.run SharedFile.step reserve SharedFile.productId
                  SharedFile.quantity]. rewrite Hu.
      cbn [SharedFile.run SharedFile.step SharedFile.productId SharedFile.quantity].
      by rewrite Hu' by lia.
  - intros schedule Hin. exists products'. split; [done|].
    unfold SharedFile.overlapping in Hin.
    repeat (apply elem_of_cons in Hin as [->|Hin]);
      [..|by apply elem_of_nil in Hin];
      cbn [SharedFile.run SharedFile.step reserve SharedFile.productId
           SharedFile.quantity]; rewrite Hu;
      cbn [SharedFile.run SharedFile.step SharedFile.productId SharedFile.quantity];
      by rewrite ?Hu.
Qed.

Lemma concurrent_reservations_one_wins_witness :
  (∃ products' : list Product.t,
     stock_of products' 2 = Some 0
     ∧ (SharedFile.run [true; true; false; false] ex_products
          (SharedFile.Waiting (SharedFile.mkCall 2 (- 5)))
          (SharedFile.Waiting (SharedFile.mkCall 2 (- 5)))
        = (products', SharedFile.Returned (Success 0),
           SharedFile.Returned (Failure "Stock insuficiente"))
        ∨ SharedFile.run [true; true; false; false] ex_products
            (SharedFile.Waiting (SharedFile.mkCall 2 (- 5)))
            (SharedFile.Waiting (SharedFile.mkCall 2 (- 5)))
          = (products', SharedFile.Returned (Failure "Stock insuficiente"),
             SharedFile.Returned (Success 0))))
  ∧ ∃ products' : list Product.t,
      stock_of products' 2 = Some 0
      ∧ SharedFile.run [true; false; false; true] ex_products
          (SharedFile.Waiting (SharedFile.mkCall 2 (- 5)))
          (SharedFile.Waiting (SharedFile.mkCall 2 (- 5)))
        = (products', SharedFile.Returned (Success 0), SharedFile.Returned (Success 0)).
Proof.
  destruct (concurrent_reservations_one_wins ex_products 2 5) as [Hserial Hoverlap];
    [reflexivity|lia|].
  split.
  - apply Hserial. apply list_elem_of_In. vm_compute. auto.
  - apply Hoverlap. apply list_elem_of_In. vm_compute. auto.
Defined.

(** ** Creating an order *)

(** C1.  The monolith's [createOrder] on the products A (stock 10) and B
    (stock 5) and the items [(A, 2), (B, 999)]: the stock check of the second
    item fails, [createOrder] returns a failure and stores no order, and the
    two units of A reserved for the first item stay reserved: A's stock is 8
    after the call, not 10. *)
Theorem createOrder_failure_keeps_reservations :
  let before := ex_files in
  let result :=
    Json.ordersService.createOrder before
      (ex_orderData [Item.mk 1 2; Item.mk 2 999]) ex_now in
  result.1 = Failure "Stock insuficiente para el producto B. Disponible: 5"
  ∧ Json.orders result.2 = Json.orders before
  ∧ stock_of (Json.products before) 1 = Some 10
  ∧ stock_of (Json.products result.2) 1 = Some 8.
Proof. vm_compute. done. Qed.

(** The orders service on SQLite checks every item before it reserves any:
    when the look-up or the stock check of an item fails, nothing has been
    written, and nothing is. *)
Lemma Sqlite_createOrder_validation_failure
    (w : Sqlite.World) (orderData : OrderData.t) (now message : string) :
  Sqlite.ordersService.createOrder_validate (Sqlite.products w)
    (OrderData.productos orderData) [] 0 = Failure message →
  Sqlite.ordersService.createOrder w orderData now = (Failure message, w).
Proof. intros H. unfold Sqlite.ordersService.createOrder. by rewrite H. Qed.

(** When instead a reservation fails after the checks (the same product
    twice, each quantity within the stock, the sum beyond it), the
    transaction is rolled back and the earlier reservation stays in the
    products file, which is outside the transaction. *)
Lemma Sqlite_createOrder_duplicate_items :
  let result :=
    Sqlite.ordersService.createOrder ex_world
      (ex_orderData [Item.mk 1 6; Item.mk 1 6]) ex_now in
  result.1 = Failure "Stock insuficiente"
  ∧ Sqlite.db result.2 = Sqlite.db ex_world
  ∧ stock_of (Sqlite.products ex_world) 1 = Some 10
  ∧ stock_of (Sqlite.products result.2) 1 = Some 4.
Proof. vm_compute. done. Qed.


(** *** The total of an order, in JavaScript's numbers *)

Lemma Binary64_precio_of_insert (products : list Binary64.Product.t) (productId : Z)
    (i : nat) (p : Binary64.Product.t) (s : float) (other : Z) :
  Binary64.productsService.findIndex products productId = Some (i, p) →
  Binary64_precio_of (<[i := Binary64.Product.set_stock_disponible s p]> products) other
  = Binary64_precio_of products other.
Proof.
  intros Hf. unfold Binary64_precio_of, Binary64.productsService.findIndex in *.
  pose proof (list_find_lookup _ _ _ _ Hf) as Hi.
  rewrite (list_find_insert_same _ products i p
             (Binary64.Product.set_stock_disponible s p) Hi) by done.
  destruct (list_find (λ a, Binary64.Product.id a = other) products) as [[j z]|] eqn:Ho;
    simpl; [|done].
  pose proof (list_find_lookup _ _ _ _ Ho) as Hj.
  destruct (decide (j = i)) as [->|]; [|done].
  simpl. congruence.
Qed.

(** The loop of [createOrder], when it runs to the end: the lines it adds
    are the items in order, each with the price the products file had for
    it, the total has gone through them as [Binary64_add_line] does, and no
    price has moved. *)
Lemma Binary64_createOrder_items_Success (Number_toString : float → string)
    (items : list Binary64.Item.t) :
  ∀ (products : list Binary64.Product.t) (productos : list Binary64.Line.t) (total : float)
    (productos' : list Binary64.Line.t) (total' : float)
    (products' : list Binary64.Product.t),
  Binary64.ordersService.createOrder_items Number_toString products items productos total
  = (Success (productos', total'), products') →
  ∃ added : list Binary64.Line.t,
    productos' = (productos ++ added)%list
    ∧ total' = foldl Binary64_add_line total added
    ∧ Binary64_Line_pair <$> added = Binary64_Item_pair <$> items
    ∧ Forall
        (λ l, Binary64_precio_of products (Binary64.Line.producto_id l)
              = Some (Binary64.Line.precio_unitario l))
        added
    ∧ ∀ other, Binary64_precio_of products' other = Binary64_precio_of products other.
Proof.
  induction items as [|item rest IH]; intros products productos total productos'
    total' products'; cbn [Binary64.ordersService.createOrder_items].
  - intros [= <- <- <-]. exists []. rewrite app_nil_r. by repeat split.
  - unfold Binary64.productsService.getProductById.
    destruct (Binary64.productsService.findIndex products (Binary64.Item.producto_id item))
      as [[i producto]|] eqn:Hf; [|done].
    destruct (PrimFloat.ltb _ _); [done|].
    pose proof (list_find_holds _ _ _ _ Hf) as Hid. cbn beta in Hid.
    unfold Binary64.productsService.updateStock. rewrite Hid, Hf.
    destruct (PrimFloat.ltb _ _ && PrimFloat.ltb _ _); [done|].
    intros (added & -> & -> & Hpairs & Hprices & Hsame)%IH.
    exists (Binary64.Line.mk (Binary64.Item.producto_id item) (Binary64.Item.cantidad item)
              (Binary64.Product.precio producto) :: added).
    split; [by rewrite <- app_assoc|].
    split; [done|].
    split; [by rewrite !fmap_cons, Hpairs|].
    split.
    + constructor.
      * cbn [Binary64.Line.producto_id Binary64.Line.precio_unitario].
        unfold Binary64_precio_of. by rewrite Hf.
      * eapply Forall_impl; [exact Hprices|]. intros l Hl. cbn beta in Hl.
        by rewrite (Binary64_precio_of_insert _ _ _ _ _ _ Hf) in Hl.
    + intros other. by rewrite Hsame, (Binary64_precio_of_insert _ _ _ _ _ _ Hf).
Qed.

(** A product update, and so any sequence of them, leaves the orders file
    as it is. *)
Lemma Binary64_updateProducts_orders (updates : list (Z * Binary64.ProductData.t)) :
  ∀ fs : Binary64.Files,
    Binary64.orders (Binary64_updateProducts fs updates) = Binary64.orders fs.
Proof.
  induction updates as [|u updates IH]; intros fs; [done|].
  unfold Binary64_updateProducts in *. cbn [foldl]. rewrite IH.
  unfold Binary64_updateProduct.
  by destruct (Binary64.productsService.updateProduct _ _ _).
Qed.

(** C4, counterexample.  The stored total is not the sum of unit price
    times quantity.  Three units of a product priced 0.1: the total stored
    is 0.30000000000000004, the binary64 value [5404319552844596 / 2^54],
    which is not three times the stored unit price [7205759403792794 /
    2^56].  And one unit each of products priced 0.1, 0.2 and 0.3: the
    order that lists them in this sequence gets the total
    0.6000000000000001, the order that lists them in the opposite sequence
    gets 0.6, although both have the same lines up to their sequence. *)
Lemma createOrder_total_is_rounded :
  (Binary64.ordersService.createOrder ex_Number_toString ex_decimal_files
     (ex_decimal_orderData [(1, 3%float)]) ex_now).1
  = Success
      (Binary64.Order.mk 1001 7
         [Binary64.Line.mk 1 3%float 0x1.999999999999ap-4%float]
         0x1.3333333333334p-2%float
         "PENDING" "PENDING" "paypal" "Calle 1" "555" ex_now)
  ∧ Binary64_exact 0x1.3333333333334p-2%float
    = Some (5404319552844596 # 18014398509481984)%Q
  ∧ Binary64_exact 0x1.999999999999ap-4%float
    = Some (7205759403792794 # 72057594037927936)%Q
  ∧ Qeq_bool (5404319552844596 # 18014398509481984)
      ((7205759403792794 # 72057594037927936) * 3) = false
  ∧ (∃ order : Binary64.Order.t,
       (Binary64.ordersService.createOrder ex_Number_toString ex_decimal_files
          (ex_decimal_orderData [(1, 1%float); (2, 1%float); (3, 1%float)]) ex_now).1
       = Success order
       ∧ Binary64.Order.total order = 0x1.3333333333334p-1%float)
  ∧ (∃ order : Binary64.Order.t,
       (Binary64.ordersService.createOrder ex_Number_toString ex_decimal_files
          (ex_decimal_orderData [(3, 1%float); (2, 1%float); (1, 1%float)]) ex_now).1
       = Success order
       ∧ Binary64.Order.total order = 0x1.3333333333333p-1%float)
  ∧ 0x1.3333333333334p-1%float ≠ 0x1.3333333333333p-1%float.
Proof.
  split_and!; try reflexivity.
  - eexists. split; reflexivity.
  - eexists. split; reflexivity.
  - vm_compute. discriminate.
Qed.

(** C4, as the code has it.  When the monolith's [createOrder] succeeds,
    the lines of the order are the requested items, in order, each with the
    unit price the product had in the products file when the order was
    placed, and the stored total is what [total += precio_unitario *
    cantidad] gives over these lines from 0, in binary64 arithmetic.  Later
    calls of [updateProduct], whatever products and fields they change,
    write the products file only: the orders file, with every total and
    every unit price in it, is the same after them as before. *)
Theorem createOrder_total
    (Number_toString : float → string) (fs : Binary64.Files)
    (orderData : Binary64.OrderData.t) (now : string)
    (order : Binary64.Order.t) (fs' : Binary64.Files) :
  Binary64.ordersService.createOrder Number_toString fs orderData now
  = (Success order, fs') →
  Binary64.Order.total order = Binary64_total (Binary64.Order.productos order)
  ∧ Binary64_Line_pair <$> Binary64.Order.productos order
    = Binary64_Item_pair <$> Binary64.OrderData.productos orderData
  ∧ Forall
      (λ l, Binary64_precio_of (Binary64.products fs) (Binary64.Line.producto_id l)
            = Some (Binary64.Line.precio_unitario l))
      (Binary64.Order.productos order)
  ∧ Binary64.orders fs' = (Binary64.orders fs ++ [order])%list
  ∧ ∀ updates : list (Z * Binary64.ProductData.t),
      Binary64.orders (Binary64_updateProducts fs' updates) = Binary64.orders fs'.
Proof.
  unfold Binary64.ordersService.createOrder.
  destruct (Binary64.ordersService.createOrder_items _ _ _ _ _)
    as [[[productos total]|m] products'] eqn:Hloop; [|done].
  intros [= <- <-]. cbn [Binary64.Order.total Binary64.Order.productos Binary64.orders].
  apply Binary64_createOrder_items_Success in Hloop
    as (added & -> & -> & Hpairs & Hprices & _).
  cbn [app]. split_and!; try done.
  intros updates. apply Binary64_updateProducts_orders.
Qed.

Lemma createOrder_total_witness :
  ∃ (order : Binary64.Order.t) (fs' : Binary64.Files),
    Binary64.ordersService.createOrder ex_Number_toString ex_decimal_files
      (ex_decimal_orderData [(1, 1%float); (2, 1%float); (3, 1%float)]) ex_now
    = (Success order, fs')
    ∧ Binary64.Order.total order = Binary64_total (Binary64.Order.productos order)
    ∧ Binary64.Order.total order = 0x1.3333333333334p-1%float
    ∧ Binary64.orders
        (Binary64_updateProducts fs'
           [(1, Binary64.ProductData.mk None None None (Some 9%float) None None None None
                  None)])
      = [order].
Proof.
  destruct (Binary64.ordersService.createOrder ex_Number_toString ex_decimal_files
              (ex_decimal_orderData [(1, 1%float); (2, 1%float); (3, 1%float)]) ex_now)
    as [[order|m] fs'] eqn:H; [|by vm_compute in H].
  exists order, fs'. split; [reflexivity|].
  destruct (createOrder_total _ _ _ _ _ _ H) as (Ht & _ & _ & Ho & Hu).
  split; [exact Ht|]. split.
  - vm_compute in H. by injection H as <- _.
  - rewrite Hu, Ho. reflexivity.
Defined.

(** ** Tables searched by a key *)

Section keyed.
Context {A : Type} (key : A → Z).
Implicit Types (l : list A) (k : Z).

Lemma keyed_insert_same l k i x y :
  list_find (λ a, key a = k) l = Some (i, x) →
  key y = key x →
  list_find (λ a, key a = k) (<[i := y]> l) = Some (i, y).
Proof.
  intros Hf Hk.
  rewrite (list_find_insert_same _ l i x y).
  - rewrite Hf. simpl. by rewrite decide_True.
  - by eapply list_find_lookup.
  - by rewrite Hk.
Qed.

Lemma keyed_insert_other l k i x y k' :
  list_find (λ a, key a = k) l = Some (i, x) →
  key y = key x →
  k' ≠ k →
  list_find (λ a, key a = k') (<[i := y]> l) = list_find (λ a, key a = k') l.
Proof.
  intros Hf Hk Hne.
  pose proof (list_find_lookup _ _ _ _ Hf) as Hi.
  pose proof (list_find_holds _ _ _ _ Hf) as Hx. simpl in Hx.
  rewrite (list_find_insert_same _ l i x y); [|done|by rewrite Hk].
  destruct (list_find (λ a, key a = k') l) as [[j z]|] eqn:Ho; [|done].
  pose proof (list_find_lookup _ _ _ _ Ho) as Hj.
  pose proof (list_find_holds _ _ _ _ Ho) as Hz. simpl in Hz.
  simpl. destruct (decide (j = i)) as [->|]; [|done]. congruence.
Qed.

End keyed.

(** ** Releasing the stock of an order's lines *)

Lemma quantity_for_cons (productId : Z) (l : Z * Z) (lines : list (Z * Z)) :
  quantity_for productId (l :: lines)
  = (if decide (l.1 = productId) then l.2 else 0) + quantity_for productId lines.
Proof.
  unfold quantity_for. simpl. case_bool_decide; case_decide; try done; lia.
Qed.

Lemma releasable_step (products products' : list Product.t) (productId s : Z)
    (lines : list (Z * Z)) :
  (∀ other, stock_of products' other
            = if decide (other = productId) then Some s else stock_of products other) →
  Forall (releasable products) lines → Forall (releasable products') lines.
Proof.
  intros Hst Hall. eapply Forall_impl; [exact Hall|].
  intros l [Hq Hs]. split; [done|].
  rewrite Hst. by case_decide.
Qed.

Lemma released_step (products products' products'' : list Product.t)
    (l : Z * Z) (lines : list (Z * Z)) (s : Z) (productId : Z) :
  stock_of products l.1 = Some s →
  (∀ other, stock_of products' other
            = if decide (other = l.1) then Some (s + l.2) else stock_of products other) →
  stock_of products'' productId
  = (λ s, s + quantity_for productId lines) <$> stock_of products' productId →
  stock_of products'' productId
  = (λ s, s + quantity_for productId (l :: lines)) <$> stock_of products productId.
Proof.
  intros Hs Hst ->. rewrite Hst, quantity_for_cons.
  destruct (decide (productId = l.1)) as [->|Hne].
  - rewrite Hs, decide_True by done. simpl. f_equal. lia.
  - rewrite decide_False by done. by destruct (stock_of products productId).
Qed.

(** The monolith's release loop. *)
Lemma Json_cancelOrder_items_stock (items : list Line.t) :
  ∀ products : list Product.t,
  Forall (releasable products) (Line_pair <$> items) →
  ∀ productId,
    stock_of (Json.ordersService.cancelOrder_items products items) productId
    = (λ s, s + quantity_for productId (Line_pair <$> items))
        <$> stock_of products productId.
Proof.
  induction items as [|item rest IH]; intros products Hok productId.
  - simpl. destruct (stock_of products productId); simpl; [f_equal; lia|done].
  - rewrite fmap_cons in Hok. apply Forall_cons in Hok as [[Hq [s Hs]] Hrest].
    simpl in Hq, Hs.
    destruct (updateStock_ok products (Line.producto_id item) (Line.cantidad item) s Hs)
      as (products' & Hu & Hst & _); [lia|].
    unfold Json.ordersService.cancelOrder_items in *. cbn [foldl]. rewrite Hu.
    cbn [snd]. rewrite fmap_cons.
    eapply (released_step products products' _ (Line_pair item)); [exact Hs|exact Hst|].
    apply IH. by eapply releasable_step.
Qed.

(** The release loop of the orders service on SQLite. *)
Lemma Sqlite_cancelOrder_items_stock (items : list Sqlite.OrderProduct.t) :
  ∀ products : list Product.t,
  Forall (releasable products) (OrderProduct_pair <$> items) →
  ∃ products',
    Sqlite.ordersService.cancelOrder_items products items = (Success (), products')
    ∧ ∀ productId,
        stock_of products' productId
        = (λ s, s + quantity_for productId (OrderProduct_pair <$> items))
            <$> stock_of products productId.
Proof.
  induction items as [|item rest IH]; intros products Hok.
  - exists products. split; [done|]. intros productId. simpl.
    destruct (stock_of products productId); simpl; [f_equal; lia|done].
  - rewrite fmap_cons in Hok. apply Forall_cons in Hok as [[Hq [s Hs]] Hrest].
    simpl in Hq, Hs.
    destruct (updateStock_ok products (Sqlite.OrderProduct.producto_id item)
                (Sqlite.OrderProduct.cantidad item) s Hs)
      as (products1 & Hu & Hst & _); [lia|].
    destruct (IH products1) as (products' & Hloop & Hstock);
      [by eapply releasable_step|].
    exists products'. cbn [Sqlite.ordersService.cancelOrder_items]. rewrite Hu.
    split; [done|].
    intros productId. rewrite fmap_cons.
    by eapply (released_step products products1 _ (OrderProduct_pair item)).
Qed.

(** ** Cancelling an order *)

Lemma Json_getOrderById_Success (orders : list Json.Order.t) (orderId : Z)
    (o : Json.Order.t) :
  Json.ordersService.getOrderById orders orderId = Success o →
  ∃ i, Json.ordersService.findIndex orders orderId = Some (i, o).
Proof.
  unfold Json.ordersService.getOrderById.
  destruct (Json.ordersService.findIndex orders orderId) as [[i o']|]; [|done].
  intros [= ->]. eauto.
Qed.

Lemma Json_getOrderById_insert (orders : list Json.Order.t) (orderId : Z) (i : nat)
    (o o' : Json.Order.t) :
  Json.ordersService.findIndex orders orderId = Some (i, o) →
  Json.Order.numeroPedido o' = Json.Order.numeroPedido o →
  Json.ordersService.getOrderById (<[i := o']> orders) orderId = Success o'
  ∧ ∀ other, other ≠ orderId →
      Json.ordersService.getOrderById (<[i := o']> orders) other
      = Json.ordersService.getOrderById orders other.
Proof.
  intros Hf Hk. unfold Json.ordersService.getOrderById, Json.ordersService.findIndex in *.
  split.
  - by rewrite (keyed_insert_same Json.Order.numeroPedido _ _ _ _ _ Hf Hk).
  - intros other Hne.
    by rewrite (keyed_insert_other Json.Order.numeroPedido _ _ _ _ _ _ Hf Hk Hne).
Qed.

Lemma Sqlite_getOrderById_Success (db : Sqlite.Database) (orderId : Z)
    (loaded : Sqlite.OrderWithProducts) :
  Sqlite.ordersService.getOrderById db orderId = Success loaded →
  ∃ i, Sqlite.Order_findByPk db orderId = Some (i, Sqlite.order loaded)
       ∧ Sqlite.productos loaded = Sqlite.productos_of db orderId.
Proof.
  unfold Sqlite.ordersService.getOrderById, Sqlite.Order_findByPk_include.
  destruct (Sqlite.Order_findByPk db orderId) as [[i o']|]; [|done].
  intros [= <-]. eauto.
Qed.

(** [order.save()] of an instance that was loaded by its key: the row is
    replaced, the other rows and the lines stay. *)
Lemma Sqlite_Order_save_loaded (db : Sqlite.Database) (orderId : Z) (i : nat)
    (o o' : Sqlite.Order.t) :
  Sqlite.Order_findByPk db orderId = Some (i, o) →
  Sqlite.Order.numeroPedido o' = Sqlite.Order.numeroPedido o →
  Sqlite.ordersService.getOrderById (Sqlite.Order_save db o') orderId
  = Success (Sqlite.mkOrderWithProducts o' (Sqlite.productos_of db orderId))
  ∧ Sqlite.order_products (Sqlite.Order_save db o') = Sqlite.order_products db
  ∧ ∀ other, other ≠ orderId →
      Sqlite.ordersService.getOrderById (Sqlite.Order_save db o') other
      = Sqlite.ordersService.getOrderById db other.
Proof.
  intros Hf Hk.
  pose proof (list_find_holds _ _ _ _ Hf) as Hid. simpl in Hid.
  unfold Sqlite.Order_save. rewrite Hk, Hid, Hf.
  unfold Sqlite.ordersService.getOrderById, Sqlite.Order_findByPk_include,
    Sqlite.Order_findByPk, Sqlite.productos_of in *. simpl.
  split; [|split; [done|]].
  - by rewrite (keyed_insert_same Sqlite.Order.numeroPedido _ _ _ _ _ Hf Hk).
  - intros other Hne.
    by rewrite (keyed_insert_other Sqlite.Order.numeroPedido _ _ _ _ _ _ Hf Hk Hne).
Qed.

(** The monolith's [cancelOrder] on an order that is neither SHIPPED nor
    DELIVERED and whose lines can all be released. *)
Lemma Json_cancelOrder_ok (fs : Json.Files) (orderId : Z) (o : Json.Order.t) :
  Json.ordersService.getOrderById (Json.orders fs) orderId = Success o →
  includes [config.ORDER_STATUSES.SHIPPED; config.ORDER_STATUSES.DELIVERED]
    (Json.Order.estadoPedido o) = false →
  Forall (releasable (Json.products fs)) (Line_pair <$> Json.Order.productos o) →
  ∃ fs',
    Json.ordersService.cancelOrder fs orderId
    = (Success (Json.Order.set_estadoPedido config.ORDER_STATUSES.CANCELLED o), fs')
    ∧ Json.ordersService.getOrderById (Json.orders fs') orderId
      = Success (Json.Order.set_estadoPedido config.ORDER_STATUSES.CANCELLED o)
    ∧ (∀ productId,
         stock_of (Json.products fs') productId
         = (λ s, s + quantity_for productId (Line_pair <$> Json.Order.productos o))
             <$> stock_of (Json.products fs) productId)
    ∧ (∀ other, other ≠ orderId →
         Json.ordersService.getOrderById (Json.orders fs') other
         = Json.ordersService.getOrderById (Json.orders fs) other)
    ∧ Json.payments fs' = Json.payments fs.
Proof.
  intros [i Hf]%Json_getOrderById_Success Hst Hok.
  unfold Json.ordersService.cancelOrder. rewrite Hf, Hst.
  eexists. split; [done|]. simpl.
  destruct (Json_getOrderById_insert (Json.orders fs) orderId i o
              (Json.Order.set_estadoPedido config.ORDER_STATUSES.CANCELLED o) Hf)
    as [Hget Hother]; [done|].
  split; [done|]. split; [|done].
  intros productId. by apply Json_cancelOrder_items_stock.
Qed.

(** The same for the orders service on SQLite. *)
Lemma Sqlite_cancelOrder_ok (w : Sqlite.World) (orderId : Z)
    (loaded : Sqlite.OrderWithProducts) :
  Sqlite.ordersService.getOrderById (Sqlite.db w) orderId = Success loaded →
  includes [config.ORDER_STATUSES.SHIPPED; config.ORDER_STATUSES.DELIVERED]
    (Sqlite.Order.estadoPedido (Sqlite.order loaded)) = false →
  Forall (releasable (Sqlite.products w)) (OrderProduct_pair <$> Sqlite.productos loaded) →
  let cancelled :=
    Sqlite.mkOrderWithProducts
      (Sqlite.Order.set_estadoPedido config.ORDER_STATUSES.CANCELLED (Sqlite.order loaded))
      (Sqlite.productos loaded) in
  ∃ w',
    Sqlite.ordersService.cancelOrder w orderId = (Success cancelled, w')
    ∧ Sqlite.ordersService.getOrderById (Sqlite.db w') orderId = Success cancelled
    ∧ (∀ productId,
         stock_of (Sqlite.products w') productId
         = (λ s, s + quantity_for productId (OrderProduct_pair <$> Sqlite.productos loaded))
             <$> stock_of (Sqlite.products w) productId)
    ∧ ∀ other, other ≠ orderId →
        Sqlite.ordersService.getOrderById (Sqlite.db w') other
        = Sqlite.ordersService.getOrderById (Sqlite.db w) other.
Proof.
  intros Hget Hst Hok cancelled.
  pose proof Hget as (i & Hf & Hlines)%Sqlite_getOrderById_Success.
  destruct (Sqlite_cancelOrder_items_stock _ _ Hok) as (products' & Hloop & Hstock).
  unfold Sqlite.ordersService.cancelOrder.
  unfold Sqlite.ordersService.getOrderById in Hget.
  destruct (Sqlite.Order_findByPk_include (Sqlite.db w) orderId) as [l|]; [|done].
  injection Hget as ->. rewrite Hst, Hloop.
  eexists. split; [done|]. simpl.
  destruct (Sqlite_Order_save_loaded (Sqlite.db w) orderId i (Sqlite.order loaded)
              (Sqlite.Order.set_estadoPedido config.ORDER_STATUSES.CANCELLED
                 (Sqlite.order loaded)) Hf) as (Hsaved & _ & Hother); [done|].
  split; [|done]. rewrite Hsaved. unfold cancelled. by rewrite Hlines.
Qed.

(** C5.  In the monolith and in the orders service on SQLite alike,
    [cancelOrder] on an order whose fulfillment status is SHIPPED or
    DELIVERED fails with "No se puede cancelar una orden en estado ..." and
    changes nothing: orders (both statuses included), the products file with
    every stock, and the rest are as before the call. *)
Theorem cancelOrder_shipped_or_delivered :
  (∀ (fs : Json.Files) (orderId : Z) (o : Json.Order.t),
     Json.ordersService.getOrderById (Json.orders fs) orderId = Success o →
     Json.Order.estadoPedido o = config.ORDER_STATUSES.SHIPPED
     ∨ Json.Order.estadoPedido o = config.ORDER_STATUSES.DELIVERED →
     Json.ordersService.cancelOrder fs orderId
     = (Failure ("No se puede cancelar una orden en estado " +:+ Json.Order.estadoPedido o),
        fs))
  ∧ (∀ (w : Sqlite.World) (orderId : Z) (loaded : Sqlite.OrderWithProducts),
       Sqlite.ordersService.getOrderById (Sqlite.db w) orderId = Success loaded →
       Sqlite.Order.estadoPedido (Sqlite.order loaded) = config.ORDER_STATUSES.SHIPPED
       ∨ Sqlite.Order.estadoPedido (Sqlite.order loaded) = config.ORDER_STATUSES.DELIVERED →
       Sqlite.ordersService.cancelOrder w orderId
       = (Failure ("No se puede cancelar una orden en estado "
                   +:+ Sqlite.Order.estadoPedido (Sqlite.order loaded)), w)).
Proof.
  split.
  - intros fs orderId o [i Hf]%Json_getOrderById_Success Hst.
    unfold Json.ordersService.cancelOrder. rewrite Hf.
    by destruct Hst as [-> | ->].
  - intros w orderId loaded Hget Hst.
    unfold Sqlite.ordersService.cancelOrder.
    unfold Sqlite.ordersService.getOrderById in Hget.
    destruct (Sqlite.Order_findByPk_include (Sqlite.db w) orderId) as [l|]; [|done].
    injection Hget as ->. by destruct Hst as [-> | ->].
Qed.

Lemma cancelOrder_shipped_or_delivered_witness :
  Json.ordersService.cancelOrder ex_files_shipped 1001
  = (Failure "No se puede cancelar una orden en estado SHIPPED", ex_files_shipped)
  ∧ Sqlite.ordersService.cancelOrder (ex_world_with "DELIVERED") 1001
    = (Failure "No se puede cancelar una orden en estado DELIVERED",
       ex_world_with "DELIVERED").
Proof.
  split.
  - apply (proj1 cancelOrder_shipped_or_delivered ex_files_shipped 1001
             (Json.Order.set_estadoPedido "SHIPPED" ex_order));
      [reflexivity | left; reflexivity].
  - apply (proj2 cancelOrder_shipped_or_delivered (ex_world_with "DELIVERED") 1001
             (Sqlite.mkOrderWithProducts
                (Sqlite.Order.set_estadoPedido "DELIVERED" ex_order_row) ex_order_lines));
      [reflexivity | right; reflexivity].
Defined.




Lemma Json_set_estadoPedido_same (o : Json.Order.t) (s : string) :
  Json.Order.estadoPedido o = s → Json.Order.set_estadoPedido s o = o.
Proof. destruct o. simpl. by intros <-. Qed.

Lemma Sqlite_set_estadoPedido_same (o : Sqlite.Order.t) (s : string) :
  Sqlite.Order.estadoPedido o = s → Sqlite.Order.set_estadoPedido s o = o.
Proof. destruct o. simpl. by intros <-. Qed.

Lemma releasable_after (products products' : list Product.t) (lines : list (Z * Z)) :
  (∀ productId, is_Some (stock_of products productId) →
                is_Some (stock_of products' productId)) →
  Forall (releasable products) lines → Forall (releasable products') lines.
Proof.
  intros Hst Hall. eapply Forall_impl; [exact Hall|].
  intros l [Hq Hs]. split; [done|]. by apply Hst.
Qed.

(** The lines stay releasable when the new stocks are given, product by
    product, as a function of the old ones ([Hstock]). *)
Ltac releasable_from Hstock :=
  eapply releasable_after; [|eassumption];
  let s := fresh "s" in
  let Hs := fresh "Hs" in
  intros ? [s Hs]; rewrite Hstock, Hs; by eexists.

Lemma Json_cancel_repeatedly_S (n : nat) (fs : Json.Files) (orderId : Z) :
  Json_cancel_repeatedly (S n) fs orderId
  = (Json.ordersService.cancelOrder (Json_cancel_repeatedly n fs orderId) orderId).2.
Proof. reflexivity. Qed.

Lemma Sqlite_cancel_repeatedly_S (n : nat) (w : Sqlite.World) (orderId : Z) :
  Sqlite_cancel_repeatedly (S n) w orderId
  = (Sqlite.ordersService.cancelOrder (Sqlite_cancel_repeatedly n w orderId) orderId).2.
Proof. reflexivity. Qed.

Lemma Json_cancel_repeatedly_state (fs : Json.Files) (orderId : Z) (o : Json.Order.t) :
  Json.ordersService.getOrderById (Json.orders fs) orderId = Success o →
  Json.Order.estadoPedido o = config.ORDER_STATUSES.CANCELLED →
  Forall (releasable (Json.products fs)) (Line_pair <$> Json.Order.productos o) →
  ∀ n : nat,
    Json.ordersService.getOrderById
      (Json.orders (Json_cancel_repeatedly n fs orderId)) orderId = Success o
    ∧ ∀ productId,
        stock_of (Json.products (Json_cancel_repeatedly n fs orderId)) productId
        = (λ s, s + Z.of_nat n * quantity_for productId (Line_pair <$> Json.Order.productos o))
            <$> stock_of (Json.products fs) productId.
Proof.
  intros Hget Hst Hok. induction n as [|n [IHget IHstock]].
  - split; [done|]. intros productId. simpl.
    destruct (stock_of _ productId); simpl; [f_equal; lia|done].
  - rewrite Json_cancel_repeatedly_S.
    destruct (Json_cancelOrder_ok _ orderId o IHget) as (fs' & Hc & Hg & Hs & _).
    { by rewrite Hst. }
    { releasable_from IHstock. }
    rewrite Hc. cbn [snd].
    rewrite (Json_set_estadoPedido_same _ _ Hst) in Hg. split; [done|].
    intros productId. rewrite Hs, IHstock.
    destruct (stock_of (Json.products fs) productId); simpl; [f_equal; lia|done].
Qed.

Lemma Sqlite_cancel_repeatedly_state (w : Sqlite.World) (orderId : Z)
    (loaded : Sqlite.OrderWithProducts) :
  Sqlite.ordersService.getOrderById (Sqlite.db w) orderId = Success loaded →
  Sqlite.Order.estadoPedido (Sqlite.order loaded) = config.ORDER_STATUSES.CANCELLED →
  Forall (releasable (Sqlite.products w)) (OrderProduct_pair <$> Sqlite.productos loaded) →
  ∀ n : nat,
    Sqlite.ordersService.getOrderById
      (Sqlite.db (Sqlite_cancel_repeatedly n w orderId)) orderId = Success loaded
    ∧ ∀ productId,
        stock_of (Sqlite.products (Sqlite_cancel_repeatedly n w orderId)) productId
        = (λ s, s + Z.of_nat n * quantity_for productId
                          (OrderProduct_pair <$> Sqlite.productos loaded))
            <$> stock_of (Sqlite.products w) productId.
Proof.
  intros Hget Hst Hok. induction n as [|n [IHget IHstock]].
  - split; [done|]. intros productId. simpl.
    destruct (stock_of _ productId); simpl; [f_equal; lia|done].
  - rewrite Sqlite_cancel_repeatedly_S.
    destruct (Sqlite_cancelOrder_ok _ orderId loaded IHget) as (w' & Hc & Hg & Hs & _).
    { by rewrite Hst. }
    { releasable_from IHstock. }
    rewrite Hc. cbn [snd].
    rewrite (Sqlite_set_estadoPedido_same _ _ Hst) in Hg.
    destruct loaded as [o lines]. split; [done|].
    intros productId. rewrite Hs, IHstock.
    destruct (stock_of (Sqlite.products w) productId); simpl; [f_equal; lia|done].
Qed.

(** [updateStock] in JavaScript's numbers at [2^53]: a release of 1 unit
    succeeds and leaves the stock at [2^53], and reserving the unit again
    then takes the stock to [2^53 - 1]. *)
Lemma Binary64_updateStock_rounds :
  Binary64.productsService.updateStock
    [Binary64.Product.mk 1 "A" "" 500%float "" 9007199254740992%float "" 300%float true] 1
    1%float
  = (Success 9007199254740992%float,
     [Binary64.Product.mk 1 "A" "" 500%float "" 9007199254740992%float "" 300%float true])
  ∧ Binary64.productsService.updateStock
      [Binary64.Product.mk 1 "A" "" 500%float "" 9007199254740992%float "" 300%float true] 1
      (- 1)%float
    = (Success 9007199254740991%float,
       [Binary64.Product.mk 1 "A" "" 500%float "" 9007199254740991%float "" 300%float true]).
Proof. split; reflexivity. Qed.

(** C10, counterexample.  The CANCELLED order of 3 units of A, after the
    product has been given another identifier: the orders service refuses
    to cancel it again, with "Producto no encontrado"; the monolith answers
    with the order and leaves the files as they were, no stock raised. *)
Lemma cancelOrder_again_not_released :
  Sqlite.ordersService.getOrderById (Sqlite.db (ex_world_with "CANCELLED")) 1001
  = Success
      (Sqlite.mkOrderWithProducts (Sqlite.Order.set_estadoPedido "CANCELLED" ex_order_row)
         ex_order_lines)
  ∧ stock_of ex_products_rekeyed 1 = None
  ∧ Sqlite.ordersService.cancelOrder
      (Sqlite.mkWorld (Sqlite.db (ex_world_with "CANCELLED")) ex_products_rekeyed) 1001
    = (Failure "Producto no encontrado",
       Sqlite.mkWorld (Sqlite.db (ex_world_with "CANCELLED")) ex_products_rekeyed)
  ∧ Json.ordersService.cancelOrder (with_products ex_files_cancelled ex_products_rekeyed)
      1001
    = (Success (Json.Order.set_estadoPedido "CANCELLED" ex_order),
       with_products ex_files_cancelled ex_products_rekeyed).
Proof. split_and!; reflexivity. Qed.

(** C10, as the code has it.  In both variants, [cancelOrder] does not
    reject an order whose fulfillment status is already CANCELLED.  For
    such an order, with lines that can be released (products of the
    products file, quantities not negative), and for every number [n] of
    cancellations already made such that one more keeps every stock within
    the safe integers: the next call succeeds again and returns the order,
    still CANCELLED; before it the stock of every product stands at its
    first value plus [n] times the quantities of the lines that name it,
    after it at its first value plus [n + 1] times these quantities. *)
Theorem cancelOrder_again_inflates_stock :
  (∀ (fs : Json.Files) (orderId : Z) (o : Json.Order.t),
     Json.ordersService.getOrderById (Json.orders fs) orderId = Success o →
     Json.Order.estadoPedido o = config.ORDER_STATUSES.CANCELLED →
     Forall (releasable (Json.products fs)) (Line_pair <$> Json.Order.productos o) →
     ∀ n : nat,
       within_safe_integers (Json.products fs) (Line_pair <$> Json.Order.productos o)
         (S n) →
       let fs_n := Json_cancel_repeatedly n fs orderId in
       (Json.ordersService.cancelOrder fs_n orderId).1 = Success o
       ∧ Json.ordersService.getOrderById (Json.orders fs_n) orderId = Success o
       ∧ (∀ productId,
            stock_of (Json.products fs_n) productId
            = (λ s, s + Z.of_nat n
                        * quantity_for productId (Line_pair <$> Json.Order.productos o))
                <$> stock_of (Json.products fs) productId)
       ∧ ∀ productId,
           stock_of (Json.products (Json.ordersService.cancelOrder fs_n orderId).2)
             productId
           = (λ s, s + Z.of_nat (S n)
                       * quantity_for productId (Line_pair <$> Json.Order.productos o))
               <$> stock_of (Json.products fs) productId)
  ∧ (∀ (w : Sqlite.World) (orderId : Z) (loaded : Sqlite.OrderWithProducts),
       Sqlite.ordersService.getOrderById (Sqlite.db w) orderId = Success loaded →
       Sqlite.Order.estadoPedido (Sqlite.order loaded) = config.ORDER_STATUSES.CANCELLED →
       Forall (releasable (Sqlite.products w))
         (OrderProduct_pair <$> Sqlite.productos loaded) →
       ∀ n : nat,
         within_safe_integers (Sqlite.products w)
           (OrderProduct_pair <$> Sqlite.productos loaded) (S n) →
         let w_n := Sqlite_cancel_repeatedly n w orderId in
         (Sqlite.ordersService.cancelOrder w_n orderId).1 = Success loaded
         ∧ Sqlite.ordersService.getOrderById (Sqlite.db w_n) orderId = Success loaded
         ∧ (∀ productId,
              stock_of (Sqlite.products w_n) productId
              = (λ s, s + Z.of_nat n * quantity_for productId
                                (OrderProduct_pair <$> Sqlite.productos loaded))
                  <$> stock_of (Sqlite.products w) productId)
         ∧ ∀ productId,
             stock_of (Sqlite.products (Sqlite.ordersService.cancelOrder w_n orderId).2)
               productId
             = (λ s, s + Z.of_nat (S n) * quantity_for productId
                               (OrderProduct_pair <$> Sqlite.productos loaded))
                 <$> stock_of (Sqlite.products w) productId).
Proof.
  split.
  - intros fs orderId o Hget Hst Hok n _ fs_n.
    pose proof (Json_cancel_repeatedly_state fs orderId o Hget Hst Hok) as Hn.
    destruct (Hn n) as [Hg Hs]. destruct (Hn (S n)) as [_ Hs'].
    rewrite Json_cancel_repeatedly_S in Hs'. split_and!; try done.
    destruct (Json_cancelOrder_ok fs_n orderId o Hg) as (fs' & Hc & _).
    { by rewrite Hst. }
    { releasable_from Hs. }
    rewrite Hc. cbn [fst]. by rewrite (Json_set_estadoPedido_same _ _ Hst).
  - intros w orderId loaded Hget Hst Hok n _ w_n.
    pose proof (Sqlite_cancel_repeatedly_state w orderId loaded Hget Hst Hok) as Hn.
    destruct (Hn n) as [Hg Hs]. destruct (Hn (S n)) as [_ Hs'].
    rewrite Sqlite_cancel_repeatedly_S in Hs'. split_and!; try done.
    destruct (Sqlite_cancelOrder_ok w_n orderId loaded Hg) as (w' & Hc & _).
    { by rewrite Hst. }
    { releasable_from Hs. }
    rewrite Hc. cbn [fst]. rewrite (Sqlite_set_estadoPedido_same _ _ Hst).
    by destruct loaded.
Qed.

Lemma cancelOrder_again_inflates_stock_witness :
  (Json.ordersService.cancelOrder (Json_cancel_repeatedly 2 ex_files_cancelled 1001) 1001).1
  = Success (Json.Order.set_estadoPedido "CANCELLED" ex_order)
  ∧ stock_of (Json.products ex_files_cancelled) 1 = Some 7
  ∧ stock_of (Json.products (Json_cancel_repeatedly 2 ex_files_cancelled 1001)) 1
    = Some (7 + 2 * 3)
  ∧ stock_of (Sqlite.products (Sqlite_cancel_repeatedly 2 (ex_world_with "CANCELLED") 1001)) 1
    = Some (7 + 2 * 3).
Proof.
  assert (Forall (releasable ex_products_reserved) [(1, 3)])
    as Hok by (repeat constructor; simpl; [lia | by eexists]).
  assert (within_safe_integers ex_products_reserved [(1, 3)] 3) as Hsafe
    by (repeat constructor; vm_compute; discriminate).
  destruct (proj1 cancelOrder_again_inflates_stock ex_files_cancelled 1001
              (Json.Order.set_estadoPedido "CANCELLED" ex_order)
              eq_refl eq_refl Hok 2%nat Hsafe) as (Hc & _ & Hs & _).
  destruct (proj2 cancelOrder_again_inflates_stock (ex_world_with "CANCELLED") 1001
              (Sqlite.mkOrderWithProducts
                 (Sqlite.Order.set_estadoPedido "CANCELLED" ex_order_row) ex_order_lines)
              eq_refl eq_refl Hok 2%nat Hsafe) as (_ & _ & Hs' & _).
  split; [exact Hc|]. split; [reflexivity|]. split.
  - rewrite Hs. reflexivity.
  - rewrite Hs'. reflexivity.
Defined.

(** ** Payment status and fulfillment status *)

Lemma includes_COMPLETED :
  includes config.PAYMENT_STATUSES.values config.PAYMENT_STATUSES.COMPLETED = true.
Proof. by vm_compute. Qed.

(** C8.  In both variants, [updatePaymentStatus(orderId, COMPLETED)] on an
    existing order succeeds and stores the order with payment status
    COMPLETED; its fulfillment status becomes PROCESSING when it was PENDING
    and is what it was otherwise; its lines and total, and the other orders,
    are untouched. *)
Theorem updatePaymentStatus_completed :
  (∀ (orders : list Json.Order.t) (orderId : Z) (o : Json.Order.t),
     Json.ordersService.getOrderById orders orderId = Success o →
     ∃ (o' : Json.Order.t) (orders' : list Json.Order.t),
       Json.ordersService.updatePaymentStatus orders orderId
         config.PAYMENT_STATUSES.COMPLETED = (Success o', orders')
       ∧ Json.ordersService.getOrderById orders' orderId = Success o'
       ∧ Json.Order.estadoPago o' = config.PAYMENT_STATUSES.COMPLETED
       ∧ Json.Order.estadoPedido o'
         = (if bool_decide (Json.Order.estadoPedido o = config.ORDER_STATUSES.PENDING)
            then config.ORDER_STATUSES.PROCESSING else Json.Order.estadoPedido o)
       ∧ Json.Order.productos o' = Json.Order.productos o
       ∧ Json.Order.total o' = Json.Order.total o
       ∧ ∀ other, other ≠ orderId →
           Json.ordersService.getOrderById orders' other
           = Json.ordersService.getOrderById orders other)
  ∧ (∀ (db : Sqlite.Database) (orderId : Z) (loaded : Sqlite.OrderWithProducts),
       Sqlite.ordersService.getOrderById db orderId = Success loaded →
       ∃ (o' : Sqlite.Order.t) (db' : Sqlite.Database),
         Sqlite.ordersService.updatePaymentStatus db orderId
           config.PAYMENT_STATUSES.COMPLETED = (Success o', db')
         ∧ Sqlite.ordersService.getOrderById db' orderId
           = Success (Sqlite.mkOrderWithProducts o' (Sqlite.productos loaded))
         ∧ Sqlite.Order.estadoPago o' = config.PAYMENT_STATUSES.COMPLETED
         ∧ Sqlite.Order.estadoPedido o'
           = (if bool_decide (Sqlite.Order.estadoPedido (Sqlite.order loaded)
                              = config.ORDER_STATUSES.PENDING)
              then config.ORDER_STATUSES.PROCESSING
              else Sqlite.Order.estadoPedido (Sqlite.order loaded))
         ∧ Sqlite.Order.total o' = Sqlite.Order.total (Sqlite.order loaded)
         ∧ ∀ other, other ≠ orderId →
             Sqlite.ordersService.getOrderById db' other
             = Sqlite.ordersService.getOrderById db other).
Proof.
  split.
  - intros orders orderId o [i Hf]%Json_getOrderById_Success.
    unfold Json.ordersService.updatePaymentStatus. rewrite Hf, includes_COMPLETED.
    cbn [negb andb Json.Order.estadoPedido Json.Order.set_estadoPago].
    rewrite (bool_decide_eq_true_2 (_ = config.PAYMENT_STATUSES.COMPLETED)) by done.
    cbn [andb].
    eexists _, _. split; [done|].
    edestruct (Json_getOrderById_insert orders orderId i o) as [Hget Hother];
      [exact Hf| |rewrite Hget].
    { by case_bool_decide. }
    split; [done|]. split_and!; try exact Hother; by case_bool_decide.
  - intros db orderId loaded (i & Hf & Hlines)%Sqlite_getOrderById_Success.
    unfold Sqlite.ordersService.updatePaymentStatus. rewrite Hf, includes_COMPLETED.
    cbn [negb andb Sqlite.Order.estadoPedido Sqlite.Order.set_estadoPago].
    rewrite (bool_decide_eq_true_2 (_ = config.PAYMENT_STATUSES.COMPLETED)) by done.
    cbn [andb].
    eexists _, _. split; [done|].
    edestruct (Sqlite_Order_save_loaded db orderId i (Sqlite.order loaded))
      as (Hget & _ & Hother); [exact Hf| |rewrite Hget].
    { by case_bool_decide. }
    rewrite Hlines. split; [done|]. split_and!; try exact Hother; by case_bool_decide.
Qed.

Lemma updatePaymentStatus_completed_witness :
  Json.ordersService.updatePaymentStatus [ex_order] 1001 "COMPLETED"
  = (Success (ex_completed_of "PROCESSING"), [ex_completed_of "PROCESSING"])
  ∧ Json.ordersService.updatePaymentStatus
      [Json.Order.set_estadoPedido "SHIPPED" ex_order] 1001 "COMPLETED"
    = (Success (ex_completed_of "SHIPPED"), [ex_completed_of "SHIPPED"])
  ∧ ∃ (o' : Sqlite.Order.t) (db' : Sqlite.Database),
      Sqlite.ordersService.updatePaymentStatus (Sqlite.db (ex_world_with "PENDING")) 1001
        "COMPLETED" = (Success o', db')
      ∧ Sqlite.Order.estadoPago o' = "COMPLETED"
      ∧ Sqlite.Order.estadoPedido o' = "PROCESSING".
Proof.
  destruct (proj1 updatePaymentStatus_completed [ex_order] 1001 ex_order eq_refl)
    as (o1 & orders1 & Hu1 & _).
  destruct (proj1 updatePaymentStatus_completed
              [Json.Order.set_estadoPedido "SHIPPED" ex_order] 1001
              (Json.Order.set_estadoPedido "SHIPPED" ex_order) eq_refl)
    as (o2 & orders2 & Hu2 & _).
  destruct (proj2 updatePaymentStatus_completed (Sqlite.db (ex_world_with "PENDING")) 1001
              (Sqlite.mkOrderWithProducts
                 (Sqlite.Order.set_estadoPedido "PENDING" ex_order_row) ex_order_lines)
              eq_refl)
    as (o3 & db3 & Hu3 & _ & Hp3 & He3 & _).
  split; [reflexivity|]. split; [reflexivity|].
  exists o3, db3. split; [exact Hu3|]. split; [exact Hp3|]. rewrite He3. reflexivity.
Defined.

(** ** Transitions of the fulfillment status *)

Lemma spec_allowed_refl (s : string) : spec_allowed_transition s s = true.
Proof. unfold spec_allowed_transition. by rewrite bool_decide_eq_true_2. Qed.

Lemma spec_allowed_cancel (s : string) :
  includes [config.ORDER_STATUSES.SHIPPED; config.ORDER_STATUSES.DELIVERED] s = false →
  spec_allowed_transition s config.ORDER_STATUSES.CANCELLED = true.
Proof.
  intros H. unfold spec_allowed_transition. rewrite H.
  rewrite (bool_decide_eq_true_2 (config.ORDER_STATUSES.CANCELLED = _)) by done.
  simpl. by rewrite orb_true_r.
Qed.

Lemma spec_allowed_payment (s paymentStatus : string) :
  spec_allowed_transition s
    (if bool_decide (paymentStatus = config.PAYMENT_STATUSES.COMPLETED)
        && bool_decide (s = config.ORDER_STATUSES.PENDING)
     then config.ORDER_STATUSES.PROCESSING else s) = true.
Proof.
  destruct (bool_decide (paymentStatus = _)); simpl; [|apply spec_allowed_refl].
  case_bool_decide as Hs; [|apply spec_allowed_refl]. by rewrite Hs.
Qed.

(** C9, counterexample.  In the monolith's orders file, an order that is
    DELIVERED; [updateOrderStatus(1001, "PENDING")] succeeds and stores the
    order as PENDING, a transition the specification does not allow. *)
Lemma updateOrderStatus_moves_backward :
  Json.ordersService.getOrderById [Json.Order.set_estadoPedido "DELIVERED" ex_order] 1001
  = Success (Json.Order.set_estadoPedido "DELIVERED" ex_order)
  ∧ Json.ordersService.updateOrderStatus
      [Json.Order.set_estadoPedido "DELIVERED" ex_order] 1001 "PENDING"
    = (Success ex_order, [ex_order])
  ∧ Json.Order.estadoPedido ex_order = "PENDING"
  ∧ spec_allowed_transition "DELIVERED" "PENDING" = false
  ∧ ¬ Json_statuses_move_as_allowed
        [Json.Order.set_estadoPedido "DELIVERED" ex_order]
        (Json.ordersService.updateOrderStatus
           [Json.Order.set_estadoPedido "DELIVERED" ex_order] 1001 "PENDING").2.
Proof.
  split_and!; try by vm_compute.
  intros H. destruct (H 1001 _ eq_refl) as (o' & Hget & Hallowed).
  vm_compute in Hget. injection Hget as <-. by vm_compute in Hallowed.
Qed.

Lemma Json_cancelOrder_moves_as_allowed (fs : Json.Files) (orderId : Z) :
  Json_statuses_move_as_allowed (Json.orders fs)
    (Json.orders (Json.ordersService.cancelOrder fs orderId).2).
Proof.
  intros other o Hget. unfold Json.ordersService.cancelOrder.
  destruct (Json.ordersService.findIndex (Json.orders fs) orderId) as [[i o0]|] eqn:Hf;
    [|exists o; split; [done|apply spec_allowed_refl]].
  destruct (includes _ (Json.Order.estadoPedido o0)) eqn:Hinc;
    [exists o; split; [done|apply spec_allowed_refl]|].
  cbn [snd Json.orders].
  destruct (Json_getOrderById_insert (Json.orders fs) orderId i o0
              (Json.Order.set_estadoPedido config.ORDER_STATUSES.CANCELLED o0) Hf)
    as [Hsame Hother]; [done|].
  destruct (decide (other = orderId)) as [->|Hne].
  - unfold Json.ordersService.getOrderById in Hget. rewrite Hf in Hget.
    injection Hget as <-. eexists. split; [exact Hsame|]. by apply spec_allowed_cancel.
  - exists o. rewrite (Hother other Hne). split; [done|apply spec_allowed_refl].
Qed.

Lemma Json_updatePaymentStatus_moves_as_allowed
    (orders : list Json.Order.t) (orderId : Z) (paymentStatus : string) :
  Json_statuses_move_as_allowed orders
    (Json.ordersService.updatePaymentStatus orders orderId paymentStatus).2.
Proof.
  intros other o Hget. unfold Json.ordersService.updatePaymentStatus.
  destruct (Json.ordersService.findIndex orders orderId) as [[i o0]|] eqn:Hf;
    [|exists o; split; [done|apply spec_allowed_refl]].
  destruct (negb (includes _ paymentStatus));
    [exists o; split; [done|apply spec_allowed_refl]|].
  cbn [snd].
  edestruct (Json_getOrderById_insert orders orderId i o0) as [Hsame Hother];
    [exact Hf| |].
  2: { destruct (decide (other = orderId)) as [->|Hne].
       - unfold Json.ordersService.getOrderById in Hget. rewrite Hf in Hget.
         injection Hget as <-. eexists. split; [exact Hsame|].
         cbn [Json.Order.estadoPedido Json.Order.set_estadoPago].
         pose proof (spec_allowed_payment (Json.Order.estadoPedido o0) paymentStatus) as Ha.
         by destruct (_ && _).
       - exists o. rewrite (Hother other Hne). split; [done|apply spec_allowed_refl]. }
  by destruct (_ && _).
Qed.

Lemma Sqlite_cancelOrder_moves_as_allowed (w : Sqlite.World) (orderId : Z) :
  Sqlite_statuses_move_as_allowed (Sqlite.db w)
    (Sqlite.db (Sqlite.ordersService.cancelOrder w orderId).2).
Proof.
  intros other loaded Hget. unfold Sqlite.ordersService.cancelOrder.
  destruct (Sqlite.Order_findByPk_include (Sqlite.db w) orderId) as [l0|] eqn:Hinc0;
    [|exists loaded; split; [done|apply spec_allowed_refl]].
  assert (Sqlite.ordersService.getOrderById (Sqlite.db w) orderId = Success l0) as Hget0
    by (unfold Sqlite.ordersService.getOrderById; by rewrite Hinc0).
  destruct (includes _ (Sqlite.Order.estadoPedido (Sqlite.order l0))) eqn:Hinc;
    [exists loaded; split; [done|apply spec_allowed_refl]|].
  destruct (Sqlite.ordersService.cancelOrder_items _ _) as [[[]|m] products'];
    [|exists loaded; split; [done|apply spec_allowed_refl]].
  cbn [snd Sqlite.db].
  pose proof Hget0 as (i & Hf & Hlines)%Sqlite_getOrderById_Success.
  destruct (Sqlite_Order_save_loaded (Sqlite.db w) orderId i (Sqlite.order l0)
              (Sqlite.Order.set_estadoPedido config.ORDER_STATUSES.CANCELLED
                 (Sqlite.order l0)) Hf) as (Hsame & _ & Hother); [done|].
  destruct (decide (other = orderId)) as [->|Hne].
  - rewrite Hget0 in Hget. injection Hget as <-.
    eexists. split; [exact Hsame|]. by apply spec_allowed_cancel.
  - exists loaded. rewrite (Hother other Hne). split; [done|apply spec_allowed_refl].
Qed.

Lemma Sqlite_updatePaymentStatus_moves_as_allowed
    (db : Sqlite.Database) (orderId : Z) (paymentStatus : string) :
  Sqlite_statuses_move_as_allowed db
    (Sqlite.ordersService.updatePaymentStatus db orderId paymentStatus).2.
Proof.
  intros other loaded Hget. unfold Sqlite.ordersService.updatePaymentStatus.
  destruct (Sqlite.Order_findByPk db orderId) as [[i o0]|] eqn:Hf;
    [|exists loaded; split; [done|apply spec_allowed_refl]].
  destruct (negb (includes _ paymentStatus));
    [exists loaded; split; [done|apply spec_allowed_refl]|].
  cbn [snd].
  edestruct (Sqlite_Order_save_loaded db orderId i o0) as (Hsame & _ & Hother);
    [exact Hf| |].
  2: { destruct (decide (other = orderId)) as [->|Hne].
       - apply Sqlite_getOrderById_Success in Hget as (j & Hf' & _).
         rewrite Hf in Hf'. injection Hf' as _ Heq. rewrite <- Heq.
         eexists. split; [exact Hsame|].
         cbn [Sqlite.order Sqlite.Order.estadoPedido Sqlite.Order.set_estadoPago].
         pose proof (spec_allowed_payment (Sqlite.Order.estadoPedido o0) paymentStatus)
           as Ha.
         by destruct (_ && _).
       - exists loaded. rewrite (Hother other Hne). split; [done|apply spec_allowed_refl]. }
  by destruct (_ && _).
Qed.

(** C9, as the code has it.  In both variants: [updateOrderStatus] accepts
    each of the five fulfillment values whatever the current status and
    stores it, so it also moves an order backward (stated here for every
    requested change except the one to CANCELLED from SHIPPED or DELIVERED,
    on which this theorem is silent); [cancelOrder] and
    [updatePaymentStatus], for their part, leave every order's fulfillment
    status where it was or move it as the specification allows: to
    CANCELLED from a status other than SHIPPED and DELIVERED, and from
    PENDING to PROCESSING. *)
Theorem fulfillment_transitions :
  (∀ (orders : list Json.Order.t) (orderId : Z) (o : Json.Order.t) (status : string),
     Json.ordersService.getOrderById orders orderId = Success o →
     status ∈ config.ORDER_STATUSES.values →
     (status = config.ORDER_STATUSES.CANCELLED →
      includes [config.ORDER_STATUSES.SHIPPED; config.ORDER_STATUSES.DELIVERED]
        (Json.Order.estadoPedido o) = false) →
     ∃ orders' : list Json.Order.t,
       Json.ordersService.updateOrderStatus orders orderId status
       = (Success (Json.Order.set_estadoPedido status o), orders')
       ∧ Json.ordersService.getOrderById orders' orderId
         = Success (Json.Order.set_estadoPedido status o))
  ∧ (∀ (fs : Json.Files) (orderId : Z),
       Json_statuses_move_as_allowed (Json.orders fs)
         (Json.orders (Json.ordersService.cancelOrder fs orderId).2))
  ∧ (∀ (orders : list Json.Order.t) (orderId : Z) (paymentStatus : string),
       Json_statuses_move_as_allowed orders
         (Json.ordersService.updatePaymentStatus orders orderId paymentStatus).2)
  ∧ (∀ (db : Sqlite.Database) (orderId : Z) (loaded : Sqlite.OrderWithProducts)
       (status : string),
       Sqlite.ordersService.getOrderById db orderId = Success loaded →
       status ∈ config.ORDER_STATUSES.values →
       (status = config.ORDER_STATUSES.CANCELLED →
        includes [config.ORDER_STATUSES.SHIPPED; config.ORDER_STATUSES.DELIVERED]
          (Sqlite.Order.estadoPedido (Sqlite.order loaded)) = false) →
       ∃ db' : Sqlite.Database,
         Sqlite.ordersService.updateOrderStatus db orderId status
         = (Success (Sqlite.Order.set_estadoPedido status (Sqlite.order loaded)), db')
         ∧ Sqlite.ordersService.getOrderById db' orderId
           = Success (Sqlite.mkOrderWithProducts
                        (Sqlite.Order.set_estadoPedido status (Sqlite.order loaded))
                        (Sqlite.productos loaded)))
  ∧ (∀ (w : Sqlite.World) (orderId : Z),
       Sqlite_statuses_move_as_allowed (Sqlite.db w)
         (Sqlite.db (Sqlite.ordersService.cancelOrder w orderId).2))
  ∧ (∀ (db : Sqlite.Database) (orderId : Z) (paymentStatus : string),
       Sqlite_statuses_move_as_allowed db
         (Sqlite.ordersService.updatePaymentStatus db orderId paymentStatus).2).
Proof.
  split_and!.
  - intros orders orderId o status [i Hf]%Json_getOrderById_Success Hin _.
    unfold Json.ordersService.updateOrderStatus. rewrite Hf.
    unfold includes. rewrite bool_decide_eq_true_2 by done. cbn [negb].
    eexists. split; [done|].
    by destruct (Json_getOrderById_insert orders orderId i o
                   (Json.Order.set_estadoPedido status o) Hf).
  - apply Json_cancelOrder_moves_as_allowed.
  - apply Json_updatePaymentStatus_moves_as_allowed.
  - intros db orderId loaded status (i & Hf & Hlines)%Sqlite_getOrderById_Success Hin _.
    unfold Sqlite.ordersService.updateOrderStatus. rewrite Hf.
    unfold includes. rewrite bool_decide_eq_true_2 by done. cbn [negb].
    eexists. split; [done|]. rewrite Hlines.
    by destruct (Sqlite_Order_save_loaded db orderId i (Sqlite.order loaded)
                   (Sqlite.Order.set_estadoPedido status (Sqlite.order loaded)) Hf).
  - apply Sqlite_cancelOrder_moves_as_allowed.
  - apply Sqlite_updatePaymentStatus_moves_as_allowed.
Qed.

Lemma fulfillment_transitions_witness :
  (∃ orders' : list Json.Order.t,
     Json.ordersService.updateOrderStatus
       [Json.Order.set_estadoPedido "DELIVERED" ex_order] 1001 "PENDING"
     = (Success (Json.Order.set_estadoPedido "PENDING"
                   (Json.Order.set_estadoPedido "DELIVERED" ex_order)), orders')
     ∧ Json.ordersService.getOrderById orders' 1001
       = Success (Json.Order.set_estadoPedido "PENDING"
                    (Json.Order.set_estadoPedido "DELIVERED" ex_order)))
  ∧ ∃ db' : Sqlite.Database,
      Sqlite.ordersService.updateOrderStatus (Sqlite.db (ex_world_with "SHIPPED")) 1001
        "PROCESSING"
      = (Success (Sqlite.Order.set_estadoPedido "PROCESSING"
                    (Sqlite.Order.set_estadoPedido "SHIPPED" ex_order_row)), db')
      ∧ Sqlite.ordersService.getOrderById db' 1001
        = Success (Sqlite.mkOrderWithProducts
                     (Sqlite.Order.set_estadoPedido "PROCESSING"
                        (Sqlite.Order.set_estadoPedido "SHIPPED" ex_order_row))
                     ex_order_lines).
Proof.
  split.
  - apply (proj1 fulfillment_transitions
             [Json.Order.set_estadoPedido "DELIVERED" ex_order] 1001
             (Json.Order.set_estadoPedido "DELIVERED" ex_order) "PENDING");
      [reflexivity | apply list_elem_of_In; vm_compute; auto | discriminate].
  - apply (proj1 (proj2 (proj2 (proj2 fulfillment_transitions)))
             (Sqlite.db (ex_world_with "SHIPPED")) 1001
             (Sqlite.mkOrderWithProducts
                (Sqlite.Order.set_estadoPedido "SHIPPED" ex_order_row) ex_order_lines)
             "PROCESSING");
      [reflexivity | apply list_elem_of_In; vm_compute; auto | discriminate].
Defined.

(** ** Paying an order that is already paid *)

Lemma includes_PAYMENT_GATEWAYS (gateway : string) :
  includes config.PAYMENT_GATEWAYS gateway = true →
  gateway = "paypal" ∨ gateway = "stripe".
Proof.
  unfold includes. intros Hin%bool_decide_eq_true.
  apply elem_of_cons in Hin as [->|Hin]; [by left|].
  apply list_elem_of_singleton in Hin as ->. by right.
Qed.

(** C7.  An order whose payment status is COMPLETED, and the two
    [processPayment].  The monolith reads the order's payment status and
    refuses: it fails, with "La orden ya ha sido pagada" for a configured
    gateway (for any other gateway name the gateway check has failed
    before), and stores nothing.  The payments service, under the same
    comment "Verificar si la orden ya fue pagada", looks for a COMPLETED
    row of its own payments table and never at the status of the order it
    has fetched: when the table holds no such row, an approved charge
    through a configured gateway goes through, a second payment of the
    order's total is stored and a status update is sent. *)
Theorem processPayment_already_paid :
  (∀ (fs : Json.Files) (orderId : Z) (o : Json.Order.t) (gateway : string)
     (approved : bool) (now_ms : Z) (now : string),
     Json.ordersService.getOrderById (Json.orders fs) orderId = Success o →
     Json.Order.estadoPago o = config.PAYMENT_STATUSES.COMPLETED →
     Json.paymentsService.processPayment fs orderId gateway approved now_ms now
     = (Failure (if includes config.PAYMENT_GATEWAYS gateway
                 then "La orden ya ha sido pagada"
                 else "Pasarela de pago no válida"), fs))
  ∧ (∀ (pdb : Sqlite.PaymentsDatabase) (orderId : Z) (gateway : string)
       (loaded : Sqlite.OrderWithProducts) (now_ms : Z) (now : string),
       Sqlite.Order.estadoPago (Sqlite.order loaded) = config.PAYMENT_STATUSES.COMPLETED →
       includes config.PAYMENT_GATEWAYS gateway = true →
       Sqlite.Payment_findOne pdb orderId config.PAYMENT_STATUSES.COMPLETED = None →
       ∃ payment : Payment.t,
         Sqlite.paymentsService.processPayment pdb orderId gateway (Success loaded) true
           now_ms now
         = (Success payment,
            Sqlite.mkPaymentsDatabase (Sqlite.payments pdb ++ [payment])
              (Sqlite.payments_seq pdb + 1),
            [Sqlite.mkPatch orderId config.PAYMENT_STATUSES.COMPLETED])
         ∧ Payment.pedido_id payment = orderId
         ∧ Payment.estado payment = config.PAYMENT_STATUSES.COMPLETED
         ∧ Payment.monto payment = Sqlite.Order.total (Sqlite.order loaded)).
Proof.
  split.
  - intros fs orderId o gateway approved now_ms now Hget Hpaid.
    unfold Json.paymentsService.processPayment.
    destruct (includes config.PAYMENT_GATEWAYS gateway); [|done].
    cbn [negb]. rewrite Hget. by rewrite bool_decide_eq_true_2.
  - intros pdb orderId gateway loaded now_ms now _ Hgw Hnone.
    unfold Sqlite.paymentsService.processPayment.
    rewrite Hgw, Hnone. cbn [negb].
    destruct (includes_PAYMENT_GATEWAYS _ Hgw) as [-> | ->]; by eexists.
Qed.

Lemma processPayment_already_paid_witness :
  Json.paymentsService.processPayment ex_files_paid 1001 "stripe" true ex_now_ms
    ex_later
  = (Failure "La orden ya ha sido pagada", ex_files_paid)
  ∧ Sqlite.Order.estadoPago (Sqlite.order ex_loaded_completed) = "COMPLETED"
  ∧ ∃ payment : Payment.t,
      Sqlite.paymentsService.processPayment (Sqlite.mkPaymentsDatabase [] 0) 1001 "paypal"
        (Success ex_loaded_completed) true ex_now_ms ex_later
      = (Success payment, Sqlite.mkPaymentsDatabase [payment] 1,
         [Sqlite.mkPatch 1001 "COMPLETED"])
      ∧ Payment.pedido_id payment = 1001
      ∧ Payment.estado payment = "COMPLETED"
      ∧ Payment.monto payment = 1500.
Proof.
  split; [|split; [reflexivity|]].
  - apply (proj1 processPayment_already_paid ex_files_paid 1001
             (ex_completed_of "PROCESSING") "stripe"); reflexivity.
  - apply (proj2 processPayment_already_paid (Sqlite.mkPaymentsDatabase [] 0)
             1001 "paypal" ex_loaded_completed ex_now_ms ex_later); reflexivity.
Defined.

(** ** An order and its cancellation, end to end *)

Lemma Math_max_ge (xs : list Z) :
  ∀ x : Z, x ≤ Math_max x xs ∧ Forall (λ y, y ≤ Math_max x xs) xs.
Proof.
  induction xs as [|y xs IH]; intros x; unfold Math_max in *; cbn [foldl].
  - split; [lia|constructor].
  - destruct (IH (Z.max x y)) as [Hm Hall]. split; [lia|].
    constructor; [lia|done].
Qed.

(** The number given to a new record is the number of no record of the
    file. *)
Lemma next_id_fresh (first : Z) (ids : list Z) : next_id first ids ∉ ids.
Proof.
  destruct ids as [|x xs]; [apply not_elem_of_nil|].
  cbn [next_id]. destruct (Math_max_ge xs x) as [Hx Hall].
  rewrite Forall_forall in Hall.
  intros [Heq|Hin]%elem_of_cons; [lia|]. specialize (Hall _ Hin). simpl in Hall. lia.
Qed.

Lemma Json_getOrderById_new (orders : list Json.Order.t) (newOrder : Json.Order.t) :
  Json.Order.numeroPedido newOrder = next_id 1001 (Json.Order.numeroPedido <$> orders) →
  Json.ordersService.getOrderById (orders ++ [newOrder]) (Json.Order.numeroPedido newOrder)
  = Success newOrder.
Proof.
  intros Hid. unfold Json.ordersService.getOrderById, Json.ordersService.findIndex.
  rewrite list_find_app_r.
  - cbn [list_find]. by rewrite decide_True.
  - apply list_find_None, Forall_forall. intros o Ho Heq.
    apply (next_id_fresh 1001 (Json.Order.numeroPedido <$> orders)).
    rewrite <- Hid, <- Heq. by apply list_elem_of_fmap_2.
Qed.



(** The scenario of section 8 of the specification, on the monolith: a
    product with stock 10 and price 500; an order of 3 units brings the
    stock to 7 and has total 1500 and payment status PENDING; an approved
    payment is recorded as COMPLETED and moves the order to COMPLETED and
    PROCESSING; the order can then still be cancelled, and the stock is 10
    again. *)
Example end_to_end :
  let fs0 := Json.mkFiles [ex_A] [] [] in
  let created := Json.ordersService.createOrder fs0 (ex_orderData [Item.mk 1 3]) ex_now in
  let paid :=
    Json.paymentsService.processPayment created.2 1001 "paypal" true ex_now_ms ex_later in
  let cancelled := Json.ordersService.cancelOrder paid.2 1001 in
  created.1 = Success ex_order
  ∧ stock_of (Json.products created.2) 1 = Some 7
  ∧ Json.payments paid.2
    = [Payment.mk 2001 1001 (Some "PP-1735689600000")
         "Pago procesado exitosamente a través de PayPal" "COMPLETED" 1500 "paypal"
         ex_later]
  ∧ Json.orders paid.2 = [ex_completed_of "PROCESSING"]
  ∧ cancelled.1 = Success (ex_completed_of "CANCELLED")
  ∧ stock_of (Json.products cancelled.2) 1 = Some 10.
Proof. by vm_compute. Qed.


(** * Further properties of the services *)

(** ** The products file *)








Lemma set_stock_disponible_same (p : Product.t) (s : Z) :
  Product.stock_disponible p = s → Product.set_stock_disponible s p = p.
Proof. destruct p. simpl. by intros <-. Qed.

(** Two stock movements of the same product in a row, both accepted. *)
Lemma updateStock_twice (products : list Product.t) (productId s q1 q2 : Z) :
  stock_of products productId = Some s →
  0 ≤ q1 ∨ - q1 ≤ s →
  0 ≤ q2 ∨ - q2 ≤ s + q1 →
  ∃ (i : nat) (p : Product.t) (products1 : list Product.t),
    productsService.findIndex products productId = Some (i, p)
    ∧ Product.stock_disponible p = s
    ∧ productsService.updateStock products productId q1 = (Success (s + q1), products1)
    ∧ productsService.updateStock products1 productId q2
      = (Success (s + q1 + q2),
         <[i := Product.set_stock_disponible (s + q1 + q2) p]> products).
Proof.
  intros (i & p & Hf & <-)%stock_of_Some H1 H2.
  exists i, p. eexists. split; [done|]. split; [done|].
  rewrite (updateStock_found _ _ _ _ _ Hf).
  assert (bool_decide (q1 < 0)
          && bool_decide (Product.stock_disponible p < Z.abs q1) = false) as ->.
  { apply andb_false_iff. rewrite !bool_decide_eq_false. lia. }
  split; [done|].
  assert (productsService.findIndex
            (<[i := Product.set_stock_disponible (Product.stock_disponible p + q1) p]>
               products) productId
          = Some (i, Product.set_stock_disponible (Product.stock_disponible p + q1) p))
    as Hf'.
  { rewrite (findIndex_insert _ _ _ _ _ _ Hf) by done. rewrite Hf. simpl.
    by rewrite decide_True. }
  rewrite (updateStock_found _ _ _ _ _ Hf'). cbn [Product.stock_disponible
    Product.set_stock_disponible].
  assert (bool_decide (q2 < 0)
          && bool_decide (Product.stock_disponible p + q1 < Z.abs q2) = false) as ->.
  { apply andb_false_iff. rewrite !bool_decide_eq_false. lia. }
  by rewrite list_insert_insert_eq.
Qed.

(** X2.  For a product with a stock [s ≥ 0] and a quantity [q ≥ 0], within
    the safe integers: releasing [q] and reserving it again, when [s + q] is
    at most [Number.MAX_SAFE_INTEGER], or reserving [q] and releasing it
    again, when [q ≤ s] and [s] is at most [Number.MAX_SAFE_INTEGER], both
    succeed and bring the products file back to exactly what it was.
    (Beyond the safe integers a release can be lost to rounding,
    [Binary64_updateStock_rounds].) *)
Theorem updateStock_round_trip (products : list Product.t) (productId s q : Z) :
  stock_of products productId = Some s →
  0 ≤ q →
  0 ≤ s →
  (s + q ≤ Number_MAX_SAFE_INTEGER →
   ∃ products1,
     productsService.updateStock products productId q = (Success (s + q), products1)
     ∧ productsService.updateStock products1 productId (- q) = (Success s, products))
  ∧ (q ≤ s →
     s ≤ Number_MAX_SAFE_INTEGER →
     ∃ products1,
       productsService.updateStock products productId (- q) = (Success (s - q), products1)
       ∧ productsService.updateStock products1 productId q = (Success s, products)).
Proof.
  intros Hs Hq Hs0. split.
  - intros _. destruct (updateStock_twice products productId s q (- q) Hs)
      as (i & p & products1 & Hf & Hp & H1 & H2); [lia|lia|].
    exists products1. split; [done|]. rewrite H2.
    replace (s + q + - q) with s by lia.
    rewrite (set_stock_disponible_same _ _ Hp).
    by rewrite (list_insert_id _ _ _ (list_find_lookup _ _ _ _ Hf)).
  - intros Hle _.
    destruct (updateStock_twice products productId s (- q) q Hs)
      as (i & p & products1 & Hf & Hp & H1 & H2); [lia|lia|].
    exists products1. replace (s - q) with (s + - q) by lia. split; [done|]. rewrite H2.
    replace (s + - q + q) with s by lia.
    rewrite (set_stock_disponible_same _ _ Hp).
    by rewrite (list_insert_id _ _ _ (list_find_lookup _ _ _ _ Hf)).
Qed.

Lemma updateStock_round_trip_witness :
  (∃ products1,
     productsService.updateStock ex_products 2 4 = (Success (5 + 4), products1)
     ∧ productsService.updateStock products1 2 (- 4) = (Success 5, ex_products))
  ∧ (∃ products1,
       productsService.updateStock ex_products 2 (- 4) = (Success (5 - 4), products1)
       ∧ productsService.updateStock products1 2 4 = (Success 5, ex_products)).
Proof.
  destruct (updateStock_round_trip ex_products 2 5 4) as [Hrelease Hreserve];
    [reflexivity|lia|lia|].
  split.
  - apply Hrelease. vm_compute. discriminate.
  - apply Hreserve; [lia|vm_compute; discriminate].
Defined.

(** A record appended under a key that no record of the list has is the
    one found under that key, and the records found before are found as
    before. *)
Section keyed_snoc.
Context {A : Type} (key : A → Z).

Lemma keyed_snoc_new (l : list A) (x : A) :
  key x ∉ (key <$> l) →
  list_find (λ a, key a = key x) (l ++ [x]) = Some (length l, x).
Proof.
  intros Hfresh. rewrite list_find_app_r.
  - cbn [list_find]. rewrite decide_True by done. reflexivity.
  - apply list_find_None, Forall_forall. intros a Ha Heq.
    apply Hfresh. rewrite <- Heq. by apply list_elem_of_fmap_2.
Qed.

Lemma keyed_snoc_old (l : list A) (x : A) (k : Z) (i : nat) (a : A) :
  list_find (λ a, key a = k) l = Some (i, a) →
  list_find (λ a, key a = k) (l ++ [x]) = Some (i, a).
Proof. apply list_find_app_l. Qed.

Lemma unique_ids_snoc (l : list A) (x : A) :
  key x ∉ (key <$> l) → unique_ids key l → unique_ids key (l ++ [x]).
Proof.
  unfold unique_ids. intros Hfresh Hl. rewrite fmap_app. apply NoDup_app.
  split; [done|]. split; [|apply NoDup_singleton].
  intros k Hk Hx. apply list_elem_of_singleton in Hx as ->. done.
Qed.

Lemma unique_ids_insert (l : list A) (i : nat) (x y : A) :
  l !! i = Some x → key y = key x → unique_ids key l → unique_ids key (<[i := y]> l).
Proof.
  unfold unique_ids. intros Hi Hk Hl. rewrite list_fmap_insert, Hk.
  rewrite list_insert_id; [done|]. by rewrite list_lookup_fmap, Hi.
Qed.

End keyed_snoc.


Lemma getProductById_Success (products : list Product.t) (productId : Z) (p : Product.t) :
  productsService.getProductById products productId = Success p →
  ∃ i, productsService.findIndex products productId = Some (i, p).
Proof.
  unfold productsService.getProductById.
  destruct (productsService.findIndex products productId) as [[i q]|]; [|done].
  intros [= ->]. eauto.
Qed.

(** X4.  [deleteProduct] on a product of the file is a soft delete: it
    succeeds, the file keeps its length, [getProductById] still returns the
    product, now inactive and otherwise as it was (same stock, same price),
    and the other products are found as before.  When the identifiers of
    the file are unique, [getAllProducts] lists no product with the deleted
    identifier afterwards. *)
Theorem deleteProduct_soft (products : list Product.t) (productId : Z) (p : Product.t) :
  productsService.getProductById products productId = Success p →
  ∃ products' : list Product.t,
    productsService.deleteProduct products productId
    = (Success "Producto eliminado correctamente", products')
    ∧ length products' = length products
    ∧ productsService.getProductById products' productId
      = Success (Product.set_activo false p)
    ∧ (∀ other, other ≠ productId →
         productsService.getProductById products' other
         = productsService.getProductById products other)
    ∧ (∀ other, stock_of products' other = stock_of products other)
    ∧ (∀ other, precio_of products' other = precio_of products other)
    ∧ (unique_ids Product.id products →
       ∀ q, q ∈ productsService.getAllProducts products' → Product.id q ≠ productId).
Proof.
  intros [i Hf]%getProductById_Success.
  pose proof (list_find_lookup _ _ _ _ Hf) as Hi.
  pose proof (list_find_holds _ _ _ _ Hf) as Hid. simpl in Hid.
  unfold productsService.deleteProduct. rewrite Hf.
  eexists. split; [done|]. split; [apply length_insert|].
  assert (∀ other,
    productsService.findIndex (<[i := Product.set_activo false p]> products) other
    = (λ jz : nat * Product.t,
         (jz.1, if decide (jz.1 = i) then Product.set_activo false p else jz.2))
        <$> productsService.findIndex products other) as Hfind
    by (intros other; by apply (findIndex_insert _ _ _ _ _ _ Hf)).
  split_and!.
  - unfold productsService.getProductById. rewrite Hfind, Hf. simpl.
    by rewrite decide_True.
  - intros other Hne. unfold productsService.getProductById. rewrite Hfind.
    destruct (productsService.findIndex products other) as [[j q]|] eqn:Ho; [|done].
    simpl. destruct (decide (j = i)) as [->|]; [|done].
    pose proof (list_find_lookup _ _ _ _ Ho) as Hj.
    pose proof (list_find_holds _ _ _ _ Ho) as Hq. simpl in Hq. congruence.
  - intros other. unfold stock_of. rewrite Hfind.
    destruct (productsService.findIndex products other) as [[j q]|] eqn:Ho; [|done].
    simpl. destruct (decide (j = i)) as [->|]; [|done].
    pose proof (list_find_lookup _ _ _ _ Ho) as Hj. simpl. congruence.
  - intros other. unfold precio_of. rewrite Hfind.
    destruct (productsService.findIndex products other) as [[j q]|] eqn:Ho; [|done].
    simpl. destruct (decide (j = i)) as [->|]; [|done].
    pose proof (list_find_lookup _ _ _ _ Ho) as Hj. simpl. congruence.
  - intros Huniq q [Hactive Hq]%list_elem_of_filter Hqid.
    apply list_elem_of_lookup_1 in Hq as [j Hj].
    apply list_lookup_insert_Some in Hj as [(-> & <- & _)|(Hne & Hj)]; [done|].
    apply Hne. eapply (NoDup_lookup _ _ _ _ Huniq).
    + by rewrite list_lookup_fmap, Hi.
    + rewrite list_lookup_fmap, Hj. simpl. congruence.
Qed.

Lemma deleteProduct_soft_witness :
  ∃ products' : list Product.t,
    productsService.deleteProduct ex_products 1
    = (Success "Producto eliminado correctamente", products')
    ∧ productsService.getProductById products' 1 = Success (Product.set_activo false ex_A)
    ∧ stock_of products' 1 = Some 10
    ∧ productsService.getAllProducts products' = [ex_B].
Proof.
  destruct (deleteProduct_soft ex_products 1 ex_A eq_refl)
    as (products' & Hd & _ & Hget & _ & Hs & _).
  exists products'. split; [exact Hd|]. split; [exact Hget|].
  split; [by rewrite Hs|]. by injection Hd as <-.
Defined.

(** ** Orders of inactive products *)

Lemma same_but_activo_refl (products : list Product.t) :
  same_but_activo products products.
Proof. apply Forall_Forall2_diag, Forall_forall. intros p _. by destruct p. Qed.

Lemma same_but_activo_findIndex (products products' : list Product.t) (productId : Z) :
  same_but_activo products products' →
  match productsService.findIndex products productId,
        productsService.findIndex products' productId with
  | Some (i, p), Some (j, p') => i = j ∧ p' = Product.set_activo (Product.activo p') p
  | None, None => True
  | _, _ => False
  end.
Proof.
  unfold productsService.findIndex.
  induction 1 as [|p p' l l' Hp Hl IH]; [done|]. cbn [list_find].
  assert (Product.id p' = Product.id p) as Hid by (by rewrite Hp).
  destruct (decide (Product.id p = productId)), (decide (Product.id p' = productId));
    try congruence; [done|].
  destruct (list_find _ l) as [[i q]|], (list_find _ l') as [[j q']|]; try done.
  simpl. destruct IH as [-> ->]. done.
Qed.

Lemma same_but_activo_updateStock (products products' : list Product.t)
    (productId quantity : Z) :
  same_but_activo products products' →
  (productsService.updateStock products productId quantity).1
  = (productsService.updateStock products' productId quantity).1
  ∧ same_but_activo (productsService.updateStock products productId quantity).2
      (productsService.updateStock products' productId quantity).2.
Proof.
  intros HR. pose proof (same_but_activo_findIndex _ _ productId HR) as Hf.
  unfold productsService.updateStock.
  destruct (productsService.findIndex products productId) as [[i p]|],
    (productsService.findIndex products' productId) as [[j p']|]; try done.
  destruct Hf as [<- Hp].
  assert (Product.stock_disponible p' = Product.stock_disponible p) as ->
    by (by rewrite Hp).
  destruct (_ && _); [done|]. cbn [fst snd]. split; [done|].
  apply Forall2_insert; [done|]. rewrite Hp at 1. by destruct p.
Qed.

Lemma same_but_activo_createOrder_items (items : list Item.t) :
  ∀ (products products' : list Product.t) (productos : list Line.t) (total : Z),
  same_but_activo products products' →
  (Json.ordersService.createOrder_items products items productos total).1
  = (Json.ordersService.createOrder_items products' items productos total).1
  ∧ same_but_activo
      (Json.ordersService.createOrder_items products items productos total).2
      (Json.ordersService.createOrder_items products' items productos total).2.
Proof.
  induction items as [|item rest IH]; intros products products' productos total HR;
    cbn [Json.ordersService.createOrder_items]; [done|].
  pose proof (same_but_activo_findIndex _ _ (Item.producto_id item) HR) as Hf.
  unfold productsService.getProductById.
  destruct (productsService.findIndex products (Item.producto_id item)) as [[i p]|],
    (productsService.findIndex products' (Item.producto_id item)) as [[j p']|]; try done.
  destruct Hf as [<- Hp].
  assert (Product.stock_disponible p' = Product.stock_disponible p) as ->
    by (by rewrite Hp).
  assert (Product.nombre p' = Product.nombre p) as -> by (by rewrite Hp).
  assert (Product.id p' = Product.id p) as -> by (by rewrite Hp).
  assert (Product.precio p' = Product.precio p) as -> by (by rewrite Hp).
  case_bool_decide; [done|].
  destruct (same_but_activo_updateStock _ _ (Product.id p) (- Item.cantidad item) HR)
    as [Hr HR'].
  destruct (productsService.updateStock products _ _) as [[c|m] ps1],
    (productsService.updateStock products' _ _) as [[c'|m'] ps1'];
    cbn [fst snd] in Hr, HR'; try done.
  - by apply IH.
  - injection Hr as ->. done.
Qed.

Lemma same_but_activo_stock_of (products products' : list Product.t) (productId : Z) :
  same_but_activo products products' →
  stock_of products' productId = stock_of products productId.
Proof.
  intros HR. pose proof (same_but_activo_findIndex _ _ productId HR) as Hf.
  unfold stock_of.
  destruct (productsService.findIndex products productId) as [[i p]|],
    (productsService.findIndex products' productId) as [[j p']|]; try done.
  destruct Hf as [_ ->]. done.
Qed.

Lemma same_but_activo_deleteProduct (products : list Product.t) (productId : Z) :
  same_but_activo products (productsService.deleteProduct products productId).2.
Proof.
  unfold productsService.deleteProduct.
  destruct (productsService.findIndex products productId) as [[i p]|] eqn:Hf;
    cbn [snd]; [|apply same_but_activo_refl].
  rewrite <- (list_insert_id products i p) at 1 by (by eapply list_find_lookup).
  apply Forall2_insert; [apply same_but_activo_refl|done].
Qed.

(** X5.  The monolith's [createOrder] never looks at the [activo] flag: on
    the products file as [deleteProduct] leaves it, an order request gets
    the answer it would have got before the deletion (the same order or
    the same failure), and brings every stock to the same value.  A deleted
    product can still be ordered. *)
Theorem createOrder_ignores_deleteProduct
    (fs : Json.Files) (productId : Z) (orderData : OrderData.t) (now : string) :
  let deleted :=
    with_products fs (productsService.deleteProduct (Json.products fs) productId).2 in
  (Json.ordersService.createOrder deleted orderData now).1
  = (Json.ordersService.createOrder fs orderData now).1
  ∧ ∀ other,
      stock_of (Json.products (Json.ordersService.createOrder deleted orderData now).2) other
      = stock_of (Json.products (Json.ordersService.createOrder fs orderData now).2) other.
Proof.
  intros deleted. unfold Json.ordersService.createOrder, deleted, with_products.
  cbn [Json.products Json.orders Json.payments].
  destruct (same_but_activo_createOrder_items (OrderData.productos orderData)
              (Json.products fs) _ [] 0
              (same_but_activo_deleteProduct (Json.products fs) productId)) as [Hr HR].
  destruct (Json.ordersService.createOrder_items (Json.products fs) _ _ _)
    as [[[productos total]|m] ps1],
    (Json.ordersService.createOrder_items
       (productsService.deleteProduct (Json.products fs) productId).2 _ _ _)
    as [[[productos' total']|m'] ps1']; cbn [fst snd] in Hr, HR; try done.
  - injection Hr as -> ->. split; [done|].
    intros other. by apply same_but_activo_stock_of.
  - injection Hr as ->. split; [done|].
    intros other. by apply same_but_activo_stock_of.
Qed.

(** ** Orders of the monolith *)






(** ** Payments of the monolith *)

Lemma Json_updatePaymentStatus_COMPLETED (orders : list Json.Order.t) (orderId : Z)
    (i : nat) (o : Json.Order.t) :
  Json.ordersService.findIndex orders orderId = Some (i, o) →
  Json.ordersService.updatePaymentStatus orders orderId config.PAYMENT_STATUSES.COMPLETED
  = (Success (Json_paid o), <[i := Json_paid o]> orders).
Proof.
  intros Hf. unfold Json.ordersService.updatePaymentStatus. rewrite Hf, includes_COMPLETED.
  cbn [negb Json.Order.estadoPedido Json.Order.set_estadoPago].
  rewrite (bool_decide_eq_true_2 (_ = config.PAYMENT_STATUSES.COMPLETED)) by done.
  cbn [andb]. unfold Json_paid. by case_bool_decide.
Qed.

Lemma Json_paid_fields (o : Json.Order.t) :
  Json.Order.numeroPedido (Json_paid o) = Json.Order.numeroPedido o
  ∧ Json.Order.estadoPago (Json_paid o) = config.PAYMENT_STATUSES.COMPLETED
  ∧ Json.Order.estadoPedido (Json_paid o)
    = (if bool_decide (Json.Order.estadoPedido o = config.ORDER_STATUSES.PENDING)
       then config.ORDER_STATUSES.PROCESSING else Json.Order.estadoPedido o)
  ∧ Json.Order.total (Json_paid o) = Json.Order.total o
  ∧ Json.Order.productos (Json_paid o) = Json.Order.productos o
  ∧ Json.Order.cliente_id (Json_paid o) = Json.Order.cliente_id o.
Proof. unfold Json_paid. by case_bool_decide. Qed.

(** What a successful [processPayment] of the monolith has done. *)
Lemma Json_processPayment_Success_inv
    (fs : Json.Files) (orderId : Z) (gateway : string) (approved : bool) (now_ms : Z)
    (now : string) (payment : Payment.t) (fs' : Json.Files) :
  Json.paymentsService.processPayment fs orderId gateway approved now_ms now
  = (Success payment, fs') →
  ∃ (i : nat) (o : Json.Order.t),
    Json.ordersService.findIndex (Json.orders fs) orderId = Some (i, o)
    ∧ Json.Order.estadoPago o ≠ config.PAYMENT_STATUSES.COMPLETED
    ∧ includes config.PAYMENT_GATEWAYS gateway = true
    ∧ approved = true
    ∧ fs' = Json.mkFiles (Json.products fs) (<[i := Json_paid o]> (Json.orders fs))
              (Json.payments fs ++ [payment])
    ∧ Payment.id payment = next_id 2001 (Payment.id <$> Json.payments fs)
    ∧ Payment.pedido_id payment = orderId
    ∧ Payment.estado payment = config.PAYMENT_STATUSES.COMPLETED
    ∧ Payment.monto payment = Json.Order.total o
    ∧ Payment.pasarela payment = gateway.
Proof.
  unfold Json.paymentsService.processPayment.
  destruct (includes config.PAYMENT_GATEWAYS gateway) eqn:Hgw; [|done]. cbn [negb].
  unfold Json.ordersService.getOrderById.
  destruct (Json.ordersService.findIndex (Json.orders fs) orderId) as [[i o]|] eqn:Hf;
    [|done].
  case_bool_decide as Hpaid; [done|].
  destruct (includes_PAYMENT_GATEWAYS _ Hgw) as [-> | ->];
    cbn [PaymentProcessorFactory.createPaymentProcessor bool_decide decide_rel];
    (destruct approved; [|done]);
    rewrite (Json_updatePaymentStatus_COMPLETED _ _ _ _ Hf);
    intros [= <- <-]; exists i, o; by split_and!.
Qed.

(** An approved charge for an order that is not paid yet, through a
    configured gateway, goes through. *)
Lemma Json_processPayment_approved
    (fs : Json.Files) (orderId : Z) (o : Json.Order.t) (gateway : string) (now_ms : Z)
    (now : string) :
  Json.ordersService.getOrderById (Json.orders fs) orderId = Success o →
  Json.Order.estadoPago o ≠ config.PAYMENT_STATUSES.COMPLETED →
  includes config.PAYMENT_GATEWAYS gateway = true →
  success (Json.paymentsService.processPayment fs orderId gateway true now_ms now).1 = true.
Proof.
  intros Hget Hunpaid Hgw. unfold Json.paymentsService.processPayment.
  rewrite Hgw, Hget. cbn [negb]. rewrite bool_decide_eq_false_2 by done.
  by destruct (includes_PAYMENT_GATEWAYS _ Hgw) as [-> | ->].
Qed.

Lemma Json_getPaymentById_new (payments : list Payment.t) (payment : Payment.t) :
  Payment.id payment = next_id 2001 (Payment.id <$> payments) →
  Json.paymentsService.getPaymentById (payments ++ [payment]) (Payment.id payment)
  = Success payment.
Proof.
  intros Hid. unfold Json.paymentsService.getPaymentById, Json.paymentsService.findIndex.
  rewrite (keyed_snoc_new Payment.id payments payment); [done|].
  rewrite Hid. apply next_id_fresh.
Qed.

(** X10.  An approved charge through a configured gateway for an order of
    the orders file that is not paid yet: [processPayment] succeeds and
    appends one payment, under a new identifier, for that order, with status
    COMPLETED, the gateway's name and the order's total as amount; the
    order is stored with payment status COMPLETED and with fulfillment
    status PROCESSING if it was PENDING (unchanged otherwise); the other
    orders and the products file are untouched. *)
Theorem processPayment_success
    (fs : Json.Files) (orderId : Z) (o : Json.Order.t) (gateway : string) (now_ms : Z)
    (now : string) :
  Json.ordersService.getOrderById (Json.orders fs) orderId = Success o →
  Json.Order.estadoPago o ≠ config.PAYMENT_STATUSES.COMPLETED →
  includes config.PAYMENT_GATEWAYS gateway = true →
  ∃ (payment : Payment.t) (fs' : Json.Files),
    Json.paymentsService.processPayment fs orderId gateway true now_ms now
    = (Success payment, fs')
    ∧ Json.payments fs' = (Json.payments fs ++ [payment])%list
    ∧ (Payment.id payment ∉ Payment.id <$> Json.payments fs)
    ∧ Payment.pedido_id payment = orderId
    ∧ Payment.estado payment = config.PAYMENT_STATUSES.COMPLETED
    ∧ Payment.monto payment = Json.Order.total o
    ∧ Payment.pasarela payment = gateway
    ∧ Json.ordersService.getOrderById (Json.orders fs') orderId = Success (Json_paid o)
    ∧ Json.Order.estadoPago (Json_paid o) = config.PAYMENT_STATUSES.COMPLETED
    ∧ Json.Order.estadoPedido (Json_paid o)
      = (if bool_decide (Json.Order.estadoPedido o = config.ORDER_STATUSES.PENDING)
         then config.ORDER_STATUSES.PROCESSING else Json.Order.estadoPedido o)
    ∧ (∀ other, other ≠ orderId →
         Json.ordersService.getOrderById (Json.orders fs') other
         = Json.ordersService.getOrderById (Json.orders fs) other)
    ∧ Json.products fs' = Json.products fs.
Proof.
  intros Hget Hunpaid Hgw.
  pose proof (Json_processPayment_approved fs orderId o gateway now_ms now Hget Hunpaid Hgw)
    as Hok.
  destruct (Json.paymentsService.processPayment fs orderId gateway true now_ms now)
    as [[payment|m] fs'] eqn:Hpay; [|done].
  exists payment, fs'. split; [done|].
  apply Json_processPayment_Success_inv in Hpay
    as (i & o' & Hf & _ & _ & _ & -> & Hid & Hped & Hest & Hmonto & Hgate).
  pose proof Hget as [j Hf']%Json_getOrderById_Success.
  rewrite Hf in Hf'. injection Hf' as -> ->.
  destruct (Json_paid_fields o) as (Hn & Hp & He & _).
  destruct (Json_getOrderById_insert (Json.orders fs) orderId j o (Json_paid o) Hf Hn)
    as [Hsame Hother].
  cbn [Json.payments Json.orders Json.products].
  split_and!; try done. rewrite Hid. apply next_id_fresh.
Qed.

Lemma processPayment_success_witness :
  ∃ (payment : Payment.t) (fs' : Json.Files),
    Json.paymentsService.processPayment ex_files_ordered 1001 "paypal" true ex_now_ms ex_later
    = (Success payment, fs')
    ∧ Json.payments fs' = [payment]
    ∧ Payment.monto payment = 1500
    ∧ Json.ordersService.getOrderById (Json.orders fs') 1001
      = Success (ex_completed_of "PROCESSING").
Proof.
  destruct (processPayment_success ex_files_ordered 1001 ex_order "paypal" ex_now_ms
              ex_later eq_refl)
    as (payment & fs' & Hpay & Hps & _ & _ & _ & Hm & _ & Hget & _);
    [discriminate | reflexivity |].
  exists payment, fs'. split; [exact Hpay|]. split; [exact Hps|].
  split; [exact Hm|exact Hget].
Defined.

(** X11.  A [processPayment] of the monolith that fails, for whatever
    reason, leaves the products, orders and payments files as they were.
    A declined charge is such a failure: for an unpaid order and a
    configured gateway it returns the gateway's own message. *)
Theorem processPayment_failure_changes_nothing :
  (∀ (fs : Json.Files) (orderId : Z) (gateway : string) (approved : bool) (now_ms : Z)
     (now message : string) (fs' : Json.Files),
     Json.paymentsService.processPayment fs orderId gateway approved now_ms now
     = (Failure message, fs') →
     fs' = fs)
  ∧ (∀ (fs : Json.Files) (orderId : Z) (o : Json.Order.t) (gateway : string)
       (now_ms : Z) (now : string),
       Json.ordersService.getOrderById (Json.orders fs) orderId = Success o →
       Json.Order.estadoPago o ≠ config.PAYMENT_STATUSES.COMPLETED →
       includes config.PAYMENT_GATEWAYS gateway = true →
       Json.paymentsService.processPayment fs orderId gateway false now_ms now
       = (Failure (declined_message gateway), fs)).
Proof.
  split.
  - intros fs orderId gateway approved now_ms now message fs'.
    unfold Json.paymentsService.processPayment.
    destruct (negb _); [by intros [= _ <-]|].
    destruct (Json.ordersService.getOrderById _ _) as [o|]; [|by intros [= _ <-]].
    case_bool_decide; [by intros [= _ <-]|].
    destruct (PaymentProcessorFactory.createPaymentProcessor gateway) as [processor|];
      [|by intros [= _ <-]].
    destruct (processPayment processor o approved now_ms) as [[tx msg]|];
      [done|by intros [= _ <-]].
  - intros fs orderId o gateway now_ms now Hget Hunpaid Hgw.
    unfold Json.paymentsService.processPayment.
    rewrite Hgw, Hget. cbn [negb]. rewrite bool_decide_eq_false_2 by done.
    by destruct (includes_PAYMENT_GATEWAYS _ Hgw) as [-> | ->].
Qed.

Lemma processPayment_failure_changes_nothing_witness :
  Json.paymentsService.processPayment ex_files_ordered 1001 "stripe" false ex_now_ms ex_later
  = (Failure "Error al procesar el pago con Stripe. Por favor, intente nuevamente.",
     ex_files_ordered).
Proof.
  apply (proj2 processPayment_failure_changes_nothing ex_files_ordered 1001 ex_order
           "stripe"); [reflexivity | discriminate | reflexivity].
Defined.

(** X12.  Paying twice in a row.  On the files as a successful
    [processPayment] for an order has left them, a second [processPayment]
    for that order fails, whatever the gateway and its answer would be, and
    stores nothing: with "La orden ya ha sido pagada" for a configured
    gateway, with "Pasarela de pago no válida" otherwise.  (Once the payment
    is refunded the order can be paid again, [refunded_order_paid_again].) *)
Theorem processPayment_twice
    (fs : Json.Files) (orderId : Z) (gateway : string) (approved : bool) (now_ms : Z)
    (now : string) (payment : Payment.t) (fs' : Json.Files) :
  Json.paymentsService.processPayment fs orderId gateway approved now_ms now
  = (Success payment, fs') →
  ∀ (gateway2 : string) (approved2 : bool) (now_ms2 : Z) (now2 : string),
    Json.paymentsService.processPayment fs' orderId gateway2 approved2 now_ms2 now2
    = (Failure (if includes config.PAYMENT_GATEWAYS gateway2
                then "La orden ya ha sido pagada"
                else "Pasarela de pago no válida"), fs').
Proof.
  intros (i & o & Hf & _ & _ & _ & -> & _)%Json_processPayment_Success_inv
    gateway2 approved2 now_ms2 now2.
  destruct (Json_paid_fields o) as (Hn & Hp & _).
  destruct (Json_getOrderById_insert (Json.orders fs) orderId i o (Json_paid o) Hf Hn)
    as [Hsame _].
  unfold Json.paymentsService.processPayment.
  destruct (includes config.PAYMENT_GATEWAYS gateway2); [|done].
  cbn [negb Json.orders]. rewrite Hsame. by rewrite bool_decide_eq_true_2.
Qed.

Lemma processPayment_twice_witness :
  Json.paymentsService.processPayment ex_files_ordered 1001 "paypal" true ex_now_ms ex_now
  = (Success ex_payment, ex_files_paid)
  ∧ Json.paymentsService.processPayment ex_files_paid 1001 "stripe" true ex_now_ms ex_later
    = (Failure "La orden ya ha sido pagada", ex_files_paid).
Proof.
  assert (Json.paymentsService.processPayment ex_files_ordered 1001 "paypal" true ex_now_ms
            ex_now = (Success ex_payment, ex_files_paid)) as H
    by (vm_compute; reflexivity).
  split; [exact H|].
  exact (processPayment_twice _ _ _ _ _ _ _ _ H "stripe" true ex_now_ms ex_later).
Defined.

(** ** Refunds and cancelled payments of the monolith *)

Lemma Json_getPaymentById_Success (payments : list Payment.t) (paymentId : Z)
    (payment : Payment.t) :
  Json.paymentsService.getPaymentById payments paymentId = Success payment →
  ∃ i, Json.paymentsService.findIndex payments paymentId = Some (i, payment).
Proof.
  unfold Json.paymentsService.getPaymentById.
  destruct (Json.paymentsService.findIndex payments paymentId) as [[i q]|]; [|done].
  intros [= ->]. eauto.
Qed.

Lemma Json_getPaymentById_insert (payments : list Payment.t) (paymentId : Z) (i : nat)
    (p p' : Payment.t) :
  Json.paymentsService.findIndex payments paymentId = Some (i, p) →
  Payment.id p' = Payment.id p →
  Json.paymentsService.getPaymentById (<[i := p']> payments) paymentId = Success p'
  ∧ ∀ other, other ≠ paymentId →
      Json.paymentsService.getPaymentById (<[i := p']> payments) other
      = Json.paymentsService.getPaymentById payments other.
Proof.
  intros Hf Hk.
  unfold Json.paymentsService.getPaymentById, Json.paymentsService.findIndex in *. split.
  - by rewrite (keyed_insert_same Payment.id _ _ _ _ _ Hf Hk).
  - intros other Hne. by rewrite (keyed_insert_other Payment.id _ _ _ _ _ _ Hf Hk Hne).
Qed.

(** "CANCELLED" is not a payment status of an order: the orders service
    refuses it and writes nothing. *)
Lemma Json_updatePaymentStatus_CANCELLED (orders : list Json.Order.t) (orderId : Z) :
  (Json.ordersService.updatePaymentStatus orders orderId "CANCELLED").2 = orders.
Proof.
  unfold Json.ordersService.updatePaymentStatus.
  by destruct (Json.ordersService.findIndex orders orderId) as [[i o]|].
Qed.

Lemma Json_updatePaymentStatus_REFUNDED (orders : list Json.Order.t) (orderId : Z)
    (o : Json.Order.t) :
  Json.ordersService.getOrderById orders orderId = Success o →
  Json.ordersService.getOrderById
    (Json.ordersService.updatePaymentStatus orders orderId
       config.PAYMENT_STATUSES.REFUNDED).2 orderId
  = Success (Json.Order.set_estadoPago config.PAYMENT_STATUSES.REFUNDED o).
Proof.
  intros [i Hf]%Json_getOrderById_Success.
  unfold Json.ordersService.updatePaymentStatus. rewrite Hf. cbn [snd negb includes].
  by destruct (Json_getOrderById_insert orders orderId i o
                 (Json.Order.set_estadoPago config.PAYMENT_STATUSES.REFUNDED o) Hf).
Qed.

(** The payment as [processRefund] stores it. *)
Lemma Json_processRefund_ok
    (fs : Json.Files) (paymentId : Z) (payment : Payment.t) (amount : option Z)
    (now_ms : Z) :
  Json.paymentsService.getPaymentById (Json.payments fs) paymentId = Success payment →
  Payment.estado payment = config.PAYMENT_STATUSES.COMPLETED →
  Json.paymentsService.refundAmount amount (Payment.monto payment) ≤ Payment.monto payment →
  includes config.PAYMENT_GATEWAYS (Payment.pasarela payment) = true →
  ∃ (refundId : string) (i : nat),
    let payment' :=
      Payment.set_estado_respuesta config.PAYMENT_STATUSES.REFUNDED
        "Reembolso procesado: Reembolso procesado exitosamente" payment in
    Json.paymentsService.findIndex (Json.payments fs) paymentId = Some (i, payment)
    ∧ Json.paymentsService.processRefund fs paymentId amount now_ms
      = (Success (refundId, "Reembolso procesado exitosamente", payment'),
         Json.mkFiles (Json.products fs)
           (Json.ordersService.updatePaymentStatus (Json.orders fs)
              (Payment.pedido_id payment) config.PAYMENT_STATUSES.REFUNDED).2
           (<[i := payment']> (Json.payments fs))).
Proof.
  intros [i Hf]%Json_getPaymentById_Success Hest Hamount Hgw.
  unfold Json.paymentsService.processRefund. rewrite Hf, Hest.
  rewrite (bool_decide_eq_true_2 (_ = _)) by done. cbn [negb].
  rewrite bool_decide_eq_false_2 by lia.
  destruct (includes_PAYMENT_GATEWAYS _ Hgw) as [-> | ->];
    cbn [PaymentProcessorFactory.createRefundManager bool_decide decide_rel];
    eexists _, i; by split.
Qed.

(** X13.  A [processRefund] of the monolith that fails leaves the three
    files as they were.  It fails for a payment whose status is not
    COMPLETED, and for a COMPLETED payment when the amount asked for is
    more than the amount of the payment. *)
Theorem processRefund_rejected :
  (∀ (fs : Json.Files) (paymentId : Z) (amount : option Z) (now_ms : Z)
     (message : string) (fs' : Json.Files),
     Json.paymentsService.processRefund fs paymentId amount now_ms = (Failure message, fs') →
     fs' = fs)
  ∧ (∀ (fs : Json.Files) (paymentId : Z) (payment : Payment.t) (amount : option Z)
       (now_ms : Z),
       Json.paymentsService.getPaymentById (Json.payments fs) paymentId = Success payment →
       Payment.estado payment ≠ config.PAYMENT_STATUSES.COMPLETED →
       Json.paymentsService.processRefund fs paymentId amount now_ms
       = (Failure "Solo se pueden reembolsar pagos completados", fs))
  ∧ (∀ (fs : Json.Files) (paymentId : Z) (payment : Payment.t) (a now_ms : Z),
       Json.paymentsService.getPaymentById (Json.payments fs) paymentId = Success payment →
       Payment.estado payment = config.PAYMENT_STATUSES.COMPLETED →
       a ≠ 0 →
       Payment.monto payment < a →
       Json.paymentsService.processRefund fs paymentId (Some a) now_ms
       = (Failure "El monto a reembolsar no puede exceder el monto del pago", fs)).
Proof.
  split_and!.
  - intros fs paymentId amount now_ms message fs'.
    unfold Json.paymentsService.processRefund.
    destruct (Json.paymentsService.findIndex _ _) as [[i payment]|]; [|by intros [= _ <-]].
    destruct (negb _); [by intros [= _ <-]|].
    case_bool_decide; [by intros [= _ <-]|].
    destruct (PaymentProcessorFactory.createRefundManager _) as [manager|];
      [|by intros [= _ <-]].
    destruct (processRefund manager _ _ _) as [[refundId msg]|]; [done|by intros [= _ <-]].
  - intros fs paymentId payment amount now_ms [i Hf]%Json_getPaymentById_Success Hest.
    unfold Json.paymentsService.processRefund. rewrite Hf.
    by rewrite bool_decide_eq_false_2.
  - intros fs paymentId payment a now_ms [i Hf]%Json_getPaymentById_Success Hest Ha Hlt.
    unfold Json.paymentsService.processRefund. rewrite Hf, Hest.
    rewrite (bool_decide_eq_true_2 (_ = _)) by done. cbn [negb].
    unfold Json.paymentsService.refundAmount. cbn [truthy_number default].
    rewrite (bool_decide_eq_false_2 (a = 0)) by done. cbn [negb].
    by rewrite bool_decide_eq_true_2.
Qed.

Lemma processRefund_rejected_witness :
  Json.paymentsService.processRefund ex_files_paid 2001 (Some 1501) ex_now_ms
  = (Failure "El monto a reembolsar no puede exceder el monto del pago", ex_files_paid)
  ∧ Json.paymentsService.getPaymentById (Json.payments ex_files_paid) 2001
    = Success ex_payment.
Proof.
  split; [|reflexivity].
  apply (proj2 (proj2 processRefund_rejected) ex_files_paid 2001 ex_payment 1501 ex_now_ms);
    [reflexivity | reflexivity | lia | simpl; lia].
Defined.

(** X14.  A refund of a COMPLETED payment, of an amount not above the
    payment's (the whole amount when none or 0 is given; no lower bound is
    checked), through a known gateway: [processRefund] succeeds; the
    payment is stored with status REFUNDED and its amount unchanged, so the
    refunded amount is recorded nowhere; the order of the payment, when it
    is in the orders file, gets payment status REFUNDED and nothing else
    changed; the products file is untouched; and every further refund of
    this payment is refused. *)
Theorem processRefund_success
    (fs : Json.Files) (paymentId : Z) (payment : Payment.t) (amount : option Z)
    (now_ms : Z) :
  Json.paymentsService.getPaymentById (Json.payments fs) paymentId = Success payment →
  Payment.estado payment = config.PAYMENT_STATUSES.COMPLETED →
  Json.paymentsService.refundAmount amount (Payment.monto payment) ≤ Payment.monto payment →
  includes config.PAYMENT_GATEWAYS (Payment.pasarela payment) = true →
  ∃ (refundId message : string) (payment' : Payment.t) (fs' : Json.Files),
    Json.paymentsService.processRefund fs paymentId amount now_ms
    = (Success (refundId, message, payment'), fs')
    ∧ Json.paymentsService.getPaymentById (Json.payments fs') paymentId = Success payment'
    ∧ Payment.estado payment' = config.PAYMENT_STATUSES.REFUNDED
    ∧ Payment.monto payment' = Payment.monto payment
    ∧ Payment.pedido_id payment' = Payment.pedido_id payment
    ∧ (∀ other, other ≠ paymentId →
         Json.paymentsService.getPaymentById (Json.payments fs') other
         = Json.paymentsService.getPaymentById (Json.payments fs) other)
    ∧ (∀ o : Json.Order.t,
         Json.ordersService.getOrderById (Json.orders fs) (Payment.pedido_id payment)
         = Success o →
         Json.ordersService.getOrderById (Json.orders fs') (Payment.pedido_id payment)
         = Success (Json.Order.set_estadoPago config.PAYMENT_STATUSES.REFUNDED o))
    ∧ Json.products fs' = Json.products fs
    ∧ ∀ (amount2 : option Z) (now_ms2 : Z),
        Json.paymentsService.processRefund fs' paymentId amount2 now_ms2
        = (Failure "Solo se pueden reembolsar pagos completados", fs').
Proof.
  intros Hget Hest Hamount Hgw.
  destruct (Json_processRefund_ok fs paymentId payment amount now_ms Hget Hest Hamount Hgw)
    as (refundId & i & Hf & Hrefund).
  eexists _, _, _, _. split; [exact Hrefund|].
  cbn [Json.payments Json.orders Json.products].
  destruct (Json_getPaymentById_insert (Json.payments fs) paymentId i payment
              (Payment.set_estado_respuesta config.PAYMENT_STATUSES.REFUNDED
                 "Reembolso procesado: Reembolso procesado exitosamente" payment) Hf)
    as [Hsame Hother]; [done|].
  split_and!; try done.
  - intros o Ho. by apply Json_updatePaymentStatus_REFUNDED.
  - intros amount2 now_ms2. unfold Json.paymentsService.processRefund.
    cbn [Json.payments].
    apply Json_getPaymentById_Success in Hsame as [j Hj]. by rewrite Hj.
Qed.

Lemma processRefund_success_witness :
  ∃ (refundId message : string) (payment' : Payment.t) (fs' : Json.Files),
    Json.paymentsService.processRefund ex_files_paid 2001 (Some 500) ex_now_ms
    = (Success (refundId, message, payment'), fs')
    ∧ Payment.estado payment' = "REFUNDED"
    ∧ Payment.monto payment' = 1500
    ∧ Json.ordersService.getOrderById (Json.orders fs') 1001
      = Success (Json.Order.set_estadoPago "REFUNDED" (ex_completed_of "PROCESSING"))
    ∧ Json.paymentsService.processRefund fs' 2001 None ex_now_ms
      = (Failure "Solo se pueden reembolsar pagos completados", fs').
Proof.
  destruct (processRefund_success ex_files_paid 2001 ex_payment (Some 500) ex_now_ms)
    as (refundId & message & payment' & fs' & Hr & _ & He & Hm & _ & _ & Ho & _ & Hagain);
    [reflexivity | reflexivity | vm_compute; discriminate | reflexivity |].
  exists refundId, message, payment', fs'.
  split; [exact Hr|]. split; [exact He|]. split; [exact Hm|].
  split; [exact (Ho _ eq_refl)|exact (Hagain None ex_now_ms)].
Defined.

(** X15.  [cancelPayment] of the monolith reports the payment status
    "CANCELLED" to the orders service, which does not know that status and
    writes nothing: whatever the payment and whether the call succeeds or
    fails, the orders file and the products file are the same after it.
    And a payment that [processPayment] has just recorded cannot be
    cancelled: it is COMPLETED, and only PENDING payments are. *)
Theorem cancelPayment_leaves_orders :
  (∀ (fs : Json.Files) (paymentId : Z),
     Json.orders (Json.paymentsService.cancelPayment fs paymentId).2 = Json.orders fs
     ∧ Json.products (Json.paymentsService.cancelPayment fs paymentId).2 = Json.products fs)
  ∧ (∀ (fs : Json.Files) (orderId : Z) (gateway : string) (approved : bool) (now_ms : Z)
       (now : string) (payment : Payment.t) (fs' : Json.Files),
       Json.paymentsService.processPayment fs orderId gateway approved now_ms now
       = (Success payment, fs') →
       Json.paymentsService.cancelPayment fs' (Payment.id payment)
       = (Failure "No se puede cancelar un pago en estado COMPLETED", fs')).
Proof.
  split.
  - intros fs paymentId. unfold Json.paymentsService.cancelPayment.
    destruct (Json.paymentsService.findIndex _ _) as [[i payment]|]; [|done].
    destruct (negb _); [done|]. destruct (_ && _); [done|].
    cbn [snd Json.orders Json.products]. by rewrite Json_updatePaymentStatus_CANCELLED.
  - intros fs orderId gateway approved now_ms now payment fs'
      (i & o & _ & _ & _ & _ & -> & Hid & _ & Hest & _)%Json_processPayment_Success_inv.
    pose proof (Json_getPaymentById_new (Json.payments fs) payment Hid)
      as [j Hj]%Json_getPaymentById_Success.
    unfold Json.paymentsService.cancelPayment. cbn [Json.payments]. rewrite Hj, Hest.
    done.
Qed.

Lemma cancelPayment_leaves_orders_witness :
  Json.paymentsService.processPayment ex_files_ordered 1001 "paypal" true ex_now_ms ex_now
  = (Success ex_payment, ex_files_paid)
  ∧ Json.paymentsService.cancelPayment ex_files_paid 2001
    = (Failure "No se puede cancelar un pago en estado COMPLETED", ex_files_paid).
Proof.
  assert (Json.paymentsService.processPayment ex_files_ordered 1001 "paypal" true ex_now_ms
            ex_now = (Success ex_payment, ex_files_paid)) as H
    by (vm_compute; reflexivity).
  split; [exact H|].
  exact (proj2 cancelPayment_leaves_orders _ _ _ _ _ _ _ _ H).
Defined.

(** X16.  A refunded order can be paid again.  After a successful refund
    of a payment whose order is in the orders file, the order's payment
    status is REFUNDED, not COMPLETED, so an approved [processPayment] for
    it goes through and appends a second payment for the same order, again
    of the order's total. *)
Theorem refunded_order_paid_again
    (fs : Json.Files) (paymentId : Z) (payment : Payment.t) (amount : option Z)
    (now_ms : Z) (o : Json.Order.t) (gateway : string) (now_ms2 : Z) (now2 : string) :
  Json.paymentsService.getPaymentById (Json.payments fs) paymentId = Success payment →
  Payment.estado payment = config.PAYMENT_STATUSES.COMPLETED →
  Json.paymentsService.refundAmount amount (Payment.monto payment) ≤ Payment.monto payment →
  includes config.PAYMENT_GATEWAYS (Payment.pasarela payment) = true →
  Json.ordersService.getOrderById (Json.orders fs) (Payment.pedido_id payment) = Success o →
  includes config.PAYMENT_GATEWAYS gateway = true →
  let fs1 := (Json.paymentsService.processRefund fs paymentId amount now_ms).2 in
  ∃ (payment2 : Payment.t) (fs2 : Json.Files),
    Json.paymentsService.processPayment fs1 (Payment.pedido_id payment) gateway true
      now_ms2 now2 = (Success payment2, fs2)
    ∧ Json.payments fs2 = (Json.payments fs1 ++ [payment2])%list
    ∧ Payment.pedido_id payment2 = Payment.pedido_id payment
    ∧ Payment.estado payment2 = config.PAYMENT_STATUSES.COMPLETED
    ∧ Payment.monto payment2 = Json.Order.total o
    ∧ length (Json.payments fs2) = S (length (Json.payments fs)).
Proof.
  intros Hget Hest Hamount Hgw Ho Hgw2 fs1.
  destruct (Json_processRefund_ok fs paymentId payment amount now_ms Hget Hest Hamount Hgw)
    as (refundId & i & Hf & Hrefund).
  unfold fs1. rewrite Hrefund. cbn [snd]. clear fs1.
  pose proof (Json_updatePaymentStatus_REFUNDED _ _ _ Ho) as Ho1.
  match goal with
  | |- context [Json.paymentsService.processPayment ?f _ _ _ _ _] => set (fs1 := f)
  end.
  assert (success (Json.paymentsService.processPayment fs1 (Payment.pedido_id payment)
                     gateway true now_ms2 now2).1 = true) as Hok.
  { eapply Json_processPayment_approved; [exact Ho1|discriminate|exact Hgw2]. }
  destruct (Json.paymentsService.processPayment fs1 _ gateway true now_ms2 now2)
    as [[payment2|m] fs2] eqn:Hpay; [|done].
  exists payment2, fs2. split; [done|].
  apply Json_processPayment_Success_inv in Hpay
    as (j & o' & Hj & _ & _ & _ & -> & _ & Hped & Hest2 & Hmonto & _).
  assert (o' = Json.Order.set_estadoPago config.PAYMENT_STATUSES.REFUNDED o) as ->.
  { unfold Json.ordersService.getOrderById in Ho1. cbn [Json.orders fs1] in Hj.
    rewrite Hj in Ho1. by injection Ho1. }
  cbn [Json.payments fs1]. split_and!; try done.
  by rewrite length_app, length_insert, Nat.add_1_r.
Qed.

Lemma refunded_order_paid_again_witness :
  let fs1 := (Json.paymentsService.processRefund ex_files_paid 2001 None ex_now_ms).2 in
  ∃ (payment2 : Payment.t) (fs2 : Json.Files),
    Json.paymentsService.processPayment fs1 1001 "stripe" true ex_now_ms ex_later
    = (Success payment2, fs2)
    ∧ Payment.pedido_id payment2 = 1001
    ∧ Payment.monto payment2 = 1500
    ∧ length (Json.payments fs2) = 2%nat.
Proof.
  destruct (refunded_order_paid_again ex_files_paid 2001 ex_payment None ex_now_ms
              (ex_completed_of "PROCESSING") "stripe" ex_now_ms ex_later)
    as (payment2 & fs2 & Hpay & _ & Hped & _ & Hm & Hlen);
    [reflexivity | reflexivity | vm_compute; discriminate | reflexivity | reflexivity
    | reflexivity |].
  exists payment2, fs2. split; [exact Hpay|]. split; [exact Hped|].
  split; [exact Hm|exact Hlen].
Defined.

(** ** Notifications *)

Lemma getNotificationById_insert (notifications : list Json.Notification.t)
    (notificationId : Z) (i : nat) (n n' : Json.Notification.t) :
  Json.notificationsService.findIndex notifications notificationId = Some (i, n) →
  Json.Notification.id n' = Json.Notification.id n →
  Json.notificationsService.getNotificationById (<[i := n']> notifications) notificationId
  = Success n'
  ∧ ∀ other, other ≠ notificationId →
      Json.notificationsService.getNotificationById (<[i := n']> notifications) other
      = Json.notificationsService.getNotificationById notifications other.
Proof.
  intros Hf Hk.
  unfold Json.notificationsService.getNotificationById,
    Json.notificationsService.findIndex in *.
  split.
  - by rewrite (keyed_insert_same Json.Notification.id _ _ _ _ _ Hf Hk).
  - intros other Hne.
    by rewrite (keyed_insert_other Json.Notification.id _ _ _ _ _ _ Hf Hk Hne).
Qed.

(** X17.  [createNotification] needs a client: with [cliente_id] missing,
    [null] or 0, or with an empty message or type, it fails and writes
    nothing, so a notification for all clients cannot be stored.
    Otherwise it succeeds: the notification gets an identifier that none
    has, is what [getNotificationById] returns for it, is marked sent only
    if the request says so and has a sending date exactly when it is
    marked sent; the notifications found before are found as before. *)
Theorem createNotification_lookup
    (notifications : list Json.Notification.t) (data : Json.NotificationData.t)
    (now : string) :
  (truthy_number (Json.NotificationData.cliente_id data) = false
   ∨ Json.NotificationData.mensaje data = ""
   ∨ Json.NotificationData.tipo data = "" →
   Json.notificationsService.createNotification notifications data now
   = (Failure "Datos incompletos. Se requiere cliente_id, mensaje y tipo", notifications))
  ∧ (∀ clientId : Z,
       Json.NotificationData.cliente_id data = Some clientId →
       clientId ≠ 0 →
       Json.NotificationData.mensaje data ≠ "" →
       Json.NotificationData.tipo data ≠ "" →
       ∃ (n : Json.Notification.t) (notifications' : list Json.Notification.t),
         Json.notificationsService.createNotification notifications data now
         = (Success n, notifications')
         ∧ (Json.Notification.id n ∉ Json.Notification.id <$> notifications)
         ∧ Json.Notification.cliente_id n = clientId
         ∧ Json.Notification.mensaje n = Json.NotificationData.mensaje data
         ∧ Json.Notification.enviada n
           = default false (Json.NotificationData.enviada data)
         ∧ Json.Notification.fecha_envio n
           = (if Json.Notification.enviada n then Some now else None)
         ∧ Json.notificationsService.getNotificationById notifications'
             (Json.Notification.id n) = Success n
         ∧ ∀ (notificationId : Z) (m : Json.Notification.t),
             Json.notificationsService.getNotificationById notifications notificationId
             = Success m →
             Json.notificationsService.getNotificationById notifications' notificationId
             = Success m).
Proof.
  split.
  - intros Hbad. unfold Json.notificationsService.createNotification.
    destruct Hbad as [-> | [-> | ->]]; cbn [negb orb]; [done| |].
    + rewrite (bool_decide_eq_true_2 ("" = "")) by done. by rewrite orb_true_r.
    + rewrite (bool_decide_eq_true_2 ("" = "")) by done. by rewrite !orb_true_r.
  - intros clientId Hc Hc0 Hm Ht. unfold Json.notificationsService.createNotification.
    rewrite Hc. cbn [truthy_number default].
    rewrite (bool_decide_eq_false_2 (clientId = 0)) by done.
    rewrite !bool_decide_eq_false_2 by done. cbn [negb orb].
    eexists _, _. split; [reflexivity|].
    cbn [Json.Notification.id Json.Notification.cliente_id Json.Notification.mensaje
         Json.Notification.enviada Json.Notification.fecha_envio].
    split; [apply next_id_fresh|]. split_and!; try done.
    + unfold Json.notificationsService.getNotificationById,
        Json.notificationsService.findIndex.
      match goal with
      | |- context [list_find _ (notifications ++ [?x])] =>
          pose proof (keyed_snoc_new Json.Notification.id notifications x
                        (next_id_fresh 3001 (Json.Notification.id <$> notifications)))
            as Hnew
      end.
      cbn [Json.Notification.id] in Hnew. by rewrite Hnew.
    + intros notificationId m.
      unfold Json.notificationsService.getNotificationById,
        Json.notificationsService.findIndex.
      destruct (list_find _ notifications) as [[i q]|] eqn:Hf; [|done].
      intros [= ->]. by rewrite (keyed_snoc_old Json.Notification.id _ _ _ _ _ Hf).
Qed.

Lemma createNotification_lookup_witness :
  Json.notificationsService.createNotification []
    (Json.NotificationData.mk None "Oferta" "promotion" None None) ex_now
  = (Failure "Datos incompletos. Se requiere cliente_id, mensaje y tipo", [])
  ∧ ∃ (n : Json.Notification.t) (notifications' : list Json.Notification.t),
      Json.notificationsService.createNotification []
        (Json.NotificationData.mk (Some 7) "Oferta" "promotion" None None) ex_now
      = (Success n, notifications')
      ∧ Json.Notification.id n = 3001
      ∧ Json.Notification.enviada n = false
      ∧ Json.Notification.fecha_envio n = None
      ∧ Json.notificationsService.getNotificationById notifications' 3001 = Success n.
Proof.
  destruct (createNotification_lookup []
              (Json.NotificationData.mk None "Oferta" "promotion" None None) ex_now)
    as [Hbad _].
  destruct (createNotification_lookup []
              (Json.NotificationData.mk (Some 7) "Oferta" "promotion" None None) ex_now)
    as [_ Hgood].
  split; [apply Hbad; left; reflexivity|].
  destruct (Hgood 7 eq_refl) as (n & ns & Hc & _ & _ & _ & Hs & Hd & Hget & _);
    [lia | discriminate | discriminate |].
  exists n, ns. injection Hc as <- <-. by split_and!.
Defined.

(** X18.  [markAsSent] on a notification of the file succeeds;
    [getNotificationById] then returns it marked sent, with the time of the
    call as sending date and message, client and type unchanged; the other
    notifications are found as before.  Marking a sent notification again
    only moves its sending date. *)
Theorem markAsSent_lookup
    (notifications : list Json.Notification.t) (notificationId : Z)
    (n : Json.Notification.t) (now : string) :
  Json.notificationsService.getNotificationById notifications notificationId = Success n →
  ∃ notifications' : list Json.Notification.t,
    Json.notificationsService.markAsSent notifications notificationId now
    = (Success (Json.Notification.set_sent now n), notifications')
    ∧ Json.notificationsService.getNotificationById notifications' notificationId
      = Success (Json.Notification.set_sent now n)
    ∧ Json.Notification.enviada (Json.Notification.set_sent now n) = true
    ∧ Json.Notification.fecha_envio (Json.Notification.set_sent now n) = Some now
    ∧ Json.Notification.mensaje (Json.Notification.set_sent now n)
      = Json.Notification.mensaje n
    ∧ (∀ other, other ≠ notificationId →
         Json.notificationsService.getNotificationById notifications' other
         = Json.notificationsService.getNotificationById notifications other)
    ∧ ∀ later : string,
        Json.notificationsService.markAsSent notifications' notificationId later
        = (Json.notificationsService.markAsSent notifications notificationId later).
Proof.
  unfold Json.notificationsService.getNotificationById.
  destruct (Json.notificationsService.findIndex notifications notificationId)
    as [[i m]|] eqn:Hf; [|done].
  intros [= ->]. unfold Json.notificationsService.markAsSent. rewrite Hf.
  eexists. split; [done|].
  destruct (getNotificationById_insert notifications notificationId i n
              (Json.Notification.set_sent now n) Hf) as [Hsame Hother]; [done|].
  unfold Json.notificationsService.getNotificationById in Hsame.
  split_and!; try done.
  intros later.
  destruct (Json.notificationsService.findIndex (<[i := _]> notifications) notificationId)
    as [[j m]|] eqn:Hj; [|done].
  injection Hsame as ->.
  unfold Json.notificationsService.findIndex in *.
  rewrite (keyed_insert_same Json.Notification.id _ _ _ _
             (Json.Notification.set_sent now n) Hf eq_refl) in Hj.
  injection Hj as <-. by rewrite list_insert_insert_eq.
Qed.

Lemma markAsSent_lookup_witness :
  ∃ notifications' : list Json.Notification.t,
    Json.notificationsService.markAsSent
      [Json.Notification.mk 3001 7 "Oferta" "promotion" ex_now false None] 3001 ex_later
    = (Success (Json.Notification.mk 3001 7 "Oferta" "promotion" ex_now true
                  (Some ex_later)), notifications')
    ∧ Json.notificationsService.getNotificationById notifications' 3001
      = Success (Json.Notification.mk 3001 7 "Oferta" "promotion" ex_now true
                   (Some ex_later)).
Proof.
  destruct (markAsSent_lookup
              [Json.Notification.mk 3001 7 "Oferta" "promotion" ex_now false None] 3001
              (Json.Notification.mk 3001 7 "Oferta" "promotion" ex_now false None)
              ex_later eq_refl)
    as (ns & Hmark & Hget & _).
  exists ns. split; [exact Hmark|exact Hget].
Defined.


(** ** Identifiers *)









(** ** The payments table of the payments service *)

Lemma filter_insert_le {A} (P : A → Prop) `{!∀ x, Decision (P x)} (l : list A)
    (i : nat) (y : A) :
  ¬ P y → (length (filter P (<[i := y]> l)) ≤ length (filter P l))%nat.
Proof.
  intros Hy. revert i. induction l as [|x l IH]; intros [|i]; cbn [insert list_insert];
    try done.
  - rewrite (filter_cons_False _ y) by done. rewrite filter_cons.
    destruct (decide (P x)); cbn [length]; [apply Nat.le_succ_diag_r|apply Nat.le_refl].
  - rewrite !filter_cons. specialize (IH i).
    destruct (decide (P x)); cbn [length]; [apply le_n_S|]; exact IH.
Qed.

Lemma filter_none {A} (P : A → Prop) `{!∀ x, Decision (P x)} (l : list A) :
  list_find P l = None → filter P l = [].
Proof.
  intros Hnone%list_find_None. induction Hnone as [|x l Hx _ IH]; [done|].
  by rewrite filter_cons_False.
Qed.

Lemma Sqlite_Payment_save_found (pdb : Sqlite.PaymentsDatabase) (pk : Z) (i : nat)
    (p p' : Payment.t) :
  Sqlite.Payment_findByPk pdb pk = Some (i, p) →
  Payment.id p' = Payment.id p →
  Sqlite.Payment_save pdb p'
  = Sqlite.mkPaymentsDatabase (<[i := p']> (Sqlite.payments pdb)) (Sqlite.payments_seq pdb).
Proof.
  intros Hf Hid. unfold Sqlite.Payment_save. rewrite Hid.
  pose proof (list_find_holds _ _ _ _ Hf) as Hpk. cbn beta in Hpk. rewrite Hpk.
  by rewrite Hf.
Qed.

Lemma Sqlite_payments_ok_insert (pdb : Sqlite.PaymentsDatabase) (i : nat)
    (p p' : Payment.t) :
  Sqlite.payments pdb !! i = Some p →
  Payment.id p' = Payment.id p →
  Payment.estado p' ≠ config.PAYMENT_STATUSES.PENDING →
  Payment.estado p' ≠ config.PAYMENT_STATUSES.COMPLETED →
  Sqlite_payments_ok pdb →
  Sqlite_payments_ok
    (Sqlite.mkPaymentsDatabase (<[i := p']> (Sqlite.payments pdb)) (Sqlite.payments_seq pdb)).
Proof.
  intros Hi Hid Hpending Hcompleted (Hnp & Hone & Hkeys & Hnodup).
  unfold Sqlite_payments_ok, Sqlite_completed_payments.
  cbn [Sqlite.payments Sqlite.payments_seq]. split_and!.
  - by apply Forall_insert.
  - intros orderId. etrans; [|apply (Hone orderId)].
    apply filter_insert_le. by intros [_ ?].
  - apply Forall_insert; [done|]. rewrite Hid.
    exact (Forall_lookup_1 _ _ _ _ Hkeys Hi).
  - by eapply unique_ids_insert.
Qed.

Lemma Sqlite_payments_ok_create (pdb : Sqlite.PaymentsDatabase) (orderId : Z)
    (p : Payment.t) :
  Sqlite.Payment_findOne pdb orderId config.PAYMENT_STATUSES.COMPLETED = None →
  Payment.id p = Sqlite.payments_seq pdb + 1 →
  Payment.pedido_id p = orderId →
  Payment.estado p = config.PAYMENT_STATUSES.COMPLETED →
  Sqlite_payments_ok pdb →
  Sqlite_payments_ok
    (Sqlite.mkPaymentsDatabase (Sqlite.payments pdb ++ [p]) (Sqlite.payments_seq pdb + 1)).
Proof.
  intros Hnone Hid Hped Hest (Hnp & Hone & Hkeys & Hnodup).
  unfold Sqlite_payments_ok, Sqlite_completed_payments.
  cbn [Sqlite.payments Sqlite.payments_seq]. split_and!.
  - apply Forall_app. split; [done|]. constructor; [|done]. by rewrite Hest.
  - intros other. rewrite filter_app, length_app.
    destruct (decide (other = orderId)) as [->|Hne].
    + unfold Sqlite.Payment_findOne in Hnone.
      destruct (list_find _ (Sqlite.payments pdb)) as [[j q]|] eqn:Hfind; [done|].
      rewrite (filter_none _ _ Hfind). cbn [length].
      etrans; [apply Nat.add_le_mono_l, length_filter|]. done.
    + rewrite (filter_cons_False _ p) by (intros [? _]; congruence).
      rewrite filter_nil. cbn [length]. rewrite Nat.add_0_r. apply Hone.
  - apply Forall_app. split.
    + eapply Forall_impl; [exact Hkeys|]. intros q Hq. cbn beta in *. lia.
    + constructor; [lia|done].
  - apply unique_ids_snoc; [|done]. rewrite Hid. intros Hin.
    apply list_elem_of_fmap in Hin as (q & Hq & Hin).
    rewrite Forall_forall in Hkeys. specialize (Hkeys _ Hin). cbn beta in Hkeys. lia.
Qed.

(** X20.  What the payments service keeps true of its table.  If no payment
    of the table is PENDING, no order has two COMPLETED payments, and the
    keys are distinct and within the counter, then the same holds after any
    call of [processPayment], [cancelPayment] or [processRefund], whatever
    the arguments, the answer of the orders service and the answer of the
    gateway are. *)
Theorem Sqlite_payments_table_invariant (pdb : Sqlite.PaymentsDatabase) :
  Sqlite_payments_ok pdb →
  (∀ orderId gateway orderResult approved now_ms now,
     Sqlite_payments_ok
       (Sqlite.paymentsService.processPayment pdb orderId gateway orderResult approved
          now_ms now).1.2)
  ∧ (∀ paymentId, Sqlite_payments_ok (Sqlite.paymentsService.cancelPayment pdb paymentId).1.2)
  ∧ (∀ paymentId amount now_ms,
       Sqlite_payments_ok
         (Sqlite.paymentsService.processRefund pdb paymentId amount now_ms).1.2).
Proof.
  intros Hok. split_and!.
  - intros orderId gateway orderResult approved now_ms now.
    unfold Sqlite.paymentsService.processPayment.
    destruct (negb _); [done|].
    destruct (Sqlite.Payment_findOne pdb orderId _) as [paid|] eqn:Hnone; [done|].
    destruct (PaymentProcessorFactory.createPaymentProcessor gateway) as [pp|]; [|done].
    destruct orderResult as [loaded|]; [|done].
    destruct (processPayment pp loaded approved now_ms) as [[t m]|]; [|done].
    cbn [Sqlite.Payment_create fst snd].
    by apply (Sqlite_payments_ok_create pdb orderId).
  - intros paymentId. unfold Sqlite.paymentsService.cancelPayment.
    destruct (Sqlite.Payment_findByPk pdb paymentId) as [[i p]|] eqn:Hf; [|done].
    destruct (negb _); [done|]. destruct (_ && _); [done|]. cbn [fst snd].
    rewrite (Sqlite_Payment_save_found pdb paymentId i p) by done.
    apply (Sqlite_payments_ok_insert pdb i p); try done.
    by eapply list_find_lookup.
  - intros paymentId amount now_ms. unfold Sqlite.paymentsService.processRefund.
    destruct (Sqlite.Payment_findByPk pdb paymentId) as [[i p]|] eqn:Hf; [|done].
    destruct (negb _); [done|]. case_bool_decide; [done|].
    destruct (PaymentProcessorFactory.createRefundManager _) as [rm|]; [|done].
    destruct (processRefund rm _ _ _) as [[r m]|]; [|done]. cbn [fst snd].
    rewrite (Sqlite_Payment_save_found pdb paymentId i p) by done.
    apply (Sqlite_payments_ok_insert pdb i p); try done.
    by eapply list_find_lookup.
Qed.

Lemma Sqlite_payments_table_invariant_witness :
  Sqlite_payments_ok (Sqlite.mkPaymentsDatabase [] 0)
  ∧ Sqlite_payments_ok
      (Sqlite.paymentsService.processPayment (Sqlite.mkPaymentsDatabase [] 0) 1001 "paypal"
         (Success ex_loaded_completed) true ex_now_ms ex_later).1.2.
Proof.
  assert (Sqlite_payments_ok (Sqlite.mkPaymentsDatabase [] 0)) as H.
  { unfold Sqlite_payments_ok, Sqlite_completed_payments, unique_ids.
    cbn [Sqlite.payments Sqlite.payments_seq]. split_and!; [constructor| |constructor|].
    - intros orderId. rewrite filter_nil. cbn [length]. lia.
    - rewrite fmap_nil. constructor. }
  split; [exact H|].
  destruct (Sqlite_payments_table_invariant _ H) as (Hpay & _ & _). apply Hpay.
Defined.

(** X21.  The outcomes of [processPayment] in the payments service.  It
    succeeds exactly when the gateway is a configured one, the table holds
    no COMPLETED payment of the order, the orders service returned the
    order and the gateway approved the charge.  A failure leaves the table
    as it was and sends nothing to the orders service.  A success adds one
    row, under the next key, for that order, COMPLETED, of the total of the
    order as the orders service returned it, and sends one status update,
    COMPLETED, for that order.  The payment status that the order itself
    carries is not looked at. *)
Theorem Sqlite_processPayment_outcomes
    (pdb : Sqlite.PaymentsDatabase) (orderId : Z) (gateway : string)
    (orderResult : Result Sqlite.OrderWithProducts) (approved : bool) (now_ms : Z)
    (now : string) :
  let r :=
    Sqlite.paymentsService.processPayment pdb orderId gateway orderResult approved
      now_ms now in
  (success r.1.1 = true
   ↔ includes config.PAYMENT_GATEWAYS gateway = true
     ∧ Sqlite.Payment_findOne pdb orderId config.PAYMENT_STATUSES.COMPLETED = None
     ∧ success orderResult = true
     ∧ approved = true)
  ∧ (success r.1.1 = false → r.1.2 = pdb ∧ r.2 = [])
  ∧ (∀ payment : Payment.t,
       r.1.1 = Success payment →
       r.1.2 = Sqlite.mkPaymentsDatabase (Sqlite.payments pdb ++ [payment])
                 (Sqlite.payments_seq pdb + 1)
       ∧ r.2 = [Sqlite.mkPatch orderId config.PAYMENT_STATUSES.COMPLETED]
       ∧ Payment.id payment = Sqlite.payments_seq pdb + 1
       ∧ Payment.pedido_id payment = orderId
       ∧ Payment.estado payment = config.PAYMENT_STATUSES.COMPLETED
       ∧ Payment.pasarela payment = gateway
       ∧ Payment.fecha payment = now
       ∧ ∃ loaded : Sqlite.OrderWithProducts,
           orderResult = Success loaded
           ∧ Payment.monto payment = Sqlite.Order.total (Sqlite.order loaded)).
Proof.
  unfold Sqlite.paymentsService.processPayment.
  destruct (includes config.PAYMENT_GATEWAYS gateway) eqn:Hgw; cbn [negb];
    [|cbn; split_and!; [split; [done|by intros []]|done|done]].
  destruct (Sqlite.Payment_findOne pdb orderId _) as [paid|] eqn:Hnone;
    [cbn; split_and!; [split; [done|by intros (_ & ? & _)]|done|done]|].
  destruct (includes_PAYMENT_GATEWAYS _ Hgw) as [-> | ->];
    (destruct orderResult as [loaded|m];
      [|cbn; split_and!; [split; [done|by intros (_ & _ & ? & _)]|done|done]]);
    (destruct approved;
      [|cbn; split_and!; [split; [done|by intros (_ & _ & _ & ?)]|done|done]]);
    cbn; (split_and!; [done|done|]); intros payment [= <-]; split_and!; try done;
    by exists loaded.
Qed.

(** X22.  [cancelPayment] of the payments service settles nothing.  On a
    table without a PENDING payment, which is every table the service
    itself has written, it fails for every key, writes nothing and sends
    nothing.  And whenever it does send a status update to the orders
    service, the status is "CANCELLED", which is no payment status:
    [updatePaymentStatus] of the orders service refuses it for every
    database and leaves that database as it was. *)
Theorem Sqlite_cancelPayment_settles_nothing :
  (∀ (pdb : Sqlite.PaymentsDatabase) (paymentId : Z),
     Forall (λ p, Payment.estado p ≠ config.PAYMENT_STATUSES.PENDING)
       (Sqlite.payments pdb) →
     ∃ message : string,
       Sqlite.paymentsService.cancelPayment pdb paymentId = (Failure message, pdb, []))
  ∧ (∀ (pdb : Sqlite.PaymentsDatabase) (paymentId : Z) (patch : Sqlite.PaymentStatusPatch)
       (db : Sqlite.Database),
       patch ∈ (Sqlite.paymentsService.cancelPayment pdb paymentId).2 →
       Sqlite.patch_paymentStatus patch = "CANCELLED"
       ∧ ∃ message : string,
           Sqlite.ordersService.updatePaymentStatus db (Sqlite.patch_orderId patch)
             (Sqlite.patch_paymentStatus patch) = (Failure message, db)).
Proof.
  split.
  - intros pdb paymentId Hnp. unfold Sqlite.paymentsService.cancelPayment.
    destruct (Sqlite.Payment_findByPk pdb paymentId) as [[i p]|] eqn:Hf; [|by eexists].
    pose proof (Forall_lookup_1 _ _ _ _ Hnp (list_find_lookup _ _ _ _ Hf)) as Hp.
    cbn beta in Hp. rewrite bool_decide_eq_false_2 by done. by eexists.
  - intros pdb paymentId patch db. unfold Sqlite.paymentsService.cancelPayment.
    destruct (Sqlite.Payment_findByPk pdb paymentId) as [[i p]|];
      [|by intros ?%elem_of_nil].
    destruct (negb _); [by intros ?%elem_of_nil|].
    destruct (_ && _); [by intros ?%elem_of_nil|].
    cbn [snd]. intros ->%list_elem_of_singleton.
    cbn [Sqlite.patch_paymentStatus Sqlite.patch_orderId]. split; [done|].
    unfold Sqlite.ordersService.updatePaymentStatus.
    destruct (Sqlite.Order_findByPk db (Payment.pedido_id p)) as [[j o]|]; by eexists.
Qed.

Lemma Sqlite_cancelPayment_settles_nothing_witness :
  (∃ message : string,
     Sqlite.paymentsService.cancelPayment
       (Sqlite.mkPaymentsDatabase [ex_payment] 2001) 2001
     = (Failure message, Sqlite.mkPaymentsDatabase [ex_payment] 2001, []))
  ∧ ∃ message : string,
      Sqlite.ordersService.updatePaymentStatus (Sqlite.db (ex_world_with "PENDING")) 1001
        "CANCELLED"
      = (Failure message, Sqlite.db (ex_world_with "PENDING")).
Proof.
  destruct Sqlite_cancelPayment_settles_nothing as [Hfail Hpatch].
  split.
  - apply Hfail. cbn [Sqlite.payments]. repeat constructor. vm_compute. discriminate.
  - destruct (Hpatch
                (Sqlite.mkPaymentsDatabase
                   [Payment.mk 1 1001 None "" "PENDING" 1500 "paypal" ex_now] 1)
                1 (Sqlite.mkPatch 1001 "CANCELLED") (Sqlite.db (ex_world_with "PENDING")))
      as [_ H]; [vm_compute; left|exact H].
Defined.

Lemma Sqlite_processPayment_outcomes_witness :
  success
    (Sqlite.paymentsService.processPayment (Sqlite.mkPaymentsDatabase [] 0) 1001 "paypal"
       (Success ex_loaded_completed) true ex_now_ms ex_later).1.1 = true
  ∧ (Sqlite.paymentsService.processPayment (Sqlite.mkPaymentsDatabase [] 0) 1001 "paypal"
       (Success ex_loaded_completed) false ex_now_ms ex_later).1.2
    = Sqlite.mkPaymentsDatabase [] 0.
Proof.
  split.
  - apply (proj1 (Sqlite_processPayment_outcomes (Sqlite.mkPaymentsDatabase [] 0) 1001
                    "paypal" (Success ex_loaded_completed) true ex_now_ms ex_later)).
    split_and!; reflexivity.
  - apply (proj1 (proj2 (Sqlite_processPayment_outcomes (Sqlite.mkPaymentsDatabase [] 0)
                           1001 "paypal" (Success ex_loaded_completed) false ex_now_ms
                           ex_later))).
    reflexivity.
Defined.

(** ** Orders of the orders service *)












(** ** The routes of the monolith *)

(** X24.  The order routes let a client act on the client's own orders
    only.  For an order of the file that belongs to someone else, a user
    who is not an admin gets 403 from GET and from DELETE, and DELETE
    leaves the files as they were.  The owner and the admin get the order
    from GET with 200, and from DELETE what [cancelOrder] answers: 200 when
    it succeeds, 400 when it fails.  POST ignores the [cliente_id] of the
    body: it answers 201 or 400, and an order it creates belongs to the
    user of the token and is what [getOrderById] then returns. *)
Theorem ordersRoutes_owner_only (fs : Json.Files) (user : User.t) :
  (∀ (orderId : Z) (order : Json.Order.t),
     Json.ordersService.getOrderById (Json.orders fs) orderId = Success order →
     User.role user ≠ "admin" →
     Json.Order.cliente_id order ≠ User.id user →
     Json.ordersRoutes.get_id (Json.orders fs) user (Some orderId)
     = (403, Failure "No tienes permiso para ver esta orden")
     ∧ Json.ordersRoutes.delete_id fs user (Some orderId)
       = (403, Failure "No tienes permiso para cancelar esta orden", fs))
  ∧ (∀ (orderId : Z) (order : Json.Order.t),
       Json.ordersService.getOrderById (Json.orders fs) orderId = Success order →
       User.role user = "admin" ∨ Json.Order.cliente_id order = User.id user →
       Json.ordersRoutes.get_id (Json.orders fs) user (Some orderId) = (200, Success order)
       ∧ Json.ordersRoutes.delete_id fs user (Some orderId)
         = (if success (Json.ordersService.cancelOrder fs orderId).1 then 200 else 400,
            (Json.ordersService.cancelOrder fs orderId).1,
            (Json.ordersService.cancelOrder fs orderId).2))
  ∧ (∀ (body : OrderData.t) (now : string) (clientId : Z),
       Json.ordersRoutes.post fs user
         (OrderData.mk clientId (OrderData.productos body) (OrderData.metodoPago body)
            (OrderData.direccion body) (OrderData.telefono body)) now
       = Json.ordersRoutes.post fs user body now)
  ∧ (∀ (body : OrderData.t) (now : string),
       match Json.ordersRoutes.post fs user body now with
       | (status, Success order, fs') =>
           status = 201
           ∧ Json.Order.cliente_id order = User.id user
           ∧ Json.ordersService.getOrderById (Json.orders fs')
               (Json.Order.numeroPedido order) = Success order
       | (status, Failure _, fs') => status = 400 ∧ Json.orders fs' = Json.orders fs
       end).
Proof.
  split_and!.
  - intros orderId order Hget Hrole Howner.
    unfold Json.ordersRoutes.get_id, Json.ordersRoutes.delete_id.
    cbn [from_option]. rewrite Hget.
    by rewrite !bool_decide_eq_false_2 by done.
  - intros orderId order Hget Hmay.
    unfold Json.ordersRoutes.get_id, Json.ordersRoutes.delete_id.
    cbn [from_option]. rewrite Hget.
    assert (negb (bool_decide (User.role user = "admin"))
            && negb (bool_decide (Json.Order.cliente_id order = User.id user)) = false)
      as ->.
    { destruct Hmay as [H|H]; rewrite (bool_decide_eq_true_2 _ H); [done|].
      by rewrite andb_false_r. }
    split; [done|].
    by destruct (Json.ordersService.cancelOrder fs orderId) as [[o|m] fs'].
  - done.
  - intros body now. unfold Json.ordersRoutes.post, Json.ordersService.createOrder.
    cbn [OrderData.productos OrderData.cliente_id].
    destruct (Json.ordersService.createOrder_items _ _ _ _) as [[[productos total]|m] ps];
      [|done].
    cbn [Json.orders Json.Order.cliente_id Json.Order.numeroPedido].
    split_and!; try done.
    match goal with
    | |- Json.ordersService.getOrderById (_ ++ [?o]) _ = _ =>
        exact (Json_getOrderById_new (Json.orders fs) o eq_refl)
    end.
Qed.

Lemma ordersRoutes_owner_only_witness :
  Json.ordersRoutes.delete_id ex_files_ordered (User.mk 8 "client") (Some 1001)
  = (403, Failure "No tienes permiso para cancelar esta orden", ex_files_ordered)
  ∧ Json.ordersRoutes.get_id (Json.orders ex_files_ordered) (User.mk 7 "client") (Some 1001)
    = (200, Success ex_order).
Proof.
  destruct (ordersRoutes_owner_only ex_files_ordered (User.mk 8 "client"))
    as (Hdenied & _).
  destruct (ordersRoutes_owner_only ex_files_ordered (User.mk 7 "client"))
    as (_ & Hallowed & _).
  split.
  - apply (Hdenied 1001 ex_order); [reflexivity|discriminate|discriminate].
  - apply (Hallowed 1001 ex_order); [reflexivity|right; reflexivity].
Defined.

(** X25.  The payment routes.  POST /process answers 400 when the order
    number is missing or 0 or the gateway is missing or empty, 404 when the
    order is not in the file, 403 when it belongs to someone else and the
    user is not an admin; in all these cases, and whenever it answers
    anything but 200, the files are left as they were.  DELETE answers 403
    for the payment of someone else's order, and 500 when the order of the
    payment is not in the orders file and the user is not an admin; the
    files are then left as they were too. *)
Theorem paymentsRoutes_owner_only (fs : Json.Files) (user : User.t) :
  (∀ (orderId : option Z) (gateway : option string) approved now_ms now,
     let r := Json.paymentsRoutes.post_process fs user orderId gateway approved now_ms now in
     (truthy_number orderId = false ∨ truthy_string gateway = false →
      r = (400, Failure "El ID de la orden y la pasarela de pago son requeridos", fs))
     ∧ (r.1.1 ≠ 200 → success r.1.2 = false ∧ r.2 = fs)
     ∧ (r.1.1 = 200 → success r.1.2 = true))
  ∧ (∀ (orderId : Z) (order : Json.Order.t) (gateway : string) approved now_ms now,
       orderId ≠ 0 → gateway ≠ "" →
       Json.ordersService.getOrderById (Json.orders fs) orderId = Success order →
       User.role user ≠ "admin" →
       Json.Order.cliente_id order ≠ User.id user →
       Json.paymentsRoutes.post_process fs user (Some orderId) (Some gateway) approved
         now_ms now
       = (403, Failure "No tienes permiso para pagar esta orden", fs))
  ∧ (∀ (orderId : Z) (gateway : string) approved now_ms now,
       orderId ≠ 0 → gateway ≠ "" →
       Json.ordersService.getOrderById (Json.orders fs) orderId
       = Failure "Orden no encontrada" →
       Json.paymentsRoutes.post_process fs user (Some orderId) (Some gateway) approved
         now_ms now
       = (404, Failure "Orden no encontrada", fs))
  ∧ (∀ (paymentId : Z) (payment : Payment.t),
       Json.paymentsService.getPaymentById (Json.payments fs) paymentId = Success payment →
       User.role user ≠ "admin" →
       Json.paymentsRoutes.delete_id fs user (Some paymentId)
       = match Json.ordersService.getOrderById (Json.orders fs)
                 (Payment.pedido_id payment) with
         | Failure _ => (500, Failure "Error interno del servidor", fs)
         | Success order =>
             if bool_decide (Json.Order.cliente_id order = User.id user)
             then (if success (Json.paymentsService.cancelPayment fs paymentId).1
                   then 200 else 400,
                   (Json.paymentsService.cancelPayment fs paymentId).1,
                   (Json.paymentsService.cancelPayment fs paymentId).2)
             else (403, Failure "No tienes permiso para cancelar este pago", fs)
         end).
Proof.
  split_and!.
  - intros orderId gateway approved now_ms now r. subst r.
    unfold Json.paymentsRoutes.post_process. split_and!.
    + intros Hmissing. destruct orderId as [n|], gateway as [g|]; try done.
      by destruct Hmissing as [-> | ->]; [|rewrite orb_true_r].
    + destruct orderId as [n|], gateway as [g|]; try done.
      destruct (negb _ || negb _); [done|].
      destruct (Json.ordersService.getOrderById _ _) as [order|]; [|done].
      destruct (negb _ && negb _); [done|].
      destruct (Json.paymentsService.processPayment fs n g approved now_ms now)
        as [[payment|m] fs'] eqn:Hpay; [done|].
      intros _. split; [done|]. cbn [snd].
      unfold Json.paymentsService.processPayment in Hpay.
      destruct (negb (includes _ g)); [by injection Hpay|].
      destruct (Json.ordersService.getOrderById _ _) as [o|]; [|by injection Hpay].
      destruct (bool_decide _); [by injection Hpay|].
      destruct (PaymentProcessorFactory.createPaymentProcessor g) as [pp|];
        [|by injection Hpay].
      destruct (processPayment pp o approved now_ms) as [[t msg]|]; [done|].
      by injection Hpay.
    + destruct orderId as [n|], gateway as [g|]; try done.
      destruct (negb _ || negb _); [done|].
      destruct (Json.ordersService.getOrderById _ _) as [order|]; [|done].
      destruct (negb _ && negb _); [done|].
      by destruct (Json.paymentsService.processPayment fs n g approved now_ms now)
        as [[payment|m] fs'].
  - intros orderId order gateway approved now_ms now Hid Hgw Hget Hrole Howner.
    unfold Json.paymentsRoutes.post_process. cbn [truthy_number truthy_string].
    rewrite !bool_decide_eq_false_2 by done. cbn [negb orb]. rewrite Hget.
    by rewrite !bool_decide_eq_false_2 by done.
  - intros orderId gateway approved now_ms now Hid Hgw Hget.
    unfold Json.paymentsRoutes.post_process. cbn [truthy_number truthy_string].
    rewrite !bool_decide_eq_false_2 by done. cbn [negb orb]. by rewrite Hget.
  - intros paymentId payment Hget Hrole.
    unfold Json.paymentsRoutes.delete_id. cbn [from_option].
    rewrite Hget. rewrite (bool_decide_eq_false_2 (User.role user = "admin")) by done.
    apply Json_getPaymentById_Success in Hget as [i Hf].
    pose proof (list_find_holds _ _ _ _ Hf) as Hid. cbn beta in Hid. rewrite Hid.
    destruct (Json.ordersService.getOrderById _ _) as [order|]; [|done].
    destruct (bool_decide (Json.Order.cliente_id order = User.id user)); [|done].
    cbn [negb]. by destruct (Json.paymentsService.cancelPayment fs paymentId) as [[q|m] fs'].
Qed.

Lemma paymentsRoutes_owner_only_witness :
  Json.paymentsRoutes.post_process ex_files_ordered (User.mk 8 "client") (Some 1001)
    (Some "paypal") true ex_now_ms ex_later
  = (403, Failure "No tienes permiso para pagar esta orden", ex_files_ordered)
  ∧ Json.paymentsRoutes.post_process ex_files_ordered (User.mk 7 "client") (Some 0)
      (Some "paypal") true ex_now_ms ex_later
    = (400, Failure "El ID de la orden y la pasarela de pago son requeridos",
       ex_files_ordered).
Proof.
  destruct (paymentsRoutes_owner_only ex_files_ordered (User.mk 8 "client"))
    as (_ & Hdenied & _).
  destruct (paymentsRoutes_owner_only ex_files_ordered (User.mk 7 "client"))
    as (Hmissing & _).
  split.
  - apply (Hdenied 1001 ex_order); [lia|discriminate|reflexivity|discriminate|discriminate].
  - apply (Hmissing (Some 0) (Some "paypal") true ex_now_ms ex_later). left. reflexivity.
Defined.

(** ** Updating a product *)

(** X27.  [updateProduct] fails with "Producto no encontrado" and writes
    nothing for an identifier that is not in the file.  For a product of
    the file and a body that does not change the identifier it succeeds:
    [getProductById] then returns the product with exactly the fields of
    the body replaced, the other products are found as before, and the
    file keeps its length.  A body that carries another identifier is
    written as it is: when the identifiers of the file are unique, the
    product is then no longer found under its old identifier. *)
Theorem updateProduct_lookup (products : list Product.t) (productId : Z)
    (productData : ProductData.t) :
  (productsService.getProductById products productId = Failure "Producto no encontrado" →
   productsService.updateProduct products productId productData
   = (Failure "Producto no encontrado", products))
  ∧ (∀ p : Product.t,
       productsService.getProductById products productId = Success p →
       ∃ (i : nat) (products' : list Product.t),
         productsService.updateProduct products productId productData
         = (Success (productsService.spread p productData), products')
         ∧ products' !! i = Some (productsService.spread p productData)
         ∧ length products' = length products
         ∧ (ProductData.id productData = None ∨ ProductData.id productData = Some productId →
            productsService.getProductById products' productId
            = Success (productsService.spread p productData)
            ∧ ∀ other, other ≠ productId →
                productsService.getProductById products' other
                = productsService.getProductById products other)
         ∧ (∀ newId, ProductData.id productData = Some newId → newId ≠ productId →
            unique_ids Product.id products →
            productsService.getProductById products' productId
            = Failure "Producto no encontrado")).
Proof.
  split.
  - unfold productsService.getProductById, productsService.updateProduct.
    by destruct (productsService.findIndex products productId) as [[i p]|].
  - intros p [i Hf]%getProductById_Success.
    pose proof (list_find_lookup _ _ _ _ Hf) as Hi.
    pose proof (list_find_holds _ _ _ _ Hf) as Hid. cbn beta in Hid.
    unfold productsService.updateProduct. rewrite Hf.
    exists i. eexists. split; [done|].
    split; [apply list_lookup_insert_eq; by eapply lookup_lt_Some|].
    split; [apply length_insert|]. split.
    + intros Hsame.
      assert (Product.id (productsService.spread p productData) = Product.id p) as Hkey.
      { cbn [productsService.spread Product.id].
        destruct Hsame as [-> | ->]; simpl; congruence. }
      unfold productsService.getProductById, productsService.findIndex in *. split.
      * by rewrite (keyed_insert_same Product.id _ _ _ _ _ Hf Hkey).
      * intros other Hne.
        by rewrite (keyed_insert_other Product.id _ _ _ _ _ _ Hf Hkey Hne).
    + intros newId HnewId Hne Huniq.
      unfold productsService.getProductById, productsService.findIndex.
      destruct (list_find _ (<[i := _]> products)) as [[j q]|] eqn:Hj; [|done].
      exfalso.
      pose proof (list_find_lookup _ _ _ _ Hj) as Hjq.
      pose proof (list_find_holds _ _ _ _ Hj) as Hq. cbn beta in Hq.
      apply list_lookup_insert_Some in Hjq as [(-> & <- & _)|(Hji & Hjq)].
      * cbn [productsService.spread Product.id] in Hq. rewrite HnewId in Hq.
        simpl in Hq. done.
      * apply Hji. symmetry. eapply (NoDup_lookup _ _ _ _ Huniq).
        -- by rewrite list_lookup_fmap, Hjq.
        -- rewrite list_lookup_fmap, Hi. simpl. congruence.
Qed.

Lemma updateProduct_lookup_witness :
  productsService.updateProduct ex_products 9
    (ProductData.mk None None None (Some 999) None None None None None)
  = (Failure "Producto no encontrado", ex_products)
  ∧ ∃ (i : nat) (products' : list Product.t),
      productsService.updateProduct ex_products 1
        (ProductData.mk None None None (Some 999) None None None None None)
      = (Success (Product.mk 1 "A" "" 999 "" 10 "" 300 true), products')
      ∧ productsService.getProductById products' 1
        = Success (Product.mk 1 "A" "" 999 "" 10 "" 300 true).
Proof.
  split.
  - apply (proj1 (updateProduct_lookup ex_products 9
                    (ProductData.mk None None None (Some 999) None None None None None))).
    reflexivity.
  - destruct (proj2 (updateProduct_lookup ex_products 1
                       (ProductData.mk None None None (Some 999) None None None None None))
                ex_A eq_refl)
      as (i & products' & Hupdate & _ & _ & Hsame & _).
    exists i, products'. split; [exact Hupdate|].
    destruct Hsame as [Hget _]; [left; reflexivity|exact Hget].
Defined.

(** ** Refunds in the payments service *)

Lemma filter_insert_drop {A} (P : A → Prop) `{!∀ x, Decision (P x)} (l : list A)
    (i : nat) (x y : A) :
  l !! i = Some x → P x → ¬ P y →
  S (length (filter P (<[i := y]> l))) = length (filter P l).
Proof.
  intros Hi Hx Hy. revert i Hi.
  induction l as [|z l IH]; intros [|i] Hi; cbn [insert list_insert]; try done.
  - injection Hi as ->.
    by rewrite (filter_cons_False _ y), (filter_cons_True _ x) by done.
  - cbn [lookup list_lookup] in Hi. specialize (IH i Hi). rewrite !filter_cons.
    destruct (decide (P z)); cbn [length]; [f_equal|]; exact IH.
Qed.

Lemma filter_nil_list_find {A} (P : A → Prop) `{!∀ x, Decision (P x)} (l : list A) :
  filter P l = [] → list_find P l = None.
Proof.
  intros Hnil. apply list_find_None, Forall_forall. intros x Hin Hx.
  by apply (filter_nil_not_elem_of P l x).
Qed.

Lemma Sqlite_processPayment_approved
    (pdb : Sqlite.PaymentsDatabase) (orderId : Z) (gateway : string)
    (loaded : Sqlite.OrderWithProducts) (now_ms : Z) (now : string) :
  includes config.PAYMENT_GATEWAYS gateway = true →
  Sqlite.Payment_findOne pdb orderId config.PAYMENT_STATUSES.COMPLETED = None →
  success
    (Sqlite.paymentsService.processPayment pdb orderId gateway (Success loaded) true
       now_ms now).1.1 = true.
Proof.
  intros Hgw Hnone. unfold Sqlite.paymentsService.processPayment.
  rewrite Hgw, Hnone. cbn [negb].
  by destruct (includes_PAYMENT_GATEWAYS _ Hgw) as [-> | ->].
Qed.

(** X28.  A refund in the payments service, and what follows from it.  On
    a table as the service keeps it, the refund of a COMPLETED payment
    through a known gateway, of an amount that is not above the payment's,
    succeeds: the row is stored as REFUNDED with its amount unchanged, and
    one status update, REFUNDED, is sent for the order of the payment.  The
    orders service accepts that update for an order it has: the order gets
    payment status REFUNDED and keeps its fulfillment status.  The table
    then holds no COMPLETED payment of the order, so an approved
    [processPayment] for it succeeds again. *)
Theorem Sqlite_processRefund_success
    (pdb : Sqlite.PaymentsDatabase) (paymentId : Z) (i : nat) (payment : Payment.t)
    (amount : option Z) (now_ms : Z) :
  Sqlite_payments_ok pdb →
  Sqlite.Payment_findByPk pdb paymentId = Some (i, payment) →
  Payment.estado payment = config.PAYMENT_STATUSES.COMPLETED →
  (∀ a, amount = Some a → a ≤ Payment.monto payment) →
  includes config.PAYMENT_GATEWAYS (Payment.pasarela payment) = true →
  ∃ (refundId message : string) (payment' : Payment.t) (pdb' : Sqlite.PaymentsDatabase),
    Sqlite.paymentsService.processRefund pdb paymentId amount now_ms
    = (Success (refundId, message, payment'), pdb',
       [Sqlite.mkPatch (Payment.pedido_id payment) config.PAYMENT_STATUSES.REFUNDED])
    ∧ Sqlite.Payment_findByPk pdb' paymentId = Some (i, payment')
    ∧ Payment.estado payment' = config.PAYMENT_STATUSES.REFUNDED
    ∧ Payment.monto payment' = Payment.monto payment
    ∧ Payment.pedido_id payment' = Payment.pedido_id payment
    ∧ Sqlite.Payment_findOne pdb' (Payment.pedido_id payment)
        config.PAYMENT_STATUSES.COMPLETED = None
    ∧ (∀ (gateway : string) (loaded : Sqlite.OrderWithProducts) (now_ms2 : Z)
         (now2 : string),
         includes config.PAYMENT_GATEWAYS gateway = true →
         success
           (Sqlite.paymentsService.processPayment pdb' (Payment.pedido_id payment) gateway
              (Success loaded) true now_ms2 now2).1.1 = true)
    ∧ (∀ (db : Sqlite.Database) (loaded : Sqlite.OrderWithProducts),
         Sqlite.ordersService.getOrderById db (Payment.pedido_id payment) = Success loaded →
         ∃ (o' : Sqlite.Order.t) (db' : Sqlite.Database),
           Sqlite.ordersService.updatePaymentStatus db (Payment.pedido_id payment)
             config.PAYMENT_STATUSES.REFUNDED = (Success o', db')
           ∧ o' = Sqlite.Order.set_estadoPago config.PAYMENT_STATUSES.REFUNDED
                    (Sqlite.order loaded)).
Proof.
  intros (Hnp & Hone & Hkeys & Hnodup) Hf Hest Hamount Hgw.
  pose proof (list_find_lookup _ _ _ _ Hf) as Hi.
  pose proof (list_find_holds _ _ _ _ Hf) as Hid. cbn beta in Hid.
  unfold Sqlite.paymentsService.processRefund. rewrite Hf.
  rewrite (bool_decide_eq_true_2 _ Hest). cbn [negb].
  rewrite bool_decide_eq_false_2; last first.
  { destruct amount as [a|]; cbn [truthy_number]; [|lia].
    specialize (Hamount a eq_refl). case_bool_decide; simpl; lia. }
  set (payment' :=
         Payment.set_estado_respuesta config.PAYMENT_STATUSES.REFUNDED
           ("Reembolso procesado: " +:+ "Reembolso procesado exitosamente") payment).
  assert (Sqlite.Payment_save pdb payment'
          = Sqlite.mkPaymentsDatabase (<[i := payment']> (Sqlite.payments pdb))
              (Sqlite.payments_seq pdb)) as Hsave
    by (by apply (Sqlite_Payment_save_found pdb paymentId i payment)).
  assert (Sqlite.Payment_findOne (Sqlite.Payment_save pdb payment')
            (Payment.pedido_id payment) config.PAYMENT_STATUSES.COMPLETED = None) as Hnone.
  { rewrite Hsave. unfold Sqlite.Payment_findOne. cbn [Sqlite.payments].
    rewrite filter_nil_list_find; [done|].
    apply length_zero_iff_nil.
    pose proof (filter_insert_drop
                  (λ p, Payment.pedido_id p = Payment.pedido_id payment
                        ∧ Payment.estado p = config.PAYMENT_STATUSES.COMPLETED)
                  (Sqlite.payments pdb) i payment payment' Hi) as Hdrop.
    specialize (Hone (Payment.pedido_id payment)).
    unfold Sqlite_completed_payments in Hone.
    rewrite <- Hdrop in Hone; [lia|done|by intros [_ ?]]. }
  assert (∃ refundId : string,
            PaymentProcessorFactory.createRefundManager (Payment.pasarela payment)
            = Some (Build_RefundManager
                      (λ _ _ now_ms,
                         Success (refundId +:+ pretty now_ms,
                                  "Reembolso procesado exitosamente")))) as [prefix Hrm].
  { destruct (includes_PAYMENT_GATEWAYS _ Hgw) as [-> | ->]; by eexists. }
  rewrite Hrm. cbn [processRefund]. fold payment'.
  do 4 eexists. split; [reflexivity|]. split_and!; try done.
  - rewrite Hsave. unfold Sqlite.Payment_findByPk in *. cbn [Sqlite.payments].
    by rewrite (keyed_insert_same Payment.id _ _ _ _ payment' Hf eq_refl).
  - intros gateway loaded now_ms2 now2 Hgw2.
    by apply Sqlite_processPayment_approved.
  - intros db loaded (j & Hj & _)%Sqlite_getOrderById_Success.
    unfold Sqlite.ordersService.updatePaymentStatus. rewrite Hj. by eexists _, _.
Qed.

Lemma Sqlite_processRefund_success_witness :
  ∃ (refundId message : string) (payment' : Payment.t) (pdb' : Sqlite.PaymentsDatabase),
    Sqlite.paymentsService.processRefund (Sqlite.mkPaymentsDatabase [ex_payment] 2001) 2001
      None ex_now_ms
    = (Success (refundId, message, payment'), pdb', [Sqlite.mkPatch 1001 "REFUNDED"])
    ∧ Payment.estado payment' = "REFUNDED"
    ∧ Sqlite.Payment_findOne pdb' 1001 "COMPLETED" = None.
Proof.
  destruct (Sqlite_processRefund_success (Sqlite.mkPaymentsDatabase [ex_payment] 2001)
              2001 0 ex_payment None ex_now_ms)
    as (refundId & message & payment' & pdb' & Hrefund & _ & Hest & _ & _ & Hnone & _).
  - unfold Sqlite_payments_ok, Sqlite_completed_payments, unique_ids.
    cbn [Sqlite.payments Sqlite.payments_seq]. split_and!.
    + repeat constructor. vm_compute. discriminate.
    + intros orderId. etrans; [apply length_filter|]. cbn [length]. lia.
    + repeat constructor. vm_compute. discriminate.
    + apply (bool_decide_unpack _). vm_compute. exact I.
  - reflexivity.
  - reflexivity.
  - intros a Ha. discriminate Ha.
  - reflexivity.
  - exists refundId, message, payment', pdb'.
    split; [exact Hrefund|]. split; [exact Hest|exact Hnone].
Defined.
